(** * S3-netCDF-python: the s3Dataset / s3Variable front end and the
      s3FileObject byte stream, embedded in Rocq.

    The development follows the two source files:
    - the netCDF4 replacement classes ([s3Dimension], [s3Variable],
      [s3Group], [s3Dataset]);
    - [S3netCDF4/Backends/_s3FileObject.pyx] (the [s3FileObject] stream).

    Python values are modelled as the code has them: [str] as [string],
    [bytes] as [list byte], [int] as [Z], [dict] as [gmap], exceptions as
    the left summand of a result type.  The language level is Python 3
    (the byte stream is compiled with [language_level=3]): indexing a
    [bytes] object yields an [int]. *)

From Stdlib Require Import ZArith List String Ascii Bool Lia Sorted.
From Stdlib Require QArith.
From Stdlib.Strings Require Import Byte.
From stdpp Require Import base option list gmap strings pretty.

Local Open Scope string_scope.
Local Open Scope Z_scope.

(* ===================================================================== *)
(** * Part I.  Definitions                                                *)
(* ===================================================================== *)

(** ** Exceptions and the result type *)

(** The exception classes the two files raise or let through.  The first
    four are the package's own ([_Exceptions]); the others are Python's. *)
Inductive exn : Type :=
| APIException (msg : string)
| IOException (msg : string)
| CFAError (msg : string)
| IOError (msg : string)
| KeyError (key : string)
| AttributeError (name : string)
| NameError (name : string)
| UnboundLocalError (name : string)
| IndexError (msg : string)
| TypeError (msg : string)
| ValueError (msg : string).

Definition res (A : Type) : Type := (exn + A)%type.

Definition Ok {A : Type} (a : A) : res A := inr a.
Definition Raise {A : Type} (e : exn) : res A := inl e.

Definition bind {A B : Type} (m : res A) (k : A -> res B) : res B :=
  match m with
  | inl e => inl e
  | inr a => k a
  end.

Notation "'try!' x ':=' m 'in' k" := (bind m (fun x => k))
  (at level 10, x pattern, m at level 100, k at level 200).

Definition is_ok {A : Type} (m : res A) : bool :=
  match m with inr _ => true | inl _ => false end.

(** ** Python strings and bytes *)

(** [c in s] for a one-character [c]. *)
Fixpoint contains_char (c : ascii) (s : string) : bool :=
  match s with
  | EmptyString => false
  | String d rest => Ascii.eqb c d || contains_char c rest
  end.

(** [sub in s] for a non-empty [sub]. *)
Fixpoint contains (sub s : string) : bool :=
  String.prefix sub s ||
  match s with
  | EmptyString => false
  | String _ rest => contains sub rest
  end.

(** [name in names] on a list of strings. *)
Definition str_in (name : string) (names : list string) : bool :=
  existsb (String.eqb name) names.

Fixpoint bytes_eqb (a b : list byte) : bool :=
  match a, b with
  | [], [] => true
  | x :: a', y :: b' => Byte.eqb x y && bytes_eqb a' b'
  | _, _ => false
  end.

(** [data[i:j]] for [0 <= i <= j]: slicing clamps, it never raises. *)
Definition bytes_slice (data : list byte) (i j : nat) : list byte :=
  take (j - i)%nat (drop i data).

(** Dynamically typed values, as far as the comparisons in the code need
    them: [==] between values of different types is [False]. *)
Inductive pyval : Type :=
| PyInt (z : Z)
| PyBytes (b : list byte)
| PyStr (s : string).

Definition py_eq (a b : pyval) : bool :=
  match a, b with
  | PyInt x, PyInt y => Z.eqb x y
  | PyBytes x, PyBytes y => bytes_eqb x y
  | PyStr x, PyStr y => String.eqb x y
  | _, _ => false
  end.

(** [data[i]] on a [bytes] object: an [int] in Python 3, [IndexError]
    out of range. *)
Definition bytes_index (data : list byte) (i : nat) : res pyval :=
  match data !! i with
  | Some b => Ok (PyInt (Z.of_N (Byte.to_N b)))
  | None => Raise (IndexError "index out of range")
  end.

(** Short-circuit [and] over fallible operands. *)
Definition and_then (a b : res bool) : res bool :=
  try! x := a in if x then b else Ok false.

(** ** s3Dataset._interpret_netCDF_filetype *)

Module Magic.

(** The byte literals of the function. *)
Definition b_HDF : list byte := [x48; x44; x46].
Definition b_CDF : list byte := [x43; x44; x46].
Definition b_016 : list byte := [x0e].
Definition b_003 : list byte := [x03].
Definition b_023 : list byte := [x13].
Definition b_001 : list byte := [x01].

(** [_interpret_netCDF_filetype(data)]: returns [(file_type, file_version)].
    The branches are the source's, comparison by comparison:
    - [data[1:4] == b'HDF'] compares two [bytes];
    - [data[0] == b'\016'] compares an [int] item with a [bytes] literal;
    - [file_version = data[3]] is an [int], compared with [1], then with
      the [str] literals ['2'] and ['5']. *)
Definition _interpret_netCDF_filetype (data : list byte) : res (string * Z) :=
  if bytes_eqb (bytes_slice data 1 4) b_HDF then
    Ok ("NETCDF4", 5)
  else
    try! v4 :=
      and_then (try! d := bytes_index data 0 in Ok (py_eq d (PyBytes b_016)))
     (and_then (try! d := bytes_index data 1 in Ok (py_eq d (PyBytes b_003)))
     (and_then (try! d := bytes_index data 2 in Ok (py_eq d (PyBytes b_023)))
               (try! d := bytes_index data 3 in Ok (py_eq d (PyBytes b_001)))))
    in
    if v4 then Ok ("NETCDF4", 4)
    else if bytes_eqb (bytes_slice data 0 3) b_CDF then
      try! file_version := bytes_index data 3 in
      if py_eq file_version (PyInt 1) then Ok ("NETCDF3_CLASSIC", 1)
      else if py_eq file_version (PyStr "2") then
        Ok ("NETCDF3_64BIT_OFFSET",
            match file_version with PyInt z => z | _ => 0 end)
      else if py_eq file_version (PyStr "5") then
        Ok ("NETCDF3_64BIT_DATA",
            match file_version with PyInt z => z | _ => 0 end)
      else Ok ("NOT_NETCDF", 1)
    else Ok ("NOT_NETCDF", 0).

(** The magic numbers the specification lists as recognised, as prefixes
    of the header (the first one with one arbitrary leading byte). *)
Definition magic_hdf5 (data : list byte) : bool :=
  bytes_eqb (bytes_slice data 1 4) b_HDF.
Definition magic_hdf4 (data : list byte) : bool :=
  bytes_eqb (bytes_slice data 0 4) [x0e; x03; x13; x01].
Definition magic_cdf (version : byte) (data : list byte) : bool :=
  bytes_eqb (bytes_slice data 0 4) (b_CDF ++ [version])%list.

Definition recognised (data : list byte) : bool :=
  magic_hdf5 data || magic_hdf4 data ||
  magic_cdf x01 data || magic_cdf x02 data || magic_cdf x05 data.

End Magic.

(** ** The CFA data model

    The classes of [S3netCDF4.CFA._CFAClasses], as far as the two files
    read and write them: every class keeps a [metadata] dict and the
    getters the front end calls. *)

Module CFA.

(** Attribute values. *)
Inductive attr : Type :=
| AttrStr (s : string)
| AttrInt (z : Z)
| AttrArr (l : list Z).

Record CFADimension := {
  dim_name : string;
  dim_len : option Z;                      (* [None]: unlimited *)
  dim_axis_type : string;
  dim_type : option string;                (* set by [setType] *)
  dim_metadata : gmap string attr;
}.

(** A group.  [grp_name_is_literal] records whether the [str] object
    [getName()] returns is the very object of the literal ["root"]: the
    front end compares it with [is not "root"]. *)
Record CFAGroup := {
  grp_name : string;
  grp_name_is_literal : bool;
  grp_dimensions : list CFADimension;
  grp_metadata : gmap string attr;
}.

(** [getDimensions()] of a group: the names. *)
Definition getDimensions (g : CFAGroup) : list string :=
  map dim_name (grp_dimensions g).

(** [getDimension(name)] *)
Definition getDimension (g : CFAGroup) (name : string) : res CFADimension :=
  match List.find (fun d => String.eqb (dim_name d) name) (grp_dimensions g) with
  | Some d => Ok d
  | None => Raise (CFAError ("Dimension " +:+ name +:+ " does not exist"))
  end.

(** A partition descriptor (section 3 of the specification). *)
Record CFAPartition := {
  index : list Z;
  location : list (Z * Z);
  shape : list Z;
  file : string;
  part_format : string;
}.

Record CFAVariable := {
  var_name : string;                       (* [getName()] *)
  var_type : string;                       (* [getType()] *)
  var_dims : list string;                  (* [getDimensions()] *)
  var_group : option CFAGroup;             (* [getGroup()] *)
  var_shape : list Z;                      (* lengths of the dimensions *)
  var_subarray_shape : list Z;             (* tile shape *)
  var_max_subarray_size : Z;
  var_base : string;                       (* [getBaseFilename()] *)
  var_metadata : gmap string attr;
  var_written : list CFAPartition;         (* [writePartition] *)
}.

Definition set_var_metadata (cv : CFAVariable) (md : gmap string attr)
  : CFAVariable :=
  {| var_name := var_name cv; var_type := var_type cv;
     var_dims := var_dims cv; var_group := var_group cv;
     var_shape := var_shape cv;
     var_subarray_shape := var_subarray_shape cv;
     var_max_subarray_size := var_max_subarray_size cv;
     var_base := var_base cv; var_metadata := md;
     var_written := var_written cv |}.

Definition set_dim_metadata (cd : CFADimension) (md : gmap string attr)
  : CFADimension :=
  {| dim_name := dim_name cd; dim_len := dim_len cd;
     dim_axis_type := dim_axis_type cd; dim_type := dim_type cd;
     dim_metadata := md |}.

(** [setType(dtype)] *)
Definition setType (cd : CFADimension) (dtype : string) : CFADimension :=
  {| dim_name := dim_name cd; dim_len := dim_len cd;
     dim_axis_type := dim_axis_type cd; dim_type := Some dtype;
     dim_metadata := dim_metadata cd |}.

(** [writePartition(partition)]: the partition is recorded for the
    serialisation on close. *)
Definition writePartition (cv : CFAVariable) (p : CFAPartition) : CFAVariable :=
  {| var_name := var_name cv; var_type := var_type cv;
     var_dims := var_dims cv; var_group := var_group cv;
     var_shape := var_shape cv;
     var_subarray_shape := var_subarray_shape cv;
     var_max_subarray_size := var_max_subarray_size cv;
     var_base := var_base cv; var_metadata := var_metadata cv;
     var_written := (var_written cv ++ [p])%list |}.

Record CFADataset := {
  cfa_name : string;
  cfa_format : string;
  cfa_version : string;                    (* [getCFAVersion()] *)
  cfa_groups : list CFAGroup;
  cfa_metadata : gmap string attr;
}.

(** [getGroup(name)] *)
Definition getGroup (c : CFADataset) (name : string) : res CFAGroup :=
  match List.find (fun g => String.eqb (grp_name g) name) (cfa_groups c) with
  | Some g => Ok g
  | None => Raise (CFAError ("Group " +:+ name +:+ " does not exist"))
  end.

(** The group [createGroup("root")] makes; the name is the literal. *)
Definition root_group : CFAGroup :=
  {| grp_name := "root"; grp_name_is_literal := true;
     grp_dimensions := []; grp_metadata := ∅ |}.

End CFA.

(** ** Arrays and slices *)

Module Nd.

(** A slice [start:stop:step] after normalisation: [0 <= start] and
    [1 <= step]. *)
Record slice := { start : Z; stop : Z; step : Z }.

Definition region := list slice.

(** An n-dimensional array: its shape and its elements by index. Elements
    are the stored bit patterns. *)
Record ndarray := { shape : list Z; item : list Z -> Z }.

(** The bounds a slice selects on an axis of length [n]: slicing clamps. *)
Definition lo (n : Z) (s : slice) : Z := Z.min (start s) n.
Definition hi (n : Z) (s : slice) : Z := Z.min (stop s) n.

(** Number of positions the slice selects on an axis of length [n]. *)
Definition slice_len (n : Z) (s : slice) : Z :=
  if hi n s >? lo n s then (hi n s - lo n s + step s - 1) / step s else 0.

(** Is position [i] of the axis selected? *)
Definition in_slice (n : Z) (s : slice) (i : Z) : bool :=
  (0 <=? i) && (lo n s <=? i) && (i <? hi n s) &&
  ((i - lo n s) mod step s =? 0).

(** Position in the slab of the selected position [i], and back. *)
Definition to_local (n : Z) (s : slice) (i : Z) : Z := (i - lo n s) / step s.
Definition of_local (n : Z) (s : slice) (k : Z) : Z := lo n s + k * step s.

Fixpoint in_region (sh : list Z) (r : region) (i : list Z) : bool :=
  match sh, r, i with
  | [], [], [] => true
  | n :: sh', s :: r', x :: i' => in_slice n s x && in_region sh' r' i'
  | _, _, _ => false
  end.

Fixpoint in_bounds (sh : list Z) (i : list Z) : bool :=
  match sh, i with
  | [], [] => true
  | n :: sh', x :: i' => (0 <=? x) && (x <? n) && in_bounds sh' i'
  | _, _ => false
  end.

Fixpoint region_to_local (sh : list Z) (r : region) (i : list Z) : list Z :=
  match sh, r, i with
  | n :: sh', s :: r', x :: i' => to_local n s x :: region_to_local sh' r' i'
  | _, _, _ => []
  end.

Fixpoint region_of_local (sh : list Z) (r : region) (k : list Z) : list Z :=
  match sh, r, k with
  | n :: sh', s :: r', x :: k' => of_local n s x :: region_of_local sh' r' k'
  | _, _, _ => []
  end.

Fixpoint region_shape (sh : list Z) (r : region) : list Z :=
  match sh, r with
  | n :: sh', s :: r' => slice_len n s :: region_shape sh' r'
  | _, _ => []
  end.

(** An index with fewer slices than axes selects the remaining axes in
    full; one with more is an [IndexError]. *)
Fixpoint pad (sh : list Z) (r : region) : res region :=
  match sh, r with
  | [], [] => Ok []
  | [], _ :: _ => Raise (IndexError "too many indices for array")
  | n :: sh', [] =>
      try! r' := pad sh' [] in
      Ok ({| start := 0; stop := n; step := 1 |} :: r')
  | n :: sh', s :: r0 => try! r' := pad sh' r0 in Ok (s :: r')
  end.

Definition full (sh : list Z) (fill : Z) : ndarray :=
  {| shape := sh; item := fun _ => fill |}.

Definition scalar (z : Z) : ndarray := {| shape := []; item := fun _ => z |}.

(** [a[r]] *)
Definition getslab (a : ndarray) (r : region) : res ndarray :=
  try! r' := pad (shape a) r in
  Ok {| shape := region_shape (shape a) r';
        item := fun k => item a (region_of_local (shape a) r' k) |}.

(** [a[r] = d] for [d] of the slab's shape. *)
Definition put (a : ndarray) (r : region) (d : ndarray) : ndarray :=
  {| shape := shape a;
     item := fun i => if in_region (shape a) r i
                      then item d (region_to_local (shape a) r i)
                      else item a i |}.

(** [a[r] = z] for a scalar [z]. *)
Definition fill (a : ndarray) (r : region) (z : Z) : ndarray :=
  {| shape := shape a;
     item := fun i => if in_region (shape a) r i then z else item a i |}.

Definition shape_eqb (a b : list Z) : bool :=
  bool_decide (a = b).

(** Two arrays are the same array: same shape, same element at every
    index within the shape. *)
Definition array_eq (a b : ndarray) : Prop :=
  shape a = shape b /\
  forall i, in_bounds (shape a) i = true -> item a i = item b i.

(** All indices of a shape, row-major. *)
Fixpoint indices (sh : list Z) : list (list Z) :=
  match sh with
  | [] => [[]]
  | n :: sh' =>
      flat_map (fun x => map (cons x) (indices sh'))
               (map Z.of_nat (seq 0 (Z.to_nat n)))
  end.

Definition array_eqb (a b : ndarray) : bool :=
  shape_eqb (shape a) (shape b) &&
  forallb (fun i => item a i =? item b i) (indices (shape a)).

(** The elements row-major, for inspection. *)
Definition to_list (a : ndarray) : list Z := map (item a) (indices (shape a)).

(** Two regions are separated when on some axis their slices select
    disjoint intervals. *)
Fixpoint separated (r1 r2 : region) : bool :=
  match r1, r2 with
  | s1 :: r1', s2 :: r2' =>
      (stop s1 <=? start s2) || (stop s2 <=? start s1) || separated r1' r2'
  | _, _ => false
  end.

(** What numpy and the netCDF4 library do where the front end leaves it
    to them. *)
Class Libraries := {
  (** the fill pattern a new netCDF variable of the given type holds *)
  default_fill : string -> Z;
  (** netCDF4's [var[r] = d] when [d] is neither of the slab's shape nor a
      scalar: an error, or the elements the variable holds afterwards (an
      assignment never changes the shape of a variable over fixed
      dimensions) *)
  nc_put_nonconforming : ndarray -> region -> ndarray -> res (list Z -> Z);
  (** numpy's [a[r] = d] in the same case *)
  np_put_nonconforming : ndarray -> region -> ndarray -> res (list Z -> Z);
}.

Definition with_items (a : ndarray) (f : list Z -> Z) : ndarray :=
  {| shape := shape a; item := f |}.

(** [a[r] = z] on a numpy array, [z] a scalar. *)
Definition setitem_scalar (a : ndarray) (r : region) (z : Z) : res ndarray :=
  try! r' := pad (shape a) r in Ok (fill a r' z).

(** [a[r] = d] on a numpy array. *)
Definition setitem {L : Libraries} (a : ndarray) (r : region) (d : ndarray)
  : res ndarray :=
  try! r' := pad (shape a) r in
  if shape_eqb (shape d) (region_shape (shape a) r') then Ok (put a r' d)
  else if shape_eqb (shape d) [] then Ok (fill a r' (item d []))
  else try! f := np_put_nonconforming a r' d in Ok (with_items a f).

End Nd.

(** ** netCDF objects

    What the front end needs of the netCDF4 library's objects: groups with
    dimensions, variables and attributes; variables with array data. *)

Module Nc.

Import Nd.

Record NcVariable := {
  ncv_dtype : string;
  ncv_dimensions : list string;
  ncv_attrs : gmap string CFA.attr;
  ncv_FillValue : option Z;                (* the [_FillValue] attribute *)
  ncv_data : ndarray;
}.

Record NcGroup := {
  ncg_dimensions : list (string * Z);
  ncg_variables : gmap string NcVariable;
  ncg_attrs : gmap string CFA.attr;
}.

Record NcDataset := {
  ncd_filename : string;
  ncd_format : string;
  ncd_diskless : bool;
  ncd_root : NcGroup;
  ncd_groups : gmap string NcGroup;
}.

Definition empty_group : NcGroup :=
  {| ncg_dimensions := []; ncg_variables := ∅; ncg_attrs := ∅ |}.

(** [netCDF4.Dataset(filename, mode="w", format=..., diskless=...)] *)
Definition new_dataset (filename fmt : string) (diskless : bool) : NcDataset :=
  {| ncd_filename := filename; ncd_format := fmt; ncd_diskless := diskless;
     ncd_root := empty_group; ncd_groups := ∅ |}.

(** [getncattr(name)] on a netCDF object. *)
Definition getncattr (attrs : gmap string CFA.attr) (name : string)
  : res CFA.attr :=
  match attrs !! name with
  | Some a => Ok a
  | None => Raise (AttributeError ("NetCDF: Attribute not found: " +:+ name))
  end.

(** [var._FillValue] *)
Definition _FillValue (v : NcVariable) : res Z :=
  match ncv_FillValue v with
  | Some z => Ok z
  | None => Raise (AttributeError "NetCDF: Attribute not found: _FillValue")
  end.

Definition set_variables (g : NcGroup) (vars : gmap string NcVariable)
  : NcGroup :=
  {| ncg_dimensions := ncg_dimensions g; ncg_variables := vars;
     ncg_attrs := ncg_attrs g |}.

Definition set_variable (g : NcGroup) (name : string) (v : NcVariable)
  : NcGroup := set_variables g (<[name := v]> (ncg_variables g)).

Definition set_data (v : NcVariable) (d : ndarray) : NcVariable :=
  {| ncv_dtype := ncv_dtype v; ncv_dimensions := ncv_dimensions v;
     ncv_attrs := ncv_attrs v; ncv_FillValue := ncv_FillValue v;
     ncv_data := d |}.

(** [setncatts(attdict)] on a group and on a variable. *)
Definition grp_setncatts (g : NcGroup) (attdict : gmap string CFA.attr)
  : NcGroup :=
  {| ncg_dimensions := ncg_dimensions g; ncg_variables := ncg_variables g;
     ncg_attrs := attdict ∪ ncg_attrs g |}.

Definition var_setncatts (v : NcVariable) (attdict : gmap string CFA.attr)
  : NcVariable :=
  {| ncv_dtype := ncv_dtype v; ncv_dimensions := ncv_dimensions v;
     ncv_attrs := attdict ∪ ncv_attrs v; ncv_FillValue := ncv_FillValue v;
     ncv_data := ncv_data v |}.

(** [grp.createDimension(name, size)] *)
Definition createDimension (g : NcGroup) (name : string) (size : Z)
  : res NcGroup :=
  if str_in name (map fst (ncg_dimensions g)) then
    Raise (ValueError ("NetCDF: String match to name in use: " +:+ name))
  else
    Ok {| ncg_dimensions := (ncg_dimensions g ++ [(name, size)])%list;
          ncg_variables := ncg_variables g; ncg_attrs := ncg_attrs g |}.

Definition dim_size (g : NcGroup) (name : string) : res Z :=
  match List.find (fun d => String.eqb (fst d) name) (ncg_dimensions g) with
  | Some d => Ok (snd d)
  | None => Raise (ValueError ("cannot find dimension " +:+ name))
  end.

Fixpoint dim_sizes (g : NcGroup) (names : list string) : res (list Z) :=
  match names with
  | [] => Ok []
  | n :: rest =>
      try! z := dim_size g n in
      try! zs := dim_sizes g rest in
      Ok (z :: zs)
  end.

(** [grp.createVariable(name, dtype, dimensions)]: a new variable holding
    the fill pattern of its type. *)
Definition createVariable {L : Libraries} (g : NcGroup) (name dtype : string)
    (dims : list string) : res (NcVariable * NcGroup) :=
  match ncg_variables g !! name with
  | Some _ => Raise (ValueError ("NetCDF: String match to name in use: " +:+ name))
  | None =>
      try! sh := dim_sizes g dims in
      let v := {| ncv_dtype := dtype; ncv_dimensions := dims;
                  ncv_attrs := ∅; ncv_FillValue := None;
                  ncv_data := full sh (default_fill dtype) |} in
      Ok (v, set_variable g name v)
  end.

(** [grp[name]] / [grp.variables[name]] *)
Definition variable (g : NcGroup) (name : string) : res NcVariable :=
  match ncg_variables g !! name with
  | Some v => Ok v
  | None => Raise (IndexError (name +:+ " not found"))
  end.

(** [dataset.createGroup(name)] and [dataset[name]] for a group. *)
Definition set_group (ds : NcDataset) (name : string) (g : NcGroup)
  : NcDataset :=
  {| ncd_filename := ncd_filename ds; ncd_format := ncd_format ds;
     ncd_diskless := ncd_diskless ds; ncd_root := ncd_root ds;
     ncd_groups := <[name := g]> (ncd_groups ds) |}.

Definition set_root (ds : NcDataset) (g : NcGroup) : NcDataset :=
  {| ncd_filename := ncd_filename ds; ncd_format := ncd_format ds;
     ncd_diskless := ncd_diskless ds; ncd_root := g;
     ncd_groups := ncd_groups ds |}.

Definition group (ds : NcDataset) (name : string) : res NcGroup :=
  match ncd_groups ds !! name with
  | Some g => Ok g
  | None => Raise (IndexError (name +:+ " not found in /"))
  end.

(** [var[r]] *)
Definition var_get (v : NcVariable) (r : region) : res ndarray :=
  getslab (ncv_data v) r.

(** [var[r] = d]: [d] of the slab's shape is stored, a scalar fills the
    slab, anything else is left to the library. *)
Definition var_put {L : Libraries} (v : NcVariable) (r : region) (d : ndarray)
  : res NcVariable :=
  try! r' := pad (shape (ncv_data v)) r in
  if shape_eqb (shape d) (region_shape (shape (ncv_data v)) r') then
    Ok (set_data v (put (ncv_data v) r' d))
  else if shape_eqb (shape d) [] then
    Ok (set_data v (fill (ncv_data v) r' (item d [])))
  else
    try! f := nc_put_nonconforming (ncv_data v) r' d in
    Ok (set_data v (with_items (ncv_data v) f)).

(** The attribute protocol of the netCDF4 library where the front end
    hands a name on to it: the list [netCDF4._private_atts], what
    [__getattr__(name)] of a variable and of a group answers (a value,
    kept as an attribute value, or an exception), and the text
    [str.format] gives an array. *)
Class Protocol := {
  _private_atts : list string;
  var___getattr__ : NcVariable -> string -> res CFA.attr;
  grp___getattr__ : NcGroup -> string -> res CFA.attr;
  format_array : list Z -> string;
}.

(** ["{}".format(value)]: a string as it is, an integer in decimal. *)
Definition format_value {P : Protocol} (a : CFA.attr) : string :=
  match a with
  | CFA.AttrStr s => s
  | CFA.AttrInt z => pretty z
  | CFA.AttrArr l => format_array l
  end.

End Nc.

(** ** s3Dataset.__init__ *)

Module s3Dataset.

(** [file_object] of the record the file manager hands back: what
    [__init__] reads of it. *)
Record FileObject := {
  remote_system : bool;
  read_from : Z -> Z -> res (list byte);
  read : res (list byte);
}.

(** A [netCDF4.Dataset] object, by the arguments it was constructed with. *)
Record NcHandle := {
  nc_filename : string;
  nc_mode : string;
  nc_clobber : bool;
  nc_format : string;
  nc_diskless : bool;
  nc_persist : bool;
  nc_keepweakref : bool;
  nc_memory : option (list byte);     (* [memory=0] is the empty buffer *)
}.

Import CFA.

(** The collaborators [__init__] calls and whose code is outside the two
    files: the file manager, the netCDF4 library and the CFA parser. *)
Class Backend := {
  (** [FileManager.request_file(filename, mode=fh_mode)] *)
  request_file : string -> string -> res FileObject;
  (** [netCDF4.Dataset(...)]: [None] when the constructor returns *)
  nc_Dataset_raises : NcHandle -> option exn;
  (** [CFA_netCDFParser.is_file] and [.read] *)
  parser_is_file : NcHandle -> bool;
  parser_read : NcHandle -> string -> res CFADataset;
}.

(** What the constructor does before it returns or raises, in order. *)
Inductive event : Type :=
| EvFileManager
| EvRequestFile (filename fh_mode : string)
| EvCFADataset (c : CFADataset)
| EvNcDataset (h : NcHandle)
| EvReadFrom (offset n : Z)
| EvRead
| EvParserRead (filename : string).

(** State-and-error monad over the trace of events. *)
Definition M (A : Type) : Type := list event -> res A * list event.

Definition ret {A : Type} (a : A) : M A := fun tr => (Ok a, tr).
Definition raise {A : Type} (e : exn) : M A := fun tr => (Raise e, tr).
Definition emit (ev : event) : M unit := fun tr => (Ok tt, (tr ++ [ev])%list).
Definition lift {A : Type} (m : res A) : M A := fun tr => (m, tr).
Definition mbind {A B : Type} (m : M A) (k : A -> M B) : M B :=
  fun tr =>
    match m tr with
    | (inl e, tr') => (inl e, tr')
    | (inr a, tr') => k a tr'
    end.

Notation "'do!' x ':=' m 'in' k" := (mbind m (fun x => k))
  (at level 10, x pattern, m at level 100, k at level 200).

Record OpenArgs := {
  filename : string;
  mode : string;
  clobber : bool;
  format : string;
  diskless : bool;
  persist : bool;
  keepweakref : bool;
  memory : option (list byte);
  arg_cfa_version : string;
}.

(** The keyword defaults of [__init__]. *)
Definition open_args (filename mode format cfa_version : string) : OpenArgs :=
  {| filename := filename; mode := mode; clobber := true; format := format;
     diskless := false; persist := false; keepweakref := false;
     memory := None; arg_cfa_version := cfa_version |}.

(** The object a successful [__init__] leaves. *)
Record t := {
  _mode : string;
  _creation_format : string;          (* _creation_params["format"] *)
  _managed_object : FileObject;
  _cfa_dataset : option CFADataset;
  _nc_dataset : NcHandle;
}.

Definition new_nc_dataset {B : Backend} (h : NcHandle) : M NcHandle :=
  do! _ := emit (EvNcDataset h) in
  match nc_Dataset_raises h with
  | Some e => raise e
  | None => ret h
  end.

Definition new_cfa_dataset (name fmt version : string) : M CFADataset :=
  let c := {| cfa_name := name; cfa_format := fmt; cfa_version := version;
              cfa_groups := [root_group]; cfa_metadata := ∅ |} in
  do! _ := emit (EvCFADataset c) in ret c.

(** The write branch of [__init__] ([mode == 'w']). *)
Definition init_write {B : Backend} (a : OpenArgs) (mo : FileObject) : M t :=
  do! (file_type, cfa) :=
    (if String.eqb (format a) "CFA4" || String.eqb (format a) "DEFAULT" then
       do! c := new_cfa_dataset (filename a) "NETCDF4" (arg_cfa_version a) in
       ret ("NETCDF4", Some c)
     else if String.eqb (format a) "CFA3" then
       do! c := new_cfa_dataset (filename a) "NETCDF3_CLASSIC"
                                (arg_cfa_version a) in
       ret ("NETCDF3_CLASSIC", Some c)
     else ret (format a, None)) in
  do! nc :=
    (if remote_system mo then
       new_nc_dataset
         {| nc_filename := "inmemory.nc"; nc_mode := mode a;
            nc_clobber := clobber a; nc_format := file_type;
            nc_diskless := true; nc_persist := false;
            nc_keepweakref := keepweakref a; nc_memory := Some [] |}
     else
       new_nc_dataset
         {| nc_filename := filename a; nc_mode := mode a;
            nc_clobber := clobber a; nc_format := file_type;
            nc_diskless := diskless a; nc_persist := persist a;
            nc_keepweakref := keepweakref a; nc_memory := None |}) in
  ret {| _mode := mode a; _creation_format := file_type;
         _managed_object := mo; _cfa_dataset := cfa; _nc_dataset := nc |}.

(** The read branch of [__init__] ([mode == 'r']). *)
Definition init_read {B : Backend} (a : OpenArgs) (mo : FileObject) : M t :=
  do! _ := emit (EvReadFrom 0 6) in
  do! data := lift (read_from mo 0 6) in
  do! (file_type, file_version) :=
    lift (Magic._interpret_netCDF_filetype data) in
  if String.eqb file_type "NOT_NETCDF" then
    raise (IOError ("File: " +:+ filename a +:+ " is not a netCDF file"))
  else
    do! nc :=
      (if remote_system mo then
         do! _ := emit EvRead in
         do! nc_bytes := lift (read mo) in
         new_nc_dataset
           {| nc_filename := "inmemory.nc"; nc_mode := mode a;
              nc_clobber := clobber a; nc_format := file_type;
              nc_diskless := diskless a; nc_persist := persist a;
              nc_keepweakref := keepweakref a; nc_memory := Some nc_bytes |}
       else
         new_nc_dataset
           {| nc_filename := filename a; nc_mode := mode a;
              nc_clobber := clobber a; nc_format := file_type;
              nc_diskless := diskless a; nc_persist := persist a;
              nc_keepweakref := keepweakref a; nc_memory := None |}) in
    do! cfa :=
      (if parser_is_file nc then
         do! _ := emit (EvParserRead (filename a)) in
         do! c := lift (parser_read nc (filename a)) in ret (Some c)
       else ret None) in
    ret {| _mode := mode a; _creation_format := format a;
           _managed_object := mo; _cfa_dataset := cfa; _nc_dataset := nc |}.

(** The test of the compatibility check that opens [__init__]. *)
Definition incompatible (cfa_version format : string) : bool :=
  String.eqb cfa_version "0.5" &&
  (String.eqb format "CFA3" || String.eqb format "NETCDF3_CLASSIC").

(** [fh_mode]: bound only by [if 'b' not in mode: fh_mode = mode + 'b'];
    there is no [else]. *)
Definition fh_mode_of (mode : string) : option string :=
  if negb (contains_char "b" mode) then Some (mode +:+ "b") else None.

(** [s3Dataset.__init__(filename, mode, clobber, format, diskless, persist,
    keepweakref, memory, cfa_version)]. *)
Definition __init__ {B : Backend} (a : OpenArgs) : M t :=
  if incompatible (arg_cfa_version a) (format a) then
    raise (APIException "CFA 0.5 is not compatible with NETCDF3 file formats.")
  else
    do! _ := emit EvFileManager in
    match fh_mode_of (mode a) with
    | None => raise (UnboundLocalError "fh_mode")
    | Some fh_mode =>
      do! _ := emit (EvRequestFile (filename a) fh_mode) in
      do! mo := lift (request_file (filename a) fh_mode) in
      if String.eqb (mode a) "w" then init_write a mo
      else if String.eqb (mode a) "r" then init_read a mo
      else raise (APIException ("Mode " +:+ mode a +:+ " not supported."))
    end.

(** Running the constructor from an empty trace. *)
Definition open {B : Backend} (a : OpenArgs) : res t * list event :=
  __init__ a [].

End s3Dataset.

(** ** The file manager *)

Module FileManager.

(** The states of an [OpenFileRecord]. *)
Inductive state : Type :=
| OPEN_NEW_IN_MEMORY
| OPEN_NEW_ON_DISK
| OPEN_EXISTS_IN_MEMORY
| OPEN_EXISTS_ON_DISK
| DOES_NOT_EXIST
| CLOSED.

Record OpenFileRecord := {
  open_state : state;
  size : Z;
  data_object : option Nc.NcDataset;
}.

(** The manager: the open-file table [files] (a dict keyed by URI), the
    order of use, most recent first, the backing store (a URI maps to the
    dataset its bytes hold), and the cap on the bytes held in memory. *)
Record t := {
  files : gmap string OpenFileRecord;
  lru : list string;
  store : gmap string Nc.NcDataset;
  memory_limit : Z;
}.

Definition touch (uri : string) (l : list string) : list string :=
  uri :: List.filter (fun u => negb (String.eqb u uri)) l.

Definition in_memory (r : OpenFileRecord) : bool :=
  match open_state r with
  | OPEN_NEW_IN_MEMORY | OPEN_EXISTS_IN_MEMORY => true
  | _ => false
  end.

(** Bytes the table holds in memory. *)
Definition memory_used (fm : t) : Z :=
  map_fold (fun _ r acc => if in_memory r then size r + acc else acc)
           0 (files fm).

(** A URI with a scheme is remote; a path without one is local. *)
Definition is_remote (uri : string) : bool := contains "://" uri.

(** A record found in the table has been opened before. *)
Definition promote (r : OpenFileRecord) : OpenFileRecord :=
  {| open_state := match open_state r with
                   | OPEN_NEW_IN_MEMORY => OPEN_EXISTS_IN_MEMORY
                   | OPEN_NEW_ON_DISK => OPEN_EXISTS_ON_DISK
                   | s => s
                   end;
     size := size r; data_object := data_object r |}.

Definition on_store (fm : t) (uri : string) : bool :=
  match store fm !! uri with Some _ => true | None => false end.

(** Modelled from the spec: [FileManager.request_file(uri, size, mode)]
    (the module [S3netCDF4.Managers._FileManager] is not among the source
    files).  Section 4.3: a record in the table is returned and becomes
    the most recently used; otherwise a read of a URI absent on the
    backing store gives [DOES_NOT_EXIST]; otherwise the file is opened for
    the first time, in memory iff it is remote and its projected size fits
    the free budget.  With that placement the cap holds at every
    insertion; eviction of records is not modelled. *)
Definition request_file (fm : t) (uri : string) (sz : Z) (mode : string)
  : OpenFileRecord * t :=
  match files fm !! uri with
  | Some r =>
      let r' := promote r in
      (r', {| files := <[uri := r']> (files fm); lru := touch uri (lru fm);
              store := store fm; memory_limit := memory_limit fm |})
  | None =>
      if String.eqb mode "r" && negb (on_store fm uri)
      then ({| open_state := DOES_NOT_EXIST; size := 0;
               data_object := None |}, fm)
      else
        let st := if is_remote uri && (sz <=? memory_limit fm - memory_used fm)
                  then OPEN_NEW_IN_MEMORY else OPEN_NEW_ON_DISK in
        let r := {| open_state := st; size := sz; data_object := None |} in
        (r, {| files := <[uri := r]> (files fm); lru := touch uri (lru fm);
               store := store fm; memory_limit := memory_limit fm |})
  end.

Definition with_data (ds : Nc.NcDataset) (r : OpenFileRecord)
  : OpenFileRecord :=
  {| open_state := open_state r; size := size r; data_object := Some ds |}.

(** [request_object.data_object = ds]: the record is the table's own
    object, so the table sees the assignment; a record that is not in the
    table ([DOES_NOT_EXIST]) changes nothing there. *)
Definition set_data_object (fm : t) (uri : string) (ds : Nc.NcDataset) : t :=
  {| files := alter (with_data ds) uri (files fm); lru := lru fm;
     store := store fm; memory_limit := memory_limit fm |}.

(** Modelled from the spec: [FileManager.request_array(index_list, dtype,
    base)]: a zero-initialised array shaped to the bounding box of the
    target slices. *)
Fixpoint bounding_box (targets : list Nd.region) : list Z :=
  match targets with
  | [] => []
  | [r] => map Nd.stop r
  | r :: rest => zip_with Z.max (map Nd.stop r) (bounding_box rest)
  end.

Definition request_array (targets : list Nd.region) : Nd.ndarray :=
  Nd.full (bounding_box targets) 0.

(** The dataset a read of [uri] works on: the cached object of an open
    record, else what the backing store holds. *)
Definition resolve (fm : t) (uri : string) : option Nc.NcDataset :=
  match files fm !! uri with
  | Some r => data_object r
  | None => store fm !! uri
  end.

(** Every record of the table is an open file with its dataset attached. *)
Definition is_open (r : OpenFileRecord) : Prop :=
  (open_state r = OPEN_NEW_IN_MEMORY \/ open_state r = OPEN_NEW_ON_DISK \/
   open_state r = OPEN_EXISTS_IN_MEMORY \/ open_state r = OPEN_EXISTS_ON_DISK)
  /\ is_Some (data_object r).

Definition consistent (fm : t) : Prop :=
  forall uri r, files fm !! uri = Some r -> is_open r.

Definition empty (limit : Z) : t :=
  {| files := ∅; lru := []; store := ∅; memory_limit := limit |}.

(** Modelled from the spec: the backing store after the dataset is closed
    (section 4.4): every record of the table is flushed to its URI. *)
Definition flushed (fm : t) : gmap string Nc.NcDataset :=
  omap data_object (files fm) ∪ store fm.

(** A manager that has opened nothing yet, over a given backing store. *)
Definition over (st : gmap string Nc.NcDataset) (limit : Z) : t :=
  {| files := ∅; lru := []; store := st; memory_limit := limit |}.

End FileManager.

(** ** The partition index *)

Module PartitionIndex.

Import CFA.

(** A Python [slice] object as the caller writes it. *)
Record pyslice := {
  sl_start : option Z;
  sl_stop : option Z;
  sl_step : option Z;
}.

Definition all : pyslice :=
  {| sl_start := None; sl_stop := None; sl_step := None |}.
Definition range (a b : Z) : pyslice :=
  {| sl_start := Some a; sl_stop := Some b; sl_step := None |}.

Record IndexEntry := {
  partition : CFAPartition;
  source : Nd.region;
  target : Nd.region;
}.

(** Step 1: resolve negatives and clamp against the axis length [n]. *)
Definition resolve_bound (n : Z) (b : Z) : Z :=
  let b' := if b <? 0 then b + n else b in Z.max 0 (Z.min b' n).

Definition normalise (n : Z) (s : pyslice) : res Nd.slice :=
  let st := default 1 (sl_step s) in
  if st <=? 0 then Raise (IndexError "only positive steps are modelled")
  else Ok {| Nd.start := default 0 (resolve_bound n <$> sl_start s);
             Nd.stop := default n (resolve_bound n <$> sl_stop s);
             Nd.step := st |}.

(** One axis of a candidate: the partition's position and location on the
    axis, and the source and target slices there. *)
Record AxisHit := {
  pos : Z;
  loc : Z * Z;
  src : Nd.slice;
  tgt : Nd.slice;
}.

(** Steps 2, 4 and 5 on one axis of length [n] tiled by [tile]: the tile at
    position [k] covers [[k*tile, min((k+1)*tile, n))]; it is kept when the
    slice selects a position inside. *)
Definition axis_hit (n tile : Z) (s : Nd.slice) (k : Z) : option AxisHit :=
  let pstart := k * tile in
  let pend := Z.min ((k + 1) * tile) n in
  let lo := Z.max (Nd.start s) pstart in
  let hi := Z.min (Nd.stop s) pend in
  let kfirst := (lo - Nd.start s + Nd.step s - 1) / Nd.step s in
  let first := Nd.start s + kfirst * Nd.step s in
  if first <? hi then
    let count := (hi - first + Nd.step s - 1) / Nd.step s in
    Some {| pos := k; loc := (pstart, pend);
            src := {| Nd.start := first - pstart; Nd.stop := hi - pstart;
                      Nd.step := Nd.step s |};
            tgt := {| Nd.start := kfirst; Nd.stop := kfirst + count;
                      Nd.step := 1 |} |}
  else None.

(** A hit ends, in the target, where or before another begins. *)
Definition before (h1 h2 : AxisHit) : Prop :=
  Nd.stop (tgt h1) <= Nd.start (tgt h2).

(** Number of tiles on an axis. *)
Definition tiles (n tile : Z) : Z := (n + tile - 1) / tile.

Definition axis_hits (n tile : Z) (s : Nd.slice) : list AxisHit :=
  omap (fun k => axis_hit n tile s (Z.of_nat k))
       (seq 0 (Z.to_nat (tiles n tile))).

(** Step 3: the Cartesian product over the axes, row-major. *)
Fixpoint product (axes : list (list AxisHit)) : list (list AxisHit) :=
  match axes with
  | [] => [[]]
  | hits :: rest =>
      flat_map (fun h => map (cons h) (product rest)) hits
  end.

(** The file of the partition at [idx]:
    [{master_base_name}/{variable_name}.{index_joined_by_dot}.nc]. *)
Fixpoint join_dot (idx : list Z) : string :=
  match idx with
  | [] => ""
  | [i] => pretty i
  | i :: rest => pretty i +:+ "." +:+ join_dot rest
  end.

Definition partition_file (cv : CFAVariable) (idx : list Z) : string :=
  var_base cv +:+ "/" +:+ var_name cv +:+ "." +:+ join_dot idx +:+ ".nc".

Definition entry_of (cv : CFAVariable) (hits : list AxisHit) : IndexEntry :=
  {| partition :=
       {| index := map pos hits;
          location := map loc hits;
          shape := map (fun h => snd (loc h) - fst (loc h)) hits;
          file := partition_file cv (map pos hits);
          part_format := "netCDF" |};
     source := map src hits;
     target := map tgt hits |}.

Fixpoint normalise_all (sh : list Z) (elem : list pyslice)
  : res (list Nd.slice) :=
  match sh, elem with
  | [], [] => Ok []
  | [], _ :: _ => Raise (IndexError "too many indices")
  | n :: sh', [] =>
      try! s := normalise n all in
      try! r := normalise_all sh' [] in Ok (s :: r)
  | n :: sh', e :: elem' =>
      try! s := normalise n e in
      try! r := normalise_all sh' elem' in Ok (s :: r)
  end.

Fixpoint axes_hits (sh tile : list Z) (r : list Nd.slice)
  : list (list AxisHit) :=
  match sh, tile, r with
  | n :: sh', t :: tile', s :: r' => axis_hits n t s :: axes_hits sh' tile' r'
  | _, _, _ => []
  end.

(** Modelled from the spec: [CFAVariable.__getitem__(elem)], the partition
    index of section 4.1 (the class lives in [S3netCDF4.CFA._CFAClasses],
    which is not among the source files).  [elem] is a tuple of slices;
    the entries come in row-major order of the partition indices. *)
Definition __getitem__ (cv : CFAVariable) (elem : list pyslice)
  : res (list IndexEntry) :=
  try! r := normalise_all (var_shape cv) elem in
  Ok (map (entry_of cv)
          (product (axes_hits (var_shape cv) (var_subarray_shape cv) r))).

(** The targets of the entries are pairwise separated. *)
Fixpoint separated_from (r : Nd.region) (es : list IndexEntry) : bool :=
  match es with
  | [] => true
  | e :: rest => Nd.separated r (target e) && separated_from r rest
  end.

Fixpoint targets_separated (es : list IndexEntry) : bool :=
  match es with
  | [] => true
  | e :: rest => separated_from (target e) rest && targets_separated rest
  end.

End PartitionIndex.

(** ** s3Variable *)

Module s3Variable.

Import CFA.
Import PartitionIndex.

(** The CFA calls of [create] whose code is outside the two files. *)
Class CFAOps := {
  (** [CFAGroup.createVariable(var_name, nc_dtype, dim_names,
      subarray_shape, max_subarray_size)] *)
  cfa_createVariable :
    CFAGroup -> string -> string -> list string -> list Z -> Z ->
    res CFAVariable;
  (** [CFAVariable.writeInitialPartitionInfo(cfa_version, nc_parent)]:
      [None] when it returns *)
  writeInitialPartitionInfo_raises : CFAVariable -> string -> option exn;
}.

(** The s3Dataset a variable reaches through its parent. *)
Record S3d := {
  d_cfa_dataset : option CFADataset;       (* [_cfa_dataset] *)
  d_nc_dataset : Nc.NcGroup;               (* [_nc_dataset], its root group *)
  d_format : string;                       (* [_creation_params["format"]] *)
  d_diskless : bool;                       (* [_creation_params["diskless"]] *)
}.

(** The parent a variable is created in: an s3Group (with its
    [_cfa_grp], its [_nc_grp] and its own parent), an s3Dataset, or an
    object with neither [_nc_grp] nor [_nc_dataset]. *)
Inductive Parent : Type :=
| InGroup (cfa_grp : option CFAGroup) (nc_grp : Nc.NcGroup) (s3d : S3d)
| InDataset (s3d : S3d)
| Orphan.

(** The [dimensions] argument: [create] insists on a tuple. *)
Inductive pyseq : Type :=
| PyTuple (l : list string)
| PyList (l : list string).

Definition seq_items (d : pyseq) : list string :=
  match d with PyTuple l | PyList l => l end.

Record t := {
  _cfa_var : option CFAVariable;
  _cfa_dim : option CFADimension;
  _nc_var : Nc.NcVariable;
}.

(** The dispatch test of the slice and attribute methods:
    [hasattr(self, "_cfa_var") and self._cfa_var]. *)
Definition is_partitioned (v : t) : bool :=
  match _cfa_var v with Some _ => true | None => false end.

Definition with_nc_fill (v : Nc.NcVariable) (fill_value : option Z)
  : Nc.NcVariable :=
  {| Nc.ncv_dtype := Nc.ncv_dtype v; Nc.ncv_dimensions := Nc.ncv_dimensions v;
     Nc.ncv_attrs := Nc.ncv_attrs v; Nc.ncv_FillValue := fill_value;
     Nc.ncv_data := Nc.ncv_data v |}.

(** [nc_parent.createVariable(name, datatype, dimensions=nc_dimensions,
    ..., fill_value=fill_value, ...)]: the new variable and the parent
    group holding it. *)
Definition nc_createVariable {L : Nd.Libraries} (g : Nc.NcGroup)
    (name datatype : string) (nc_dimensions : list string)
    (fill_value : option Z) : res (Nc.NcVariable * Nc.NcGroup) :=
  try! (v, g1) := Nc.createVariable g name datatype nc_dimensions in
  let v' := with_nc_fill v fill_value in
  Ok (v', Nc.set_variable g1 name v').

(** The first half of [create]: which CFA objects the variable gets, the
    dimensions of its netCDF twin, the netCDF parent and the s3Dataset. *)
Definition create_cfa {C : CFAOps} (parent : Parent) (name datatype : string)
    (dimensions : list string) (subarray_shape : list Z)
    (max_subarray_size : Z)
  : res (option CFAVariable * option CFADimension * list string *
         Nc.NcGroup * option S3d) :=
  let in_cfa_group (g : CFAGroup) (nc_parent : Nc.NcGroup) (s3d : S3d) :=
    if str_in name (getDimensions g) then
      try! d := getDimension g name in
      Ok (None, Some (setType d datatype), [name], nc_parent, Some s3d)
    else
      try! cv := cfa_createVariable g name datatype dimensions
                                    subarray_shape max_subarray_size in
      Ok (Some cv, None, [], nc_parent, Some s3d) in
  match parent with
  | InGroup (Some g) nc_grp s3d => in_cfa_group g nc_grp s3d
  | InGroup None nc_grp s3d => Ok (None, None, dimensions, nc_grp, None)
  | InDataset s3d =>
      match d_cfa_dataset s3d with
      | Some c =>
          try! cfa_root_group := getGroup c "root" in
          in_cfa_group cfa_root_group (d_nc_dataset s3d) s3d
      | None => Ok (None, None, dimensions, d_nc_dataset s3d, None)
      end
  | Orphan => Raise (APIException "Cannot find group or dataset in parent")
  end.

(** [s3Variable.create(parent, name, datatype, dimensions, ...,
    fill_value, ..., subarray_shape, max_subarray_size)] on a fresh
    [s3Variable()]: the variable and the netCDF parent after the call. *)
Definition create {C : CFAOps} {L : Nd.Libraries} (parent : Parent)
    (name datatype : string) (dimensions : pyseq) (fill_value : option Z)
    (subarray_shape : list Z) (max_subarray_size : Z)
  : res (t * Nc.NcGroup) :=
  match dimensions with
  | PyList _ => Raise (APIException "Dimensions has to be of type tuple")
  | PyTuple dims =>
      try! (cfa_var, cfa_dim, nc_dimensions, nc_parent, s3_dataset) :=
        create_cfa parent name datatype dims subarray_shape
                   max_subarray_size in
      try! _ :=
        match cfa_var with
        | Some cv =>
            if negb (length (var_dims cv) =? 0)%nat then
              match s3_dataset with
              | Some {| d_cfa_dataset := Some c |} =>
                  if String.eqb (cfa_version c) "0.5" ||
                     String.eqb (cfa_version c) "0.4" then
                    match writeInitialPartitionInfo_raises cv (cfa_version c) with
                    | Some e => Raise e
                    | None => Ok tt
                    end
                  else
                    Raise (CFAError ("Unsupported CFA version " +:+
                                     cfa_version c +:+ "."))
              | _ => Raise (AttributeError "getCFAVersion")
              end
            else Ok tt
        | None => Ok tt
        end in
      try! (nc_var, nc_parent') :=
        nc_createVariable nc_parent name datatype nc_dimensions fill_value in
      Ok ({| _cfa_var := cfa_var; _cfa_dim := cfa_dim; _nc_var := nc_var |},
          nc_parent')
  end.

(** The CFA group [create] consults: the parent group's [_cfa_grp], or
    the root group of the parent dataset's [_cfa_dataset]. *)
Definition parent_cfa_group (parent : Parent) : option CFAGroup :=
  match parent with
  | InGroup cfa_grp _ _ => cfa_grp
  | InDataset s3d =>
      match d_cfa_dataset s3d with
      | Some c => match getGroup c "root" with inr g => Some g | inl _ => None end
      | None => None
      end
  | Orphan => None
  end.

(** *** Attributes *)

Definition with_cfa_var (v : t) (cv : CFAVariable) : t :=
  {| _cfa_var := Some cv; _cfa_dim := _cfa_dim v; _nc_var := _nc_var v |}.

Definition with_cfa_dim (v : t) (cd : CFADimension) : t :=
  {| _cfa_var := _cfa_var v; _cfa_dim := Some cd; _nc_var := _nc_var v |}.

Definition not_found (attr_name var_name : string) : exn :=
  APIException ("Attribute " +:+ attr_name +:+ " not found in variable " +:+
                var_name).

(** [s3Variable._private_atts] *)
Definition _private_atts : list string :=
  ["_cfa_var"; "_cfa_dim"; "_nc_var"; "_file_manager"; "parent"].

(** [d[name]] on a metadata dict. *)
Definition dict_item (d : gmap string attr) (name : string) : res attr :=
  match d !! name with
  | Some a => Ok a
  | None => Raise (KeyError name)
  end.

(** [__getattr__(name)] past its first test, that is for a [name] that
    is not in [s3Variable._private_atts]: a name in
    [netCDF4._private_atts] is handed to the netCDF variable, any other
    is looked up in the metadata of the CFA variable or dimension, and
    handed to the netCDF variable when there is neither. *)
Definition getattr_public {P : Nc.Protocol} (v : t) (name : string)
  : res attr :=
  if str_in name Nc._private_atts then Nc.var___getattr__ (_nc_var v) name
  else
    match _cfa_var v with
    | Some cv => dict_item (var_metadata cv) name
    | None =>
        match _cfa_dim v with
        | Some cd => dict_item (dim_metadata cd) name
        | None => Nc.var___getattr__ (_nc_var v) name
        end
    end.

(** [self.name]: [__init__] and [create] bind no attribute [name] and
    the class has none, so the lookup ends in [__getattr__('name')];
    ['name'] is not in [s3Variable._private_atts]. *)
Definition self_name {P : Nc.Protocol} (v : t) : res attr :=
  getattr_public v "name".

(** [raise APIException("Attribute {} not found in variable {}".format(
    name, self.name))]: what the statement raises; [self.name] is
    evaluated first. *)
Definition raise_not_found {P : Nc.Protocol} (attr_name : string)
    (looked_up : res attr) : exn :=
  match looked_up with
  | inl e => e
  | inr a => not_found attr_name (Nc.format_value a)
  end.

(** [delncattr(name)]: the result and the variable after the call.
    [metadata.pop(name)] removes the key or raises [KeyError]; the last
    branch names [value], which is bound nowhere. *)
Definition delncattr {P : Nc.Protocol} (v : t) (attr_name : string)
  : res unit * t :=
  match _cfa_var v with
  | Some cv =>
      match var_metadata cv !! attr_name with
      | Some _ =>
          (Ok tt, with_cfa_var v
                    (set_var_metadata cv (delete attr_name (var_metadata cv))))
      | None => (Raise (raise_not_found attr_name (self_name v)), v)
      end
  | None =>
      match _cfa_dim v with
      | Some cd =>
          match dim_metadata cd !! attr_name with
          | Some _ =>
              (Ok tt, with_cfa_dim v
                        (set_dim_metadata cd
                           (delete attr_name (dim_metadata cd))))
          | None => (Raise (raise_not_found attr_name (self_name v)), v)
          end
      | None => (Raise (NameError "value"), v)
      end
  end.

(** [getncattr(name)] *)
Definition getncattr (v : t) (attr_name : string) : res attr :=
  match _cfa_var v with
  | Some cv =>
      match var_metadata cv !! attr_name with
      | Some a => Ok a
      | None => Nc.getncattr (Nc.ncv_attrs (_nc_var v)) attr_name
      end
  | None =>
      match _cfa_dim v with
      | Some cd =>
          match dim_metadata cd !! attr_name with
          | Some a => Ok a
          | None => Nc.getncattr (Nc.ncv_attrs (_nc_var v)) attr_name
          end
      | None => Nc.getncattr (Nc.ncv_attrs (_nc_var v)) attr_name
      end
  end.

(** The in-memory metadata map of a variable, when it has one. *)
Definition metadata (v : t) : option (gmap string attr) :=
  match _cfa_var v with
  | Some cv => Some (var_metadata cv)
  | None => match _cfa_dim v with
            | Some cd => Some (dim_metadata cd)
            | None => None
            end
  end.

(** *** Slices *)

(** [cfa_grp.getName() is not "root"]: an identity test against the
    literal. *)
Definition is_not_root (g : CFAGroup) : bool :=
  negb (grp_name_is_literal g && String.eqb (grp_name g) "root").

(** [self.parent._nc_grp] and [self.parent._nc_dataset]: the group of the
    master file; the attribute the parent lacks falls through its
    [__getattr__] to a failed dict lookup. *)
Definition parent_nc_grp (p : Parent) : res Nc.NcGroup :=
  match p with
  | InGroup _ g _ => Ok g
  | _ => Raise (KeyError "_nc_grp")
  end.

Definition parent_nc_dataset (p : Parent) : res Nc.NcGroup :=
  match p with
  | InDataset d => Ok (d_nc_dataset d)
  | _ => Raise (KeyError "_nc_dataset")
  end.

(** [s3d]: [self.parent.parent] under a group, else [self.parent]. *)
Definition parent_s3d (p : Parent) : res S3d :=
  match p with
  | InGroup _ _ d => Ok d
  | InDataset d => Ok d
  | Orphan => Raise (AttributeError "_creation_params")
  end.

(** The group a subarray dataset keeps the variable in: the dataset
    itself or the group named after the CFA group. *)
Definition sa_group_name (cv : CFAVariable) : option string :=
  match var_group cv with
  | Some g => if is_not_root g then Some (grp_name g) else None
  | None => None
  end.

Definition sa_group (cv : CFAVariable) (ds : Nc.NcDataset) : res Nc.NcGroup :=
  match sa_group_name cv with
  | Some n => Nc.group ds n
  | None => Ok (Nc.ncd_root ds)
  end.

Definition set_sa_group (cv : CFAVariable) (ds : Nc.NcDataset)
    (g : Nc.NcGroup) : Nc.NcDataset :=
  match sa_group_name cv with
  | Some n => Nc.set_group ds n g
  | None => Nc.set_root ds g
  end.

(** First loop of [__create_subarray_ncfile]: one dimension per dimension
    name, sized by [index.partition.shape[d]]. *)
Fixpoint create_dimensions (g : Nc.NcGroup) (dims : list string)
    (shape : list Z) : res Nc.NcGroup :=
  match dims with
  | [] => Ok g
  | dim_name :: rest =>
      match shape with
      | [] => Raise (IndexError "index out of range")
      | n :: shape' =>
          try! g' := Nc.createDimension g dim_name n in
          create_dimensions g' rest shape'
      end
  end.

(** Second loop: the dimension variables, each holding the slab of the
    master's dimension variable at [index.partition.location[d]]. *)
Fixpoint create_dimension_variables {L : Nd.Libraries} (cfa_grp : CFAGroup)
    (nc_grp : Nc.NcGroup) (g : Nc.NcGroup) (dims : list string)
    (location : list (Z * Z)) : res Nc.NcGroup :=
  match dims with
  | [] => Ok g
  | dim_name :: rest =>
      try! cfa_dim := getDimension cfa_grp dim_name in
      try! dtype :=
        match dim_type cfa_dim with
        | Some ty => Ok ty
        | None => Raise (TypeError "data type not understood")
        end in
      try! (nc_sa_dim_var, g1) := Nc.createVariable g dim_name dtype [dim_name] in
      let nc_sa_dim_var := Nc.var_setncatts nc_sa_dim_var (dim_metadata cfa_dim) in
      try! master_var :=
        match Nc.ncg_variables nc_grp !! dim_name with
        | Some mv => Ok mv
        | None => Raise (KeyError dim_name)
        end in
      match location with
      | [] => Raise (IndexError "index out of range")
      | (l0, l1) :: location' =>
          try! slab := Nc.var_get master_var
                         [{| Nd.start := l0; Nd.stop := l1; Nd.step := 1 |}] in
          try! nc_sa_dim_var := Nc.var_put nc_sa_dim_var [] slab in
          create_dimension_variables cfa_grp nc_grp
            (Nc.set_variable g1 dim_name nc_sa_dim_var) rest location'
      end
  end.

(** [__create_subarray_ncfile(index, in_memory, mode)] *)
Definition __create_subarray_ncfile {L : Nd.Libraries} (p : Parent)
    (cv : CFAVariable) (index : IndexEntry) (in_memory : bool)
  : res Nc.NcDataset :=
  try! s3d := parent_s3d p in
  let diskless := if in_memory then true else d_diskless s3d in
  let nc_sa_dataset :=
    Nc.new_dataset (file (partition index)) (d_format s3d) diskless in
  try! (nc_sa_grp, nc_grp) :=
    match var_group cv with
    | Some cfa_grp =>
        if is_not_root cfa_grp then
          try! nc_grp := parent_nc_grp p in
          Ok (Nc.grp_setncatts Nc.empty_group (grp_metadata cfa_grp), nc_grp)
        else
          try! nc_grp := parent_nc_dataset p in
          Ok (Nc.ncd_root nc_sa_dataset, nc_grp)
    | None =>
        try! nc_grp := parent_nc_dataset p in
        Ok (Nc.ncd_root nc_sa_dataset, nc_grp)
    end in
  try! g1 := create_dimensions nc_sa_grp (var_dims cv)
                               (shape (partition index)) in
  try! g2 :=
    match var_group cv with
    | Some cfa_grp =>
        create_dimension_variables cfa_grp nc_grp g1 (var_dims cv)
                                   (location (partition index))
    | None => Ok g1
    end in
  try! (nc_sa_fld_var, g3) :=
    Nc.createVariable g2 (var_name cv) (var_type cv) (var_dims cv) in
  let g4 := Nc.set_variable g3 (var_name cv)
              (Nc.var_setncatts nc_sa_fld_var (var_metadata cv)) in
  Ok (set_sa_group cv nc_sa_dataset g4).

(** [np.prod(index.partition.shape)] *)
Definition prod (l : list Z) : Z := fold_right Z.mul 1 l.

(** One turn of the loop of [__setitem__]: the subarray file of the entry
    is requested, created on first touch, and [data] is stored at
    [index.source]. *)
Definition setitem_entry {L : Nd.Libraries} (p : Parent) (data : Nd.ndarray)
    (st : FileManager.t * CFAVariable) (index : IndexEntry)
  : res (FileManager.t * CFAVariable) :=
  let (fm, cv) := st in
  let uri := file (partition index) in
  let (request_object, fm1) :=
    FileManager.request_file fm uri (prod (shape (partition index))) "w" in
  try! (nc_sa_dataset, fm2, cv2) :=
    match FileManager.open_state request_object with
    | FileManager.OPEN_NEW_IN_MEMORY =>
        try! ds := __create_subarray_ncfile p cv index true in
        Ok (ds, FileManager.set_data_object fm1 uri ds,
            writePartition cv (partition index))
    | FileManager.OPEN_NEW_ON_DISK =>
        try! ds := __create_subarray_ncfile p cv index false in
        Ok (ds, FileManager.set_data_object fm1 uri ds,
            writePartition cv (partition index))
    | FileManager.OPEN_EXISTS_IN_MEMORY
    | FileManager.OPEN_EXISTS_ON_DISK =>
        match FileManager.data_object request_object with
        | Some ds => Ok (ds, fm1, cv)
        | None => Raise (TypeError "'NoneType' object is not subscriptable")
        end
    | _ => Raise (UnboundLocalError "nc_sa_dataset")
    end in
  try! nc_sa_grp := sa_group cv2 nc_sa_dataset in
  try! nc_sa_fld_var := Nc.variable nc_sa_grp (var_name cv2) in
  try! nc_sa_fld_var' := Nc.var_put nc_sa_fld_var (source index) data in
  let ds' := set_sa_group cv2 nc_sa_dataset
               (Nc.set_variable nc_sa_grp (var_name cv2) nc_sa_fld_var') in
  Ok (FileManager.set_data_object fm2 uri ds', cv2).

Fixpoint setitem_loop {L : Nd.Libraries} (p : Parent) (data : Nd.ndarray)
    (index_list : list IndexEntry) (st : FileManager.t * CFAVariable)
  : res (FileManager.t * CFAVariable) :=
  match index_list with
  | [] => Ok st
  | index :: rest =>
      try! st' := setitem_entry p data st index in
      setitem_loop p data rest st'
  end.

(** [self.file_manager]: the parent's, or [None]. *)
Definition file_manager (p : Parent) (fm : FileManager.t)
  : res FileManager.t :=
  match p with
  | Orphan => Raise (AttributeError "'NoneType' object has no attribute")
  | _ => Ok fm
  end.

(** [__setitem__(elem, data)]: the variable and the file manager after the
    assignment. *)
Definition __setitem__ {L : Nd.Libraries} (p : Parent) (fm : FileManager.t)
    (v : t) (elem : list pyslice) (data : Nd.ndarray)
  : res (t * FileManager.t) :=
  match _cfa_var v with
  | Some cv =>
      try! index_list := PartitionIndex.__getitem__ cv elem in
      match index_list with
      | [] => Ok (v, fm)
      | _ =>
          try! fm0 := file_manager p fm in
          try! (fm', cv') := setitem_loop p data index_list (fm0, cv) in
          Ok (with_cfa_var v cv', fm')
      end
  | None =>
      try! r := normalise_all (Nd.shape (Nc.ncv_data (_nc_var v))) elem in
      try! nv := Nc.var_put (_nc_var v) r data in
      Ok ({| _cfa_var := None; _cfa_dim := _cfa_dim v; _nc_var := nv |}, fm)
  end.

(** The subarray dataset of a [__getitem__] turn, by the state of the
    record: read from the backing store on a first open (and cached in
    the record), the cached object afterwards. *)
Definition open_for_read (fm : FileManager.t) (uri : string)
    (request_object : FileManager.OpenFileRecord)
  : res (Nc.NcDataset * FileManager.t) :=
  match FileManager.open_state request_object with
  | FileManager.OPEN_NEW_IN_MEMORY
  | FileManager.OPEN_NEW_ON_DISK =>
      match FileManager.store fm !! uri with
      | Some ds => Ok (ds, FileManager.set_data_object fm uri ds)
      | None => Raise (IOError ("No such file or directory: " +:+ uri))
      end
  | FileManager.OPEN_EXISTS_IN_MEMORY
  | FileManager.OPEN_EXISTS_ON_DISK =>
      match FileManager.data_object request_object with
      | Some ds => Ok (ds, fm)
      | None => Raise (TypeError "'NoneType' object is not subscriptable")
      end
  | _ => Raise (UnboundLocalError "nc_sa_dataset")
  end.

(** [nc_sa_grp[name][index.source]] on the subarray dataset: the group
    lookup, the variable lookup and the slab read of a turn. *)
Definition subarray_slab (cv : CFAVariable) (nc_sa_dataset : Nc.NcDataset)
    (index : IndexEntry) : res Nd.ndarray :=
  try! nc_sa_grp := sa_group cv nc_sa_dataset in
  try! nc_sa_fld_var := Nc.variable nc_sa_grp (var_name cv) in
  Nc.var_get nc_sa_fld_var (source index).

(** One turn of the loop of [__getitem__]. *)
Definition getitem_entry {L : Nd.Libraries} (v : t) (cv : CFAVariable)
    (st : FileManager.t * Nd.ndarray) (index : IndexEntry)
  : res (FileManager.t * Nd.ndarray) :=
  let (fm, target_array) := st in
  let uri := file (partition index) in
  let (request_object, fm1) :=
    FileManager.request_file fm uri (prod (shape (partition index))) "r" in
  match FileManager.open_state request_object with
  | FileManager.DOES_NOT_EXIST =>
      try! fv := Nc._FillValue (_nc_var v) in
      try! target_array' := Nd.setitem_scalar target_array (target index) fv in
      Ok (fm1, target_array')
  | _ =>
      try! (nc_sa_dataset, fm2) := open_for_read fm1 uri request_object in
      try! slab := subarray_slab cv nc_sa_dataset index in
      try! target_array' := Nd.setitem target_array (target index) slab in
      Ok (fm2, target_array')
  end.

Fixpoint getitem_loop {L : Nd.Libraries} (v : t) (cv : CFAVariable)
    (index_list : list IndexEntry) (st : FileManager.t * Nd.ndarray)
  : res (FileManager.t * Nd.ndarray) :=
  match index_list with
  | [] => Ok st
  | index :: rest =>
      try! st' := getitem_entry v cv st index in
      getitem_loop v cv rest st'
  end.

(** [__getitem__(elem)]: the array read and the file manager after the
    read. *)
Definition __getitem__ {L : Nd.Libraries} (p : Parent) (fm : FileManager.t)
    (v : t) (elem : list pyslice) : res (Nd.ndarray * FileManager.t) :=
  match _cfa_var v with
  | Some cv =>
      try! index_list := PartitionIndex.__getitem__ cv elem in
      try! fm0 := file_manager p fm in
      let target_array := FileManager.request_array (map target index_list) in
      try! (fm', target_array') :=
        getitem_loop v cv index_list (fm0, target_array) in
      Ok (target_array', fm')
  | None =>
      try! r := normalise_all (Nd.shape (Nc.ncv_data (_nc_var v))) elem in
      try! a := Nc.var_get (_nc_var v) r in
      Ok (a, fm)
  end.

End s3Variable.

(** ** Attributes of groups and datasets *)

Module s3Group.

Import CFA.

Record t := {
  _cfa_grp : option CFAGroup;
  _nc_grp : Nc.NcGroup;
}.

(** [s3Group.getncattr(name)] *)
Definition getncattr (g : t) (attr_name : string) : res attr :=
  match _cfa_grp g with
  | Some cg =>
      match grp_metadata cg !! attr_name with
      | Some a => Ok a
      | None => Nc.getncattr (Nc.ncg_attrs (_nc_grp g)) attr_name
      end
  | None => Nc.getncattr (Nc.ncg_attrs (_nc_grp g)) attr_name
  end.

End s3Group.

Module s3DatasetAttrs.

Import CFA.

(** The attribute side of an s3Dataset: [_cfa_dataset] and the root group
    of [_nc_dataset]. *)
Record t := {
  _cfa_dataset : option CFADataset;
  _nc_dataset : Nc.NcGroup;
}.

(** [s3Dataset.getncattr(name)] *)
Definition getncattr (d : t) (attr_name : string) : res attr :=
  match _cfa_dataset d with
  | Some c =>
      match cfa_metadata c !! attr_name with
      | Some a => Ok a
      | None => Nc.getncattr (Nc.ncg_attrs (_nc_dataset d)) attr_name
      end
  | None => Nc.getncattr (Nc.ncg_attrs (_nc_dataset d)) attr_name
  end.

End s3DatasetAttrs.

(** ** s3FileObject *)

Module s3FileObject.

(** The object store as the stream sees it through botocore. *)
Record S3 := {
  (** the connection pool's entry for a server, when it has one *)
  pool_get : string -> option string;
  (** [create_client] succeeds for the endpoint *)
  endpoint_up : string -> bool;
  (** [ContentLength] of [head_object(Bucket, Key)]; [None]: [ClientError] *)
  head_object : string -> string -> option Z;
  (** the keys [list_objects_v2(Bucket, Prefix)] answers with *)
  list_objects_v2 : string -> string -> list string;
}.

(** The attribute [_conn_obj]: unset until [connect] runs, [None] when
    the pool had no connection and none could be made, else a connection. *)
Inductive conn_obj : Type :=
| Unset
| IsNone
| Conn (c : string).

Record t := {
  _server : string;
  _bucket : string;
  _path : string;
  _mode : string;
  _seek_pos : Z;
  _part_size : Z;
  _conn_obj : conn_obj;
  _current_part : option Z;
}.

Definition with_conn_obj (f : t) (c : conn_obj) : t :=
  {| _server := _server f; _bucket := _bucket f; _path := _path f;
     _mode := _mode f; _seek_pos := _seek_pos f; _part_size := _part_size f;
     _conn_obj := c; _current_part := _current_part f |}.

Definition with_current_part (f : t) (n : Z) : t :=
  {| _server := _server f; _bucket := _bucket f; _path := _path f;
     _mode := _mode f; _seek_pos := _seek_pos f; _part_size := _part_size f;
     _conn_obj := _conn_obj f; _current_part := Some n |}.

Definition SEEK_SET : Z := 0.
Definition SEEK_CUR : Z := 1.
Definition SEEK_END : Z := 2.

Definition not_connected : exn :=
  APIException
    ("Connection to S3 server is not established.  Use either the " +:+
     ".connect method or a with statement.").

(** [_getsize()] *)
Definition _getsize (s3 : S3) (f : t) : res Z :=
  if contains_char "w" (_mode f) then Ok (_part_size f)
  else
    match _conn_obj f with
    | Unset => Raise not_connected
    | IsNone => Raise (AttributeError "'NoneType' object has no attribute 'conn'")
    | Conn _ =>
        match head_object s3 (_bucket f) (_path f) with
        | Some n => Ok n
        | None => Raise (IOException ("Could not get size of object " +:+ _path f))
        end
    end.

Definition seek_error (seek_pos size : Z) (path : string) : exn :=
  IOException ("Seek " +:+ pretty seek_pos +:+
               " is outside file size bounds 0->" +:+ pretty size +:+
               " for file " +:+ path).

Definition with_seek_pos (f : t) (pos : Z) : t :=
  {| _server := _server f; _bucket := _bucket f; _path := _path f;
     _mode := _mode f; _seek_pos := pos; _part_size := _part_size f;
     _conn_obj := _conn_obj f; _current_part := _current_part f |}.

(** [seek(offset, whence)]: the result and the stream after the call. *)
Definition seek (s3 : S3) (f : t) (offset whence : Z) : res Z * t :=
  if String.eqb (_mode f) "w" then
    (Raise (IOException "Cannot seek within a file that is being written to."), f)
  else
    match _getsize s3 f with
    | inl e => (Raise e, f)
    | inr size =>
        let seek_pos :=
          if whence =? SEEK_SET then offset
          else if whence =? SEEK_CUR then _seek_pos f + offset
          else if whence =? SEEK_END then size - offset
          else _seek_pos f in
        if seek_pos >=? size then (Raise (seek_error seek_pos size (_path f)), f)
        else if seek_pos <? 0 then (Raise (seek_error seek_pos size (_path f)), f)
        else (Ok seek_pos, with_seek_pos f seek_pos)
    end.

(** [connect()]: the result and the stream after the call. *)
Definition connect (s3 : S3) (f : t) : res bool * t :=
  let conn :=
    match pool_get s3 (_server f) with
    | Some c => Ok c
    | None =>
        if endpoint_up s3 (_server f) then Ok (_server f)
        else Raise (IOException ("Could not connect to S3 endpoint " +:+
                                 _server f))
    end in
  match conn with
  | inl e => (Raise e, with_conn_obj f IsNone)
  | inr c =>
      let f1 := with_conn_obj f (Conn c) in
      if contains_char "r" (_mode f) && negb (contains_char "*" (_path f)) &&
         negb (contains_char "?" (_path f)) &&
         negb (str_in (_path f) (list_objects_v2 s3 (_bucket f) (_path f)))
      then
        (Raise (IOException ("Object does not exist: " +:+ _server f +:+ "/" +:+
                             _bucket f +:+ "/" +:+ _path f)), f1)
      else
        let f2 := if contains_char "w" (_mode f) then with_current_part f1 1
                  else f1 in
        if contains_char "a" (_mode f) || contains_char "+" (_mode f) then
          (Raise (APIException ("Appending to files is not supported " +:+
                                _path f)), f2)
        else (Ok true, f2)
  end.

End s3FileObject.

(** ** Python [str] and [io.BytesIO] operations of the byte stream *)

Module PyStr.

(** [s.split(sep)] for a one-character separator: one piece more than
    there are separators. *)
Fixpoint split (sep : ascii) (s : string) : list string :=
  match s with
  | EmptyString => [EmptyString]
  | String c rest =>
      if Ascii.eqb c sep then EmptyString :: split sep rest
      else match split sep rest with
           | piece :: pieces => String c piece :: pieces
           | [] => [String c EmptyString]
           end
  end.

(** [sep.join(pieces)] *)
Fixpoint join (sep : string) (pieces : list string) : string :=
  match pieces with
  | [] => ""
  | [piece] => piece
  | piece :: rest => piece +:+ sep +:+ join sep rest
  end.

(** [s.index(c)] for a one-character [c]: [None] stands for the
    [ValueError]. *)
Fixpoint index (c : ascii) (s : string) : option nat :=
  match s with
  | EmptyString => None
  | String d rest =>
      if Ascii.eqb c d then Some 0%nat else S <$> index c rest
  end.

(** [s[:i]] and [s[i:]] for [0 <= i]. *)
Definition upto (i : nat) (s : string) : string := substring 0 i s.
Definition from (i : nat) (s : string) : string :=
  substring i (String.length s - i) s.

(** [s.encode('utf-8')], strings being kept as their UTF-8 bytes. *)
Definition encode (s : string) : list byte := list_byte_of_string s.

End PyStr.

Module BytesIO.

(** An [io.BytesIO]: its contents and its position. *)
Record t := { data : list byte; pos : nat }.

Definition new : t := {| data := []; pos := 0 |}.

(** [write(b)]: [b] replaces the contents from the position on (after
    zero padding when the position is beyond the end). *)
Definition write (f : t) (b : list byte) : t :=
  {| data := (take (pos f) (data f) ++
              replicate (pos f - length (data f)) x00 ++ b ++
              drop (pos f + length b) (data f))%list;
     pos := pos f + length b |}.

Definition tell (f : t) : Z := Z.of_nat (pos f).

(** [seek(0)] *)
Definition rewind (f : t) : t := {| data := data f; pos := 0 |}.

(** [read(n)]: up to [n] bytes from the position, all of them for a
    negative [n]. *)
Definition read (f : t) (n : Z) : list byte * t :=
  let rest := drop (pos f) (data f) in
  let got := if n <? 0 then rest else take (Z.to_nat n) rest in
  (got, {| data := data f; pos := pos f + length got |}).

(** What a call that is handed the object as a body uploads: the bytes
    from the position to the end. *)
Definition body (f : t) : list byte := drop (pos f) (data f).

End BytesIO.

(** ** s3FileObject: construction, transfers and buffers *)

Module s3FileObjectIO.

Import s3FileObject.

(** The fields of [urlparse(uri)] the stream reads. *)
Record ParseResult := { scheme : string; netloc : string; path : string }.

(** The functions of Python's standard library the stream calls;
    [urlparse] raises on some URIs ([ValueError] on a network location
    with an unmatched square bracket). *)
Class PyLib := {
  urlparse : string -> res ParseResult;
  (** [fnmatch.fnmatch(name, pattern)] *)
  fnmatch : string -> string -> bool;
}.

(** [_get_server_bucket_object(uri)].  [urlparse] is called outside any
    [try], so what it raises passes through.  The third [try] of the
    source guards [split_path[2:]]; a slice never raises, so its handler
    has no counterpart here. *)
Definition _get_server_bucket_object {P : PyLib} (uri : string)
  : res (string * string * string) :=
  try! url_p := urlparse uri in
  if String.eqb (scheme url_p) "" || String.eqb (netloc url_p) "" then
    Raise (APIException
             ("URI supplied to s3FileObject is not well-formed: " +:+ uri))
  else
    let server := scheme url_p +:+ "://" +:+ netloc url_p in
    let split_path := PyStr.split "/" (path url_p) in
    try! bucket :=
      match split_path !! 1%nat with
      | Some b => Ok b
      | None =>
          Raise (APIException
                   ("URI supplied has no bucket contained within it: " +:+ uri))
      end in
    Ok (server, bucket, PyStr.join "/" (drop 2 split_path)).

(** The section [backends / s3FileObject] of the configuration file, by
    the keys [__init__] looks up. *)
Record BackendConfig := {
  maximum_part_size : option Z;
  maximum_parts : option Z;
  cfg_multipart_upload : option bool;
  cfg_multipart_download : option bool;
  cfg_connect_timeout : option QArith_base.Q;
  cfg_read_timeout : option QArith_base.Q;
}.

Definition no_config : BackendConfig :=
  {| maximum_part_size := None; maximum_parts := None;
     cfg_multipart_upload := None; cfg_multipart_download := None;
     cfg_connect_timeout := None; cfg_read_timeout := None |}.

(** The stream: the attributes [seek] and [connect] read ([base]) and the
    others [__init__] sets.  [_upload_id] and [_multipart_info] are bound
    by the first multipart upload only. *)
Record t := {
  base : s3FileObject.t;
  _uri : string;
  _closed : bool;
  _buffer : list BytesIO.t;
  _credentials : gmap string string;
  _create_bucket : bool;
  _max_parts : Z;
  _multipart_upload : bool;
  _multipart_download : bool;
  _connect_timeout : QArith_base.Q;
  _read_timeout : QArith_base.Q;
  _upload_id : option string;
  _multipart_info : option (list (Z * string));   (* PartNumber, ETag *)
}.

Definition with_base (f : t) (b : s3FileObject.t) : t :=
  {| base := b; _uri := _uri f; _closed := _closed f; _buffer := _buffer f;
     _credentials := _credentials f; _create_bucket := _create_bucket f;
     _max_parts := _max_parts f; _multipart_upload := _multipart_upload f;
     _multipart_download := _multipart_download f;
     _connect_timeout := _connect_timeout f;
     _read_timeout := _read_timeout f; _upload_id := _upload_id f;
     _multipart_info := _multipart_info f |}.

Definition with_buffer (f : t) (b : list BytesIO.t) : t :=
  {| base := base f; _uri := _uri f; _closed := _closed f; _buffer := b;
     _credentials := _credentials f; _create_bucket := _create_bucket f;
     _max_parts := _max_parts f; _multipart_upload := _multipart_upload f;
     _multipart_download := _multipart_download f;
     _connect_timeout := _connect_timeout f;
     _read_timeout := _read_timeout f; _upload_id := _upload_id f;
     _multipart_info := _multipart_info f |}.

Definition with_closed (f : t) (c : bool) : t :=
  {| base := base f; _uri := _uri f; _closed := c; _buffer := _buffer f;
     _credentials := _credentials f; _create_bucket := _create_bucket f;
     _max_parts := _max_parts f; _multipart_upload := _multipart_upload f;
     _multipart_download := _multipart_download f;
     _connect_timeout := _connect_timeout f;
     _read_timeout := _read_timeout f; _upload_id := _upload_id f;
     _multipart_info := _multipart_info f |}.

Definition with_upload (f : t) (id : string) (info : list (Z * string)) : t :=
  {| base := base f; _uri := _uri f; _closed := _closed f;
     _buffer := _buffer f;
     _credentials := _credentials f; _create_bucket := _create_bucket f;
     _max_parts := _max_parts f; _multipart_upload := _multipart_upload f;
     _multipart_download := _multipart_download f;
     _connect_timeout := _connect_timeout f;
     _read_timeout := _read_timeout f; _upload_id := Some id;
     _multipart_info := Some info |}.

Definition with_info (f : t) (info : list (Z * string)) : t :=
  {| base := base f; _uri := _uri f; _closed := _closed f;
     _buffer := _buffer f;
     _credentials := _credentials f; _create_bucket := _create_bucket f;
     _max_parts := _max_parts f; _multipart_upload := _multipart_upload f;
     _multipart_download := _multipart_download f;
     _connect_timeout := _connect_timeout f;
     _read_timeout := _read_timeout f; _upload_id := _upload_id f;
     _multipart_info := Some info |}.

(** Truth values of the keyword arguments: [None], [0], [0.0] and [False]
    are false. *)
Definition truthy_int (z : Z) : bool := negb (z =? 0).
Definition truthy_bool (b : bool) : bool := b.
Definition truthy_float (q : QArith_base.Q) : bool :=
  negb (QArith_base.Qeq_bool q (QArith_base.Qmake 0 1)).

(** [if arg: arg  elif key in backend_config: backend_config[key]
    else: default] *)
Definition choose {A : Type} (truthy : A -> bool) (arg config : option A)
    (dflt : A) : A :=
  match arg with
  | Some a => if truthy a then a else default dflt config
  | None => default dflt config
  end.

Record InitArgs := {
  arg_mode : string;
  arg_create_bucket : bool;
  arg_part_size : option Z;
  arg_max_parts : option Z;
  arg_multipart_upload : option bool;
  arg_multipart_download : option bool;
  arg_connect_timeout : option QArith_base.Q;
  arg_read_timeout : option QArith_base.Q;
}.

(** The keyword defaults of [__init__]. *)
Definition init_args (mode : string) : InitArgs :=
  {| arg_mode := mode; arg_create_bucket := true; arg_part_size := None;
     arg_max_parts := None; arg_multipart_upload := None;
     arg_multipart_download := None; arg_connect_timeout := None;
     arg_read_timeout := None |}.

(** [__init__(uri, credentials, mode, create_bucket, part_size, ...)];
    [config] is [_config["backends"]["s3FileObject"]] when the
    configuration has that section. *)
Definition __init__ {P : PyLib} (config : option BackendConfig) (uri : string)
    (credentials : gmap string string) (a : InitArgs) : res t :=
  try! (server, bucket, path) := _get_server_bucket_object uri in
  let backend_config := default no_config config in
  Ok {| base :=
          {| _server := server; _bucket := bucket; _path := path;
             _mode := arg_mode a; _seek_pos := 0;
             _part_size := choose truthy_int (arg_part_size a)
                             (maximum_part_size backend_config)
                             (50 * 1024 * 1024);
             _conn_obj := Unset; _current_part := None |};
        _uri := uri; _closed := false; _buffer := [BytesIO.new];
        _credentials := credentials;
        _create_bucket := arg_create_bucket a;
        _max_parts := choose truthy_int (arg_max_parts a)
                        (maximum_parts backend_config) 8;
        _multipart_upload := choose truthy_bool (arg_multipart_upload a)
                               (cfg_multipart_upload backend_config) true;
        _multipart_download := choose truthy_bool (arg_multipart_download a)
                                 (cfg_multipart_download backend_config) true;
        _connect_timeout := choose truthy_float (arg_connect_timeout a)
                              (cfg_connect_timeout backend_config)
                              (QArith_base.Qmake 30 1);
        _read_timeout := choose truthy_float (arg_read_timeout a)
                           (cfg_read_timeout backend_config)
                           (QArith_base.Qmake 30 1);
        _upload_id := None; _multipart_info := None |}.

(** *** Exceptions beyond those of the front end *)

(** What a method of the stream can end in besides a result: a Python
    exception, botocore's [ClientError] (with its text),
    [io.UnsupportedOperation], or no return at all. *)
Inductive raised : Type :=
| Py (e : exn)
| ClientError (msg : string)
| UnsupportedOperation
| Diverges.

(** [_handle_connection_exception(e)] for an [AttributeError] with the
    message [msg]: what it raises. *)
Definition _handle_connection_exception (msg : string) : exn :=
  if contains "_conn_obj" msg || contains "_current_part" msg
  then not_connected
  else AttributeError msg.

(** The [AttributeError]s of the attribute lookups that can fail. *)
Definition no_attribute (name : string) : string :=
  "'s3FileObject' object has no attribute '" +:+ name +:+ "'".
Definition none_has_no_conn : string :=
  "'NoneType' object has no attribute 'conn'".
Definition no_class_attribute (name : string) : string :=
  "type object 's3FileObject' has no attribute '" +:+ name +:+ "'".

(** *** The botocore client *)

(** The requests the stream sends, as logged in order. *)
Inductive call : Type :=
| CreateClient (endpoint_url access_key secret_key : string)
               (connect_timeout read_timeout : QArith_base.Q)
| GetObject (bucket key : string) (range : option (Z * Z))
| ListBuckets
| CreateBucket (bucket : string)
| CreateMultipartUpload (bucket key : string)
| UploadPart (bucket key upload_id : string) (part_number : Z)
             (body : list byte)
| PutObject (bucket key : string) (body : list byte)
| CompleteMultipartUpload (bucket key upload_id : string)
                          (parts : list (Z * string))
| Release (conn : option string).

(** The server's answers, each a function of the requests so far: the
    text of a [ClientError] or the part of the response the stream reads. *)
Record Client := {
  get_object :
    list call -> string -> string -> option (Z * Z) -> string + list byte;
  list_buckets : list call -> string + list string;
  create_bucket : list call -> string -> string + unit;
  create_multipart_upload : list call -> string -> string -> string + string;
  upload_part :
    list call -> string -> string -> string -> Z -> list byte ->
    string + string;
  put_object : list call -> string -> string -> list byte -> string + unit;
  complete_multipart_upload :
    list call -> string -> string -> string -> list (Z * string) ->
    string + unit;
  (** [ConnectionPool.release(conn)]: [None] when it returns *)
  release_raises : list call -> option string -> option exn;
}.

(** The class attributes the methods read.  The class body binds no
    [MAXIMUM_PART_SIZE]; [Some] stands for a value assigned from outside
    the file. *)
Record ClassAttrs := { MAXIMUM_PART_SIZE : option Z }.

Definition as_written : ClassAttrs := {| MAXIMUM_PART_SIZE := None |}.

(** *** A monad over the stream and the log of requests *)

Definition state : Type := t * list call.

Definition M (A : Type) : Type := state -> (raised + A) * state.

Definition ret {A : Type} (a : A) : M A := fun st => (inr a, st).
Definition throw {A : Type} (r : raised) : M A := fun st => (inl r, st).
Definition raise {A : Type} (e : exn) : M A := throw (Py e).
Definition mbind {A B : Type} (m : M A) (k : A -> M B) : M B :=
  fun st =>
    match m st with
    | (inl r, st') => (inl r, st')
    | (inr a, st') => k a st'
    end.

Notation "'run!' x ':=' m 'in' k" := (mbind m (fun x => k))
  (at level 10, x pattern, m at level 100, k at level 200).

Definition get : M t := fun st => (inr (fst st), st).
Definition modify (g : t -> t) : M unit :=
  fun st => (inr tt, (g (fst st), snd st)).
Definition lift {A : Type} (m : res A) : M A :=
  fun st => match m with
            | inl e => (inl (Py e), st)
            | inr a => (inr a, st)
            end.

(** A request: it is logged, then answered. *)
Definition request {A : Type} (c : call) (answer : list call -> string + A)
  : M A :=
  fun st =>
    match answer (snd st) with
    | inl msg => (inl (ClientError msg), (fst st, (snd st ++ [c])%list))
    | inr a => (inr a, (fst st, (snd st ++ [c])%list))
    end.

(** [try: m  except ...: raise ...]: the handlers of the methods only
    translate what is raised. *)
Definition translate {A : Type} (h : raised -> raised) (m : M A) : M A :=
  fun st =>
    match m st with
    | (inl r, st') => (inl (h r), st')
    | ok => ok
    end.

(** [except AttributeError as e: self._handle_connection_exception(e)] *)
Definition on_attribute_error (r : raised) : raised :=
  match r with
  | Py (AttributeError msg) => Py (_handle_connection_exception msg)
  | _ => r
  end.

(** [except ClientError as e: raise IOException(text.format(path, e))],
    followed by the handler of [AttributeError]. *)
Definition on_client_error (text path : string) (r : raised) : raised :=
  match r with
  | ClientError msg => Py (IOException (text +:+ path +:+ " " +:+ msg))
  | _ => on_attribute_error r
  end.

(** [self._conn_obj.conn] *)
Definition conn : M string :=
  run! f := get in
  match _conn_obj (base f) with
  | Unset => raise (AttributeError (no_attribute "_conn_obj"))
  | IsNone => raise (AttributeError none_has_no_conn)
  | Conn c => ret c
  end.

(** [self._current_part], [self._upload_id], [self._multipart_info] *)
Definition current_part : M Z :=
  run! f := get in
  match _current_part (base f) with
  | Some n => ret n
  | None => raise (AttributeError (no_attribute "_current_part"))
  end.

Definition upload_id : M string :=
  run! f := get in
  match _upload_id f with
  | Some id => ret id
  | None => raise (AttributeError (no_attribute "_upload_id"))
  end.

Definition multipart_info : M (list (Z * string)) :=
  run! f := get in
  match _multipart_info f with
  | Some info => ret info
  | None => raise (AttributeError (no_attribute "_multipart_info"))
  end.

(** [s3FileObject.MAXIMUM_PART_SIZE] *)
Definition maximum_part_size_attr (ca : ClassAttrs) : M Z :=
  match MAXIMUM_PART_SIZE ca with
  | Some m => ret m
  | None => raise (AttributeError (no_class_attribute "MAXIMUM_PART_SIZE"))
  end.

Definition set_seek_pos (p : Z) : M unit :=
  modify (fun f => with_base f (with_seek_pos (base f) p)).

Definition set_current_part (n : Z) : M unit :=
  modify (fun f => with_base f (with_current_part (base f) n)).

(** *** connect *)

(** [self._credentials[key]] *)
Definition credential (f : t) (key : string) : res string :=
  match _credentials f !! key with
  | Some v => Ok v
  | None => Raise (KeyError key)
  end.

(** [connect()], with the request [create_client] is sent when the pool
    has no connection for the server: the credentials are looked up (a
    missing one is a [KeyError], which the [except ClientError] lets
    through) and both timeouts of the botocore configuration are
    [self._connect_timeout]. *)
Definition connect (s3 : S3) : M bool :=
  run! f := get in
  run! _ :=
    match pool_get s3 (_server (base f)) with
    | Some _ => ret tt
    | None =>
        run! _ := modify (fun f => with_base f (with_conn_obj (base f) IsNone)) in
        run! access_key := lift (credential f "accessKey") in
        run! secret_key := lift (credential f "secretKey") in
        fun st =>
          (inr tt,
           (fst st,
            (snd st ++ [CreateClient (_server (base f)) access_key secret_key
                          (_connect_timeout f) (_connect_timeout f)])%list))
    end in
  fun st =>
    let (r, b) := s3FileObject.connect s3 (base (fst st)) in
    match r with
    | inl e => (inl (Py e), (with_base (fst st) b, snd st))
    | inr ok => (inr ok, (with_base (fst st) b, snd st))
    end.

(** [__enter__()] *)
Definition __enter__ (s3 : S3) : M unit :=
  run! _ := connect s3 in ret tt.

(** *** read *)

Definition bucket_key : M (string * string) :=
  run! f := get in ret (_bucket (base f), _path (base f)).

(** [self._conn_obj.conn.get_object(Bucket, Key[, Range])['Body'].read()] *)
Definition fetch (cl : Client) (range : option (Z * Z)) : M (list byte) :=
  run! _ := conn in
  run! (bucket, key) := bucket_key in
  request (GetObject bucket key range)
          (fun log => get_object cl log bucket key range).

(** [read(size)].  The body is read once the [try] block is left; by then
    [body] is bound. *)
Definition read (s3 : S3) (cl : Client) (size : Z) : M (list byte) :=
  run! f := get in
  translate (on_client_error "Could not read from object " (_path (base f)))
    (if size =? -1 then fetch cl None
     else
       let range_end := _seek_pos (base f) + size - 1 in
       run! file_size := lift (_getsize s3 (base f)) in
       let range_end :=
         if range_end >=? file_size then file_size - 1 else range_end in
       if negb (_multipart_download f) then fetch cl None
       else
         run! body := fetch cl (Some (_seek_pos (base f), range_end)) in
         run! _ := set_seek_pos (_seek_pos (base f) + size) in
         ret body).

(** [read1(size)] *)
Definition read1 (s3 : S3) (cl : Client) (size : Z) : M (list byte) :=
  read s3 cl size.

(** [tell()], [seekable()], [readable()], [writable()] *)
Definition tell (f : t) : Z := _seek_pos (base f).
Definition seekable (f : t) : bool := true.
Definition readable (f : t) : bool :=
  contains_char "r" (_mode (base f)) || contains_char "+" (_mode (base f)).
Definition writable (f : t) : bool := contains_char "w" (_mode (base f)).

(** [detach()], [fileno()], [truncate()] *)
Definition detach {A : Type} : M A := throw UnsupportedOperation.
Definition fileno {A : Type} : M A := throw UnsupportedOperation.
Definition truncate {A : Type} : M A := throw UnsupportedOperation.

(** [seek(offset, whence)] on the stream. *)
Definition seek (s3 : S3) (offset whence : Z) : M Z :=
  fun st =>
    let (r, b) := s3FileObject.seek s3 (base (fst st)) offset whence in
    match r with
    | inl e => (inl (Py e), (with_base (fst st) b, snd st))
    | inr p => (inr p, (with_base (fst st) b, snd st))
    end.

(** *** write and the multipart upload *)

(** [_get_bucket_list()] *)
Definition _get_bucket_list (cl : Client) : M (list string) :=
  translate on_attribute_error
    (run! _ := conn in request ListBuckets (list_buckets cl)).

(** [if self._create_bucket: ... create_bucket(Bucket=self._bucket)] *)
Definition ensure_bucket (cl : Client) : M unit :=
  run! f := get in
  if _create_bucket f then
    run! bucket_list := _get_bucket_list cl in
    if negb (str_in (_bucket (base f)) bucket_list) then
      run! _ := conn in
      request (CreateBucket (_bucket (base f)))
              (fun log => create_bucket cl log (_bucket (base f)))
    else ret tt
  else ret tt.

(** The [while] loop that cuts one buffer into parts of
    [MAXIMUM_PART_SIZE] bytes.  Every turn moves [data_pos] on by [m], so
    for a positive [m] the loop is over within [data_len] turns; [None]
    is a loop that has not ended after [fuel] turns. *)
Fixpoint split_loop (fuel : nat) (m : Z) (data_buf : BytesIO.t)
    (data_len data_pos : Z) (new_buffer : list BytesIO.t)
  : option (list BytesIO.t) :=
  if data_pos <? data_len then
    match fuel with
    | O => None
    | S fuel' =>
        let n := if data_pos + m >=? data_len then data_len - data_pos
                 else m in
        let (sub_data, data_buf') := BytesIO.read data_buf n in
        split_loop fuel' m data_buf' data_len (data_pos + m)
                   (new_buffer ++ [BytesIO.write BytesIO.new sub_data])%list
    end
  else Some new_buffer.

(** The first [for] loop of [_multipart_upload_from_buffer]: buffers of
    [MAXIMUM_PART_SIZE] bytes or more are cut up, the others are kept. *)
Fixpoint split_buffers (ca : ClassAttrs) (buffers new_buffer : list BytesIO.t)
  : M (list BytesIO.t) :=
  match buffers with
  | [] => ret new_buffer
  | data_buf :: rest =>
      let data_len := BytesIO.tell data_buf in
      run! m := maximum_part_size_attr ca in
      if data_len >=? m then
        match split_loop (S (Z.to_nat data_len)) m (BytesIO.rewind data_buf)
                         data_len 0 new_buffer with
        | Some new_buffer' => split_buffers ca rest new_buffer'
        | None => throw Diverges
        end
      else split_buffers ca rest (new_buffer ++ [data_buf])%list
  end.

(** [self._buffer[buffer_part]] *)
Definition buffer_at (buffer_part : nat) : M BytesIO.t :=
  run! f := get in
  match _buffer f !! buffer_part with
  | Some buf => ret buf
  | None => raise (IndexError "list index out of range")
  end.

(** The second [for] loop, over the values [buffer_part] takes: the
    buffer is rewound and handed to [upload_part] under the number
    [_current_part].  What the client does to the position of a body it
    has been handed is not modelled; the buffers are given up when the
    loop is over. *)
Fixpoint upload_parts (cl : Client) (buffer_parts : list nat) : M unit :=
  match buffer_parts with
  | [] => ret tt
  | buffer_part :: rest =>
      run! buf := buffer_at buffer_part in
      run! _ := modify (fun f =>
                  with_buffer f (<[buffer_part := BytesIO.rewind buf]>
                                   (_buffer f))) in
      run! _ := conn in
      run! (bucket, key) := bucket_key in
      run! id := upload_id in
      run! n := current_part in
      let body := BytesIO.body (BytesIO.rewind buf) in
      run! etag := request (UploadPart bucket key id n body)
                     (fun log => upload_part cl log bucket key id n body) in
      run! info := multipart_info in
      run! n' := current_part in
      run! _ := modify (fun f => with_info f (info ++ [(n', etag)])%list) in
      run! n'' := current_part in
      run! _ := set_current_part (n'' + 1) in
      upload_parts cl rest
  end.

(** The head of [_multipart_upload_from_buffer]: the bucket is made sure
    of and, when the part to come is the first, the upload is created. *)
Definition start_upload (cl : Client) : M unit :=
  run! _ := ensure_bucket cl in
  run! n := current_part in
  if n =? 1 then
    run! _ := conn in
    run! (bucket, key) := bucket_key in
    run! id := request (CreateMultipartUpload bucket key)
                 (fun log => create_multipart_upload cl log bucket key) in
    modify (fun f => with_upload f id [])
  else ret tt.

(** Its two loops and the reset of the buffers that follows them. *)
Definition send_buffers (ca : ClassAttrs) (cl : Client) : M unit :=
  run! f := get in
  run! new_buffer := split_buffers ca (_buffer f) [] in
  run! _ := modify (fun f => with_buffer f new_buffer) in
  run! _ := upload_parts cl (seq 0 (length new_buffer)) in
  run! _ := modify (fun f => with_buffer f [BytesIO.new]) in
  run! _ := set_seek_pos 0 in
  run! n := current_part in
  set_current_part (n + 1).

(** [_multipart_upload_from_buffer()] *)
Definition _multipart_upload_from_buffer (ca : ClassAttrs) (cl : Client)
  : M unit :=
  run! _ := start_upload cl in send_buffers ca cl.

(** [self._buffer[-1].write(b)] *)
Definition write_last (b : list byte) : M unit :=
  run! f := get in
  match last (_buffer f) with
  | None => raise (IndexError "list index out of range")
  | Some buf =>
      modify (fun f =>
        with_buffer f (take (length (_buffer f) - 1) (_buffer f) ++
                       [BytesIO.write buf b])%list)
  end.

(** [write(b)] *)
Definition write (ca : ClassAttrs) (cl : Client) (b : list byte) : M Z :=
  run! f := get in
  if negb (contains_char "w" (_mode (base f))) then
    raise (APIException
             "Trying to write to a read only file, where mode != 'w'.")
  else
    let size := Z.of_nat (length b) in
    run! _ :=
      translate (on_client_error "Could not write to object " (_path (base f)))
        (run! _ := write_last b in
         run! _ := set_seek_pos (_seek_pos (base f) + size) in
         run! f := get in
         if _multipart_upload f && (_seek_pos (base f) >? _part_size (base f))
         then
           if Z.of_nat (length (_buffer f)) =? _max_parts f
           then _multipart_upload_from_buffer ca cl
           else modify (fun f => with_buffer f (_buffer f ++ [BytesIO.new])%list)
         else ret tt) in
    ret size.

(** [writelines(lines)] *)
Fixpoint write_each (ca : ClassAttrs) (cl : Client) (lines : list string)
  : M unit :=
  match lines with
  | [] => ret tt
  | l :: rest =>
      run! _ := write ca cl (PyStr.encode (l +:+ String "010" "")) in
      write_each ca cl rest
  end.

Definition not_on_binary (what uri : string) : exn :=
  APIException (what +:+ " on a binary file is not permitted: " +:+ uri).

Definition writelines (ca : ClassAttrs) (cl : Client) (lines : list string)
  : M bool :=
  run! f := get in
  if contains_char "b" (_mode (base f)) then
    raise (not_on_binary "writelines" (_uri f))
  else
    run! _ := write_each ca cl lines in ret true.

(** *** flush and close *)

(** [self._buffer[0]] *)
Definition first_buffer : M BytesIO.t :=
  run! f := get in
  match _buffer f with
  | buf :: _ => ret buf
  | [] => raise (IndexError "list index out of range")
  end.

(** [flush()] *)
Definition flush (ca : ClassAttrs) (cl : Client) : M bool :=
  run! f := get in
  run! _ :=
    translate on_attribute_error
      (if contains_char "w" (_mode (base f)) then
         run! buf := first_buffer in
         let size := BytesIO.tell buf in
         run! n := current_part in
         run! single :=
           (if n =? 1 then
              run! m := maximum_part_size_attr ca in ret (size <? m)
            else ret false) in
         if single then
           run! _ := ensure_bucket cl in
           run! buf := first_buffer in
           run! _ := modify (fun f =>
                       with_buffer f (BytesIO.rewind buf :: tl (_buffer f))) in
           run! _ := conn in
           run! (bucket, key) := bucket_key in
           let (body, buf') := BytesIO.read (BytesIO.rewind buf) size in
           run! _ := modify (fun f => with_buffer f (buf' :: tl (_buffer f))) in
           request (PutObject bucket key body)
                   (fun log => put_object cl log bucket key body)
         else
           run! _ := _multipart_upload_from_buffer ca cl in
           run! _ := conn in
           run! (bucket, key) := bucket_key in
           run! id := upload_id in
           run! info := multipart_info in
           request (CompleteMultipartUpload bucket key id info)
                   (fun log => complete_multipart_upload cl log bucket key
                                 id info)
       else ret tt) in
  ret true.

(** [self._conn_obj], handed to the pool's [release]. *)
Definition conn_obj_attr : M (option string) :=
  run! f := get in
  match _conn_obj (base f) with
  | Unset => raise (AttributeError (no_attribute "_conn_obj"))
  | IsNone => ret None
  | Conn c => ret (Some c)
  end.

(** [s3FileObject._connection_pool.release(conn)], logged like a
    request. *)
Definition release (cl : Client) (c : option string) : M unit :=
  fun st =>
    match release_raises cl (snd st) c with
    | Some e => (inl (Py e), (fst st, (snd st ++ [Release c])%list))
    | None => (inr tt, (fst st, (snd st ++ [Release c])%list))
    end.

(** [close()] *)
Definition close (ca : ClassAttrs) (cl : Client) : M bool :=
  run! f := get in
  run! _ :=
    translate on_attribute_error
      (if negb (_closed f) then
         run! _ := flush ca cl in
         run! c := conn_obj_attr in
         run! _ := release cl c in
         modify (fun f => with_closed f true)
       else ret tt) in
  ret true.

(** [__exit__(exc_type, exc_value, exc_tb)]; [exc] tells whether the
    block raised. *)
Definition __exit__ (ca : ClassAttrs) (cl : Client) (exc : bool) : M bool :=
  run! _ := close ca cl in
  ret (negb exc).

(** *** readline, readlines *)

(** The guards of [readline] and [readlines]. *)
Definition readlines_guard : M unit :=
  run! f := get in
  if contains_char "b" (_mode (base f)) then
    raise (not_on_binary "readline" (_uri f))
  else ret tt.

(** *** glob *)

(** The split of [_path] at its first wildcard. *)
Definition glob_split (path : string) : string * string :=
  let pi1 := default (String.length path) (PyStr.index "*" path) in
  let pi2 := default (String.length path) (PyStr.index "?" path) in
  let pi := Nat.min pi1 pi2 in
  (PyStr.upto pi path, PyStr.from pi path).

(** [glob()]: the listing under the prefix, all pages together, filtered
    by [fnmatch] against the wildcard part. *)
Definition glob {P : PyLib} (s3 : S3) : M (list string) :=
  run! f := get in
  let (prefix, wildcard) := glob_split (_path (base f)) in
  run! _ := conn in
  ret (List.filter (fun fname => fnmatch fname wildcard)
                   (list_objects_v2 s3 (_bucket (base f)) prefix)).

End s3FileObjectIO.

(** ** The other attribute methods of the front end *)

Module Attributes.

Import CFA.

(** [setncattr(name, value)] of a netCDF variable and group. *)
Definition nc_var_setncattr (v : Nc.NcVariable) (name : string) (value : attr)
  : Nc.NcVariable := Nc.var_setncatts v {[name := value]}.


Definition with_nc_var (v : s3Variable.t) (nv : Nc.NcVariable) : s3Variable.t :=
  {| s3Variable._cfa_var := s3Variable._cfa_var v;
     s3Variable._cfa_dim := s3Variable._cfa_dim v;
     s3Variable._nc_var := nv |}.

(** What the three [set...] methods of [s3Variable] share: the new
    metadata go to the CFA variable, else to the CFA dimension, else the
    netCDF variable is handed the call. *)
Definition var_update (v : s3Variable.t)
    (on_metadata : gmap string attr -> gmap string attr)
    (on_nc_var : Nc.NcVariable -> Nc.NcVariable) : s3Variable.t :=
  match s3Variable._cfa_var v with
  | Some cv =>
      s3Variable.with_cfa_var v
        (set_var_metadata cv (on_metadata (var_metadata cv)))
  | None =>
      match s3Variable._cfa_dim v with
      | Some cd =>
          s3Variable.with_cfa_dim v
            (set_dim_metadata cd (on_metadata (dim_metadata cd)))
      | None => with_nc_var v (on_nc_var (s3Variable._nc_var v))
      end
  end.

(** [s3Variable.setncattr(name, value)]; [setncattr_string] reads the
    same. *)
Definition var_setncattr (v : s3Variable.t) (name : string) (value : attr)
  : s3Variable.t :=
  var_update v (fun md => <[name := value]> md)
             (fun nv => nc_var_setncattr nv name value).

Definition var_setncattr_string := var_setncattr.

(** The names [s3Variable.setncatts] lets through; [nc_private] is
    [netCDF4._private_atts]. *)
Definition public (nc_private : list string) (k : string) : bool :=
  negb (str_in k nc_private || str_in k s3Variable._private_atts).

(** [s3Variable.setncatts(attdict)] *)
Definition var_setncatts (nc_private : list string) (v : s3Variable.t)
    (attdict : gmap string attr) : s3Variable.t :=
  var_update v
    (fun md => filter (fun kv => public nc_private (fst kv) = true) attdict ∪ md)
    (fun nv => Nc.var_setncatts nv attdict).


(** [s3Group]: [setncattr], [setncatts] (no name is held back),
    [ncattrs], [delncattr]. *)
Definition set_grp_metadata (g : CFAGroup) (md : gmap string attr) : CFAGroup :=
  {| grp_name := grp_name g; grp_name_is_literal := grp_name_is_literal g;
     grp_dimensions := grp_dimensions g; grp_metadata := md |}.

Definition grp_update (g : s3Group.t)
    (on_metadata : gmap string attr -> gmap string attr)
    (on_nc_grp : Nc.NcGroup -> Nc.NcGroup) : s3Group.t :=
  match s3Group._cfa_grp g with
  | Some cg =>
      {| s3Group._cfa_grp := Some (set_grp_metadata cg
                                     (on_metadata (grp_metadata cg)));
         s3Group._nc_grp := s3Group._nc_grp g |}
  | None =>
      {| s3Group._cfa_grp := None;
         s3Group._nc_grp := on_nc_grp (s3Group._nc_grp g) |}
  end.


Definition grp_setncatts (g : s3Group.t) (attdict : gmap string attr)
  : s3Group.t :=
  grp_update g (fun md => attdict ∪ md) (fun ng => Nc.grp_setncatts ng attdict).

(** [s3Group._private_atts] *)
Definition grp_private_atts : list string :=
  ["_nc_grp"; "_cfa_grp"; "parent"; "_s3_variables"; "_s3_dimensions"].

(** [s3Group.__getattr__(name)] past its first test, for a [name] that
    is not in [s3Group._private_atts]. *)
Definition grp_getattr_public {P : Nc.Protocol} (g : s3Group.t)
    (name : string) : res attr :=
  if str_in name Nc._private_atts then
    Nc.grp___getattr__ (s3Group._nc_grp g) name
  else
    match s3Group._cfa_grp g with
    | Some cg => s3Variable.dict_item (grp_metadata cg) name
    | None => Nc.grp___getattr__ (s3Group._nc_grp g) name
    end.

(** [self.name] of a group: no attribute of the instance or the class,
    so [__getattr__('name')]. *)
Definition grp_self_name {P : Nc.Protocol} (g : s3Group.t) : res attr :=
  grp_getattr_public g "name".

(** [s3Group.delncattr(name)] *)
Definition grp_delncattr {P : Nc.Protocol} (g : s3Group.t) (name : string)
  : res unit * s3Group.t :=
  match s3Group._cfa_grp g with
  | Some cg =>
      match grp_metadata cg !! name with
      | Some _ =>
          (Ok tt, grp_update g (fun md => delete name md) (fun ng => ng))
      | None =>
          (Raise (s3Variable.raise_not_found name (grp_self_name g)), g)
      end
  | None => (Raise (NameError "value"), g)
  end.

(** [s3Dataset]: the same four. *)
Definition set_cfa_metadata (c : CFADataset) (md : gmap string attr)
  : CFADataset :=
  {| cfa_name := cfa_name c; cfa_format := cfa_format c;
     cfa_version := cfa_version c; cfa_groups := cfa_groups c;
     cfa_metadata := md |}.

Definition ds_update (d : s3DatasetAttrs.t)
    (on_metadata : gmap string attr -> gmap string attr)
    (on_nc : Nc.NcGroup -> Nc.NcGroup) : s3DatasetAttrs.t :=
  match s3DatasetAttrs._cfa_dataset d with
  | Some c =>
      {| s3DatasetAttrs._cfa_dataset :=
           Some (set_cfa_metadata c (on_metadata (cfa_metadata c)));
         s3DatasetAttrs._nc_dataset := s3DatasetAttrs._nc_dataset d |}
  | None =>
      {| s3DatasetAttrs._cfa_dataset := None;
         s3DatasetAttrs._nc_dataset := on_nc (s3DatasetAttrs._nc_dataset d) |}
  end.


Definition ds_setncatts (d : s3DatasetAttrs.t) (attdict : gmap string attr)
  : s3DatasetAttrs.t :=
  ds_update d (fun md => attdict ∪ md) (fun ng => Nc.grp_setncatts ng attdict).

Definition ds_delncattr (d : s3DatasetAttrs.t) (name : string)
  : res unit * s3DatasetAttrs.t :=
  match s3DatasetAttrs._cfa_dataset d with
  | Some c =>
      match cfa_metadata c !! name with
      | Some _ =>
          (Ok tt, ds_update d (fun md => delete name md) (fun ng => ng))
      | None =>
          (Raise (APIException ("Attribute " +:+ name +:+
                                " not found in dataset")), d)
      end
  | None => (Raise (NameError "value"), d)
  end.

End Attributes.

(** ** s3Dataset: creating variables, renaming dimensions *)

Module s3DatasetOps.

Import CFA.

(** An [s3Variable] object in [_s3_variables]: the variable a [create]
    that returned has made of it, or an object whose [create] raised and
    whose [_nc_var] is still [None]. *)
Inductive entry : Type :=
| Created (v : s3Variable.t)
| Unfinished.

(** [CFAGroup.renameDimension(oldname, newname)], whose code is outside
    the two files: the group after the call. *)
Class CFARename := {
  cfa_renameDimension : CFAGroup -> string -> string -> res CFAGroup;
}.

(** The attributes of an [s3Dataset] the methods below read and write. *)
Record t := {
  s3d : s3Variable.S3d;             (* [_cfa_dataset], [_nc_dataset], ... *)
  _s3_variables : gmap string entry;
  _s3_dimensions : gset string;     (* the keys of [_s3_dimensions] *)
}.

Definition with_variables (ds : t) (vars : gmap string entry) : t :=
  {| s3d := s3d ds; _s3_variables := vars;
     _s3_dimensions := _s3_dimensions ds |}.

Definition with_nc_dataset (d : s3Variable.S3d) (g : Nc.NcGroup)
  : s3Variable.S3d :=
  {| s3Variable.d_cfa_dataset := s3Variable.d_cfa_dataset d;
     s3Variable.d_nc_dataset := g;
     s3Variable.d_format := s3Variable.d_format d;
     s3Variable.d_diskless := s3Variable.d_diskless d |}.

Definition with_cfa_dataset (d : s3Variable.S3d) (c : CFADataset)
  : s3Variable.S3d :=
  {| s3Variable.d_cfa_dataset := Some c;
     s3Variable.d_nc_dataset := s3Variable.d_nc_dataset d;
     s3Variable.d_format := s3Variable.d_format d;
     s3Variable.d_diskless := s3Variable.d_diskless d |}.

Definition with_s3d (ds : t) (d : s3Variable.S3d) : t :=
  {| s3d := d; _s3_variables := _s3_variables ds;
     _s3_dimensions := _s3_dimensions ds |}.

(** [createVariable(varname, datatype, dimensions, ...)]: a fresh
    [s3Variable()] is put under the name before its [create] is called.
    What [create] does to the CFA objects of the dataset is not
    followed. *)
Definition createVariable {C : s3Variable.CFAOps} {L : Nd.Libraries} (ds : t)
    (varname datatype : string) (dimensions : s3Variable.pyseq)
    (fill_value : option Z) (subarray_shape : list Z) (max_subarray_size : Z)
  : res s3Variable.t * t :=
  let ds0 := with_variables ds (<[varname := Unfinished]> (_s3_variables ds)) in
  match s3Variable.create (s3Variable.InDataset (s3d ds)) varname datatype
          dimensions fill_value subarray_shape max_subarray_size with
  | inl e => (Raise e, ds0)
  | inr (v, nc_parent) =>
      (Ok v,
       with_s3d (with_variables ds0 (<[varname := Created v]> (_s3_variables ds0)))
                (with_nc_dataset (s3d ds) nc_parent))
  end.

(** The [variables] property: the registry for an aggregated dataset. *)
Definition variables (ds : t) : option (gmap string entry) :=
  match s3Variable.d_cfa_dataset (s3d ds) with
  | Some _ => Some (_s3_variables ds)
  | None => None
  end.

(** [oldname in self.dimensions] *)
Definition has_dimension (ds : t) (name : string) : bool :=
  match s3Variable.d_cfa_dataset (s3d ds) with
  | Some _ => bool_decide (name ∈ _s3_dimensions ds)
  | None =>
      str_in name (map fst (Nc.ncg_dimensions
                              (s3Variable.d_nc_dataset (s3d ds))))
  end.

(** [renameDimension(oldname, newname)] of a netCDF dataset. *)
Definition nc_renameDimension (g : Nc.NcGroup) (oldname newname : string)
  : res Nc.NcGroup :=
  if negb (str_in oldname (map fst (Nc.ncg_dimensions g))) then
    Raise (KeyError oldname)
  else if str_in newname (map fst (Nc.ncg_dimensions g)) then
    Raise (ValueError ("NetCDF: String match to name in use: " +:+ newname))
  else
    Ok {| Nc.ncg_dimensions :=
            map (fun d => if String.eqb (fst d) oldname
                          then (newname, snd d) else d)
                (Nc.ncg_dimensions g);
          Nc.ncg_variables := Nc.ncg_variables g;
          Nc.ncg_attrs := Nc.ncg_attrs g |}.

(** The CFA dataset with its root group replaced. *)
Definition set_root_group (c : CFADataset) (g : CFAGroup) : CFADataset :=
  {| cfa_name := cfa_name c; cfa_format := cfa_format c;
     cfa_version := cfa_version c;
     cfa_groups := map (fun g0 => if String.eqb (grp_name g0) "root"
                                  then g else g0) (cfa_groups c);
     cfa_metadata := cfa_metadata c |}.

(** [s3Dataset.renameDimension(oldname, newname)] *)
Definition renameDimension {R : CFARename} (ds : t) (oldname newname : string)
  : res unit * t :=
  if negb (has_dimension ds oldname) then
    (Raise (APIException ("Dimension name: " +:+ oldname +:+
                          " does not exist.")), ds)
  else
    let after_cfa : res t :=
      match s3Variable.d_cfa_dataset (s3d ds) with
      | Some c =>
          try! cfa_root_group := getGroup c "root" in
          try! g := cfa_renameDimension cfa_root_group oldname newname in
          Ok (with_s3d ds (with_cfa_dataset (s3d ds) (set_root_group c g)))
      | None => Ok ds
      end in
    match after_cfa with
    | inl e => (Raise e, ds)
    | inr ds1 =>
        match nc_renameDimension (s3Variable.d_nc_dataset (s3d ds1))
                oldname newname with
        | inl e => (Raise e, ds1)
        | inr g => (Ok tt, with_s3d ds1 (with_nc_dataset (s3d ds1) g))
        end
    end.

End s3DatasetOps.

(* ===================================================================== *)
(** * Part II.  Concrete collaborators and scenarios                      *)
(* ===================================================================== *)

Module Scenario.

Import CFA.
Import PartitionIndex.

(** numpy and netCDF4 as released: an array that does not conform to the
    slab is refused. *)
Definition strict_libraries : Nd.Libraries :=
  {| Nd.default_fill := fun _ => 9969;
     Nd.nc_put_nonconforming := fun _ _ _ =>
       Raise (IndexError "size of data array does not conform to slice");
     Nd.np_put_nonconforming := fun _ _ _ =>
       Raise (ValueError "could not broadcast input array") |}.

(** A library that stores the corner of an oversized array instead. *)
Definition lenient_libraries : Nd.Libraries :=
  {| Nd.default_fill := fun _ => 9969;
     Nd.nc_put_nonconforming := fun a r d => Ok (Nd.item (Nd.put a r d));
     Nd.np_put_nonconforming := fun a r d => Ok (Nd.item (Nd.put a r d)) |}.

(** A netCDF4 library that answers a non-conforming assignment with
    [answer], an error or the new contents of the variable; numpy as
    released. *)
Definition libraries_answering (answer : res (list Z -> Z)) : Nd.Libraries :=
  {| Nd.default_fill := fun _ => 9969;
     Nd.nc_put_nonconforming := fun _ _ _ => answer;
     Nd.np_put_nonconforming := fun _ _ _ =>
       Raise (ValueError "could not broadcast input array") |}.

Fixpoint dim_lengths (g : CFAGroup) (dims : list string) : res (list Z) :=
  match dims with
  | [] => Ok []
  | d :: rest =>
      try! cd := getDimension g d in
      match dim_len cd with
      | Some n => try! ns := dim_lengths g rest in Ok (n :: ns)
      | None => Raise (CFAError "unlimited dimensions are not supported")
      end
  end.

Definition tile_fits (shape tile : list Z) : bool :=
  (length shape =? length tile)%nat &&
  forallb (fun nt => (0 <? snd nt) && (snd nt <=? fst nt)) (combine shape tile).

(** Modelled from the spec: [CFAGroup.createVariable] (the class is not
    among the source files).  Policy (a) of section 4.1: a given
    [subarray_shape] is honoured exactly, and refused when it does not fit
    the variable; when none is given the variable is one tile (the
    size-driven policy (b) is not modelled). *)
Definition simple_createVariable (base : string) (g : CFAGroup)
    (name dtype : string) (dims : list string) (subarray_shape : list Z)
    (max_subarray_size : Z) : res CFAVariable :=
  try! sh := dim_lengths g dims in
  let tile := match subarray_shape with [] => sh | _ => subarray_shape end in
  if tile_fits sh tile then
    Ok {| var_name := name; var_type := dtype; var_dims := dims;
          var_group := Some g; var_shape := sh; var_subarray_shape := tile;
          var_max_subarray_size := max_subarray_size; var_base := base;
          var_metadata := ∅; var_written := [] |}
  else Raise (CFAError "subarray shape does not fit the variable").

Definition simple_cfa (base : string) : s3Variable.CFAOps :=
  {| s3Variable.cfa_createVariable := simple_createVariable base;
     s3Variable.writeInitialPartitionInfo_raises := fun _ _ => None |}.

(** A local file system on which every file can be opened, whose master
    starts with [header]. *)
Definition local_backend (header : list byte) : s3Dataset.Backend :=
  {| s3Dataset.request_file := fun _ _ =>
       Ok {| s3Dataset.remote_system := false;
             s3Dataset.read_from := fun _ n => Ok (take (Z.to_nat n) header);
             s3Dataset.read := Ok header |};
     s3Dataset.nc_Dataset_raises := fun _ => None;
     s3Dataset.parser_is_file := fun _ => false;
     s3Dataset.parser_read := fun _ _ => Raise (CFAError "not a CFA file") |}.

(** The master of the boundary scenarios: dimensions [x] and [y] of
    length 4 with their dimension variables, in a write-mode CFA dataset
    named [master.nc]. *)
Definition dim_x : CFADimension :=
  {| dim_name := "x"; dim_len := Some 4; dim_axis_type := "X";
     dim_type := Some "i4"; dim_metadata := ∅ |}.
Definition dim_y : CFADimension :=
  {| dim_name := "y"; dim_len := Some 4; dim_axis_type := "Y";
     dim_type := Some "i4"; dim_metadata := ∅ |}.

Definition root : CFAGroup :=
  {| grp_name := "root"; grp_name_is_literal := true;
     grp_dimensions := [dim_x; dim_y]; grp_metadata := ∅ |}.

Definition cfa_master : CFADataset :=
  {| cfa_name := "master.nc"; cfa_format := "NETCDF4"; cfa_version := "0.4";
     cfa_groups := [root]; cfa_metadata := ∅ |}.

(** The coordinate values [0, 1, 2, 3]. *)
Definition coords : Nd.ndarray :=
  {| Nd.shape := [4]; Nd.item := fun i => match i with [k] => k | _ => 0 end |}.

Definition nc_dim_var (d : string) : Nc.NcVariable :=
  {| Nc.ncv_dtype := "i4"; Nc.ncv_dimensions := [d]; Nc.ncv_attrs := ∅;
     Nc.ncv_FillValue := None; Nc.ncv_data := coords |}.

Definition nc_master : Nc.NcGroup :=
  {| Nc.ncg_dimensions := [("x", 4); ("y", 4)];
     Nc.ncg_variables := <["x" := nc_dim_var "x"]> (<["y" := nc_dim_var "y"]> ∅);
     Nc.ncg_attrs := ∅ |}.

Definition s3d : s3Variable.S3d :=
  {| s3Variable.d_cfa_dataset := Some cfa_master;
     s3Variable.d_nc_dataset := nc_master;
     s3Variable.d_format := "NETCDF4";
     s3Variable.d_diskless := false |}.

Definition parent : s3Variable.Parent := s3Variable.InDataset s3d.

(** The same dataset before its dimension variables are created. *)
Definition parent_without_variables : s3Variable.Parent :=
  s3Variable.InDataset
    {| s3Variable.d_cfa_dataset := Some cfa_master;
       s3Variable.d_nc_dataset :=
         {| Nc.ncg_dimensions := [("x", 4); ("y", 4)];
            Nc.ncg_variables := ∅; Nc.ncg_attrs := ∅ |};
       s3Variable.d_format := "NETCDF4";
       s3Variable.d_diskless := false |}.

(** [createVariable("x", "i4", ("x",), subarray_shape=[2])] there. *)
Definition create_x : res (s3Variable.t * Nc.NcGroup) :=
  @s3Variable.create (simple_cfa "master") strict_libraries
    parent_without_variables "x" "i4" (s3Variable.PyTuple ["x"]) None [2] 0.

(** [createVariable("t", "f4", ("x", "y"), fill_value=-1,
    subarray_shape=[2, 2])] on that dataset. *)
Definition create_t (L : Nd.Libraries) (subarray_shape : list Z)
    (max_subarray_size : Z) : res (s3Variable.t * Nc.NcGroup) :=
  @s3Variable.create (simple_cfa "master") L parent "t" "f4"
    (s3Variable.PyTuple ["x"; "y"]) (Some (-1)) subarray_shape
    max_subarray_size.

(** The 4x4 array with the distinct elements 1..16, and a 2x2 array. *)
Definition A : Nd.ndarray :=
  {| Nd.shape := [4; 4];
     Nd.item := fun i => match i with [r; c] => 4 * r + c + 1 | _ => 0 end |}.

Definition B : Nd.ndarray :=
  {| Nd.shape := [2; 2];
     Nd.item := fun i => match i with [r; c] => 10 * r + c + 50 | _ => 0 end |}.

(** A fresh file manager over an empty backing store. *)
Definition fm0 : FileManager.t := FileManager.empty 1000000.

(** Create [t] with 2x2 tiles, assign [data] at [elem], read [elem] back. *)
Definition write_then_read (L : Nd.Libraries) (elem : list pyslice)
    (data : Nd.ndarray) : res Nd.ndarray :=
  try! (v, _) := create_t L [2; 2] 0 in
  try! (v', fm) := @s3Variable.__setitem__ L parent fm0 v elem data in
  try! (a, _) := @s3Variable.__getitem__ L parent fm v' elem in
  Ok a.

(** Objects with attributes: the variable [t] with [units] in its
    in-memory metadata and [long_name] only in the master file; a group
    and a dataset alike. *)
Definition cv_t : CFAVariable :=
  {| var_name := "t"; var_type := "f4"; var_dims := ["x"; "y"];
     var_group := Some root; var_shape := [4; 4];
     var_subarray_shape := [2; 2]; var_max_subarray_size := 0;
     var_base := "master";
     var_metadata := {["units" := AttrStr "K"]};
     var_written := [] |}.

Definition attr_var : s3Variable.t :=
  {| s3Variable._cfa_var := Some cv_t;
     s3Variable._cfa_dim := None;
     s3Variable._nc_var :=
       {| Nc.ncv_dtype := "f4"; Nc.ncv_dimensions := [];
          Nc.ncv_attrs := {["long_name" := AttrStr "temperature"]};
          Nc.ncv_FillValue := Some (-1);
          Nc.ncv_data := Nd.full [] 9969 |} |}.

Definition attr_cfa_group : CFAGroup :=
  {| grp_name := "obs"; grp_name_is_literal := false;
     grp_dimensions := []; grp_metadata := {["units" := AttrStr "K"]} |}.

Definition attr_group : s3Group.t :=
  {| s3Group._cfa_grp := Some attr_cfa_group;
     s3Group._nc_grp := Nc.empty_group |}.

Definition attr_cfa_dataset : CFADataset :=
  {| cfa_name := "master.nc"; cfa_format := "NETCDF4"; cfa_version := "0.4";
     cfa_groups := [root]; cfa_metadata := {["units" := AttrStr "K"]} |}.

Definition attr_dataset : s3DatasetAttrs.t :=
  {| s3DatasetAttrs._cfa_dataset := Some attr_cfa_dataset;
     s3DatasetAttrs._nc_dataset := Nc.empty_group |}.

(** An object store holding one object of 100 bytes, and a stream
    connected to it in read mode, positioned at byte 10. *)
Definition one_object : s3FileObject.S3 :=
  {| s3FileObject.pool_get := fun _ => None;
     s3FileObject.endpoint_up := fun _ => true;
     s3FileObject.head_object := fun b k =>
       if String.eqb b "bucket" && String.eqb k "data.nc" then Some 100
       else None;
     s3FileObject.list_objects_v2 := fun b prefix =>
       if String.eqb b "bucket" && String.prefix prefix "data.nc"
       then ["data.nc"] else [] |}.

Definition stream (mode : string) (pos : Z) : s3FileObject.t :=
  {| s3FileObject._server := "http://store"; s3FileObject._bucket := "bucket";
     s3FileObject._path := "data.nc"; s3FileObject._mode := mode;
     s3FileObject._seek_pos := pos; s3FileObject._part_size := 52428800;
     s3FileObject._conn_obj := s3FileObject.Conn "http://store";
     s3FileObject._current_part := None |}.

(** Boundary scenario 2: [t[0:2, 0:2] = B] is written, the dataset is
    closed, and a new manager is opened over the backing store. *)
Definition sparse_store : gmap string Nc.NcDataset :=
  Eval vm_compute in
  match (try! (v, _) := create_t strict_libraries [2; 2] 0 in
         @s3Variable.__setitem__ strict_libraries parent fm0 v
           [range 0 2; range 0 2] B) with
  | inr (_, fm) => FileManager.flushed fm
  | inl _ => ∅
  end.

Definition reopened : FileManager.t := FileManager.over sparse_store 1000000.

(** A 10x10 variable in 3x3 tiles: the last tile on each axis is short. *)
Definition cv_u : CFAVariable :=
  {| var_name := "u"; var_type := "f4"; var_dims := ["x"; "y"];
     var_group := Some root; var_shape := [10; 10];
     var_subarray_shape := [3; 3]; var_max_subarray_size := 0;
     var_base := "master"; var_metadata := ∅; var_written := [] |}.

(** An index entry at a glance: partition index, source and target
    intervals. *)
Definition summary (e : IndexEntry)
  : list Z * list (Z * Z) * list (Z * Z) :=
  (index (partition e),
   map (fun s => (Nd.start s, Nd.stop s)) (source e),
   map (fun s => (Nd.start s, Nd.stop s)) (target e)).

(** The index entries of [t[:, :]]. *)
Definition entries_all : list IndexEntry :=
  Eval vm_compute in
  match PartitionIndex.__getitem__ cv_t [all; all] with
  | inr es => es
  | inl _ => []
  end.

(** The attribute protocol of netCDF4 as released.  [_private_atts]
    holds [name]; [__getattr__] answers a name of that list from the
    dict of the netCDF attributes of the object ([KeyError] when there
    is none of that name) and any other name through [getncattr] (names
    of the form [__x__] apart). *)
Definition netcdf4_private_atts : list string :=
  ["_grpid"; "_grp"; "_varid"; "groups"; "dimensions"; "variables"; "dtype";
   "data_model"; "disk_format"; "_nunlimdim"; "path"; "parent"; "ndim";
   "mask"; "scale"; "cmptypes"; "vltypes"; "enumtypes"; "_isprimitive";
   "file_format"; "_isvlen"; "_isenum"; "_iscompound"; "_cmptype"; "_vltype";
   "_enumtype"; "name"; "__orthogoral_indexing__"; "keepweakref"; "_has_lsd";
   "_buffer"; "chartostring"; "_use_get_vars"; "_ncstring_attrs__"].

Definition netcdf4_getattr (attrs : gmap string attr) (name : string)
  : res attr :=
  if str_in name netcdf4_private_atts then s3Variable.dict_item attrs name
  else Nc.getncattr attrs name.

Definition released : Nc.Protocol :=
  {| Nc._private_atts := netcdf4_private_atts;
     Nc.var___getattr__ := fun nv => netcdf4_getattr (Nc.ncv_attrs nv);
     Nc.grp___getattr__ := fun g => netcdf4_getattr (Nc.ncg_attrs g);
     Nc.format_array := fun l =>
       "[" +:+ String.concat " " (map pretty l) +:+ "]" |}.

End Scenario.

(** ** The behaviour as the specification words it *)

Module Stated.

(** The position a [seek] aims at: [offset] from the start, the current
    position plus [offset], or the size minus [offset]. *)
Definition seek_target (pos size offset whence : Z) : Z :=
  if whence =? s3FileObject.SEEK_SET then offset
  else if whence =? s3FileObject.SEEK_CUR then pos + offset
  else size - offset.

(** "The caller supplied a [subarray_shape] or [max_subarray_size > 0]". *)
Definition tiling_requested (subarray_shape : list Z) (max_subarray_size : Z)
  : bool :=
  negb (bool_decide (subarray_shape = [])) || (0 <? max_subarray_size).

(** An index entry can be served from the manager [fm] into a target
    array of shape [sh]: its target has one slice per axis, and when its
    subarray file is there (cached or on the backing store), the file
    holds the variable and the slab read at the source is of the target
    region's shape. *)
Definition servable (cv : CFA.CFAVariable) (sh : list Z) (fm : FileManager.t)
    (e : PartitionIndex.IndexEntry) : Prop :=
  length (PartitionIndex.target e) = length sh /\
  match FileManager.resolve fm (CFA.file (PartitionIndex.partition e)) with
  | None => True
  | Some ds =>
      exists slab,
        s3Variable.subarray_slab cv ds e = Ok slab /\
        Nd.shape slab = Nd.region_shape sh (PartitionIndex.target e)
  end.

(** The same with the slab the code reads, for the invariant of the
    loop: the value the entry [e] owes the target array at index [i] of
    its target region. *)
Definition owed_slab (cv : CFA.CFAVariable) (fill_value : Z) (sh : list Z)
    (fm : FileManager.t) (e : PartitionIndex.IndexEntry) (i : list Z) (z : Z)
  : Prop :=
  match FileManager.resolve fm (CFA.file (PartitionIndex.partition e)) with
  | None => z = fill_value
  | Some ds =>
      exists slab,
        s3Variable.subarray_slab cv ds e = Ok slab /\
        z = Nd.item slab (Nd.region_to_local sh (PartitionIndex.target e) i)
  end.

(** The variable a subarray file stores for [cv]: the variable of that
    name in the group of the file named after the CFA group, or in the
    file itself when the variable has no CFA group or its group is the
    root group. *)
Definition stored (cv : CFA.CFAVariable) (ds : Nc.NcDataset)
  : option Nc.NcVariable :=
  let in_file := Nc.ncg_variables (Nc.ncd_root ds) !! CFA.var_name cv in
  match CFA.var_group cv with
  | None => in_file
  | Some g =>
      if CFA.grp_name_is_literal g && String.eqb (CFA.grp_name g) "root"
      then in_file
      else
        match Nc.ncd_groups ds !! CFA.grp_name g with
        | Some grp => Nc.ncg_variables grp !! CFA.var_name cv
        | None => None
        end
  end.

(** A subarray file that is there can be read for the entry [e]: it
    stores the variable, the source has a slice for every axis of the
    stored array, and it selects as many elements on every axis as the
    target does in an array of shape [sh]. *)
Definition readable (cv : CFA.CFAVariable) (sh : list Z) (fm : FileManager.t)
    (e : PartitionIndex.IndexEntry) : Prop :=
  forall ds,
    FileManager.resolve fm (CFA.file (PartitionIndex.partition e)) = Some ds ->
    exists nv,
      stored cv ds = Some nv /\
      length (PartitionIndex.source e) = length (Nd.shape (Nc.ncv_data nv)) /\
      Nd.region_shape (Nd.shape (Nc.ncv_data nv)) (PartitionIndex.source e)
        = Nd.region_shape sh (PartitionIndex.target e).

(** The value the entry [e] owes the target array at index [i] of its
    target region: the fill value when its file is absent; else the
    element the file stores at the position of the source that [i] has
    in the target (the k-th selected position on every axis goes to the
    k-th). *)
Definition owed (cv : CFA.CFAVariable) (fill_value : Z) (sh : list Z)
    (fm : FileManager.t) (e : PartitionIndex.IndexEntry) (i : list Z) (z : Z)
  : Prop :=
  match FileManager.resolve fm (CFA.file (PartitionIndex.partition e)) with
  | None => z = fill_value
  | Some ds =>
      exists nv,
        stored cv ds = Some nv /\
        z = Nd.item (Nc.ncv_data nv)
              (Nd.region_of_local (Nd.shape (Nc.ncv_data nv))
                 (PartitionIndex.source e)
                 (Nd.region_to_local sh (PartitionIndex.target e) i))
  end.

(** The elements of a result at the indices [0, 0] and [2, 2]. *)
Definition corners (r : res Nd.ndarray) : option (Z * Z) :=
  match r with
  | inr a => Some (Nd.item a [0; 0], Nd.item a [2; 2])
  | inl _ => None
  end.

End Stated.

(** ** Concrete collaborators of the byte stream *)

Module StreamScenario.

Import s3FileObjectIO.

(** [s] up to the first [c], all of it when there is none. *)
Definition cut_at (c : ascii) (s : string) : string :=
  PyStr.upto (default (String.length s) (PyStr.index c s)) s.

(** [urlparse] on URIs [scheme://netloc/path?query#fragment] whose
    scheme is made of lower-case letters and whose path has no [;]: the
    scheme ends at the first colon, the network location at the first of
    [/], [?] and [#], the fragment and then the query are cut off the
    path, and a network location with one square bracket and not the
    other is a [ValueError]. *)
Definition simple_urlparse (uri : string) : res ParseResult :=
  let (scheme, rest) :=
    match PyStr.index ":" uri with
    | Some (S i) => (PyStr.upto (S i) uri, PyStr.from (S (S i)) uri)
    | _ => ("", uri)
    end in
  if String.prefix "//" rest then
    let hostpath := PyStr.from 2 rest in
    let netloc := cut_at "/" (cut_at "?" (cut_at "#" hostpath)) in
    if xorb (contains_char "[" netloc) (contains_char "]" netloc) then
      Raise (ValueError "Invalid IPv6 URL")
    else
      Ok {| scheme := scheme; netloc := netloc;
            path := cut_at "?" (cut_at "#"
                      (PyStr.from (String.length netloc) hostpath)) |}
  else
    Ok {| scheme := scheme; netloc := "";
          path := cut_at "?" (cut_at "#" rest) |}.

(** [fnmatch] on patterns of literals, [*] and [?]. *)
Fixpoint simple_fnmatch_pat (pat : string) : string -> bool :=
  match pat with
  | EmptyString => fun name => String.eqb name ""
  | String c pat' =>
      if Ascii.eqb c "*" then
        fix star (name : string) : bool :=
          simple_fnmatch_pat pat' name ||
          match name with
          | EmptyString => false
          | String _ name' => star name'
          end
      else
        fun name =>
          match name with
          | EmptyString => false
          | String d name' =>
              (Ascii.eqb c "?" || Ascii.eqb c d) &&
              simple_fnmatch_pat pat' name'
          end
  end.

Definition pylib : PyLib :=
  {| urlparse := simple_urlparse;
     fnmatch := fun name pat => simple_fnmatch_pat pat name |}.

Definition credentials : gmap string string :=
  {["accessKey" := "AK"; "secretKey" := "SK"]}.

(** A server that answers every request: objects are [content] whatever
    the key, ranges are served from it, uploads are acknowledged with the
    part number as the tag. *)
Definition serving (content : list byte) : Client :=
  {| get_object := fun _ _ _ range =>
       match range with
       | None => inr content
       | Some (a, b) =>
           inr (take (Z.to_nat (b - a + 1)) (drop (Z.to_nat a) content))
       end;
     list_buckets := fun _ => inr ["bucket"];
     create_bucket := fun _ _ => inr tt;
     create_multipart_upload := fun _ _ _ => inr "upload-1";
     upload_part := fun _ _ _ _ n _ => inr ("etag-" +:+ pretty n);
     put_object := fun _ _ _ _ => inr tt;
     complete_multipart_upload := fun _ _ _ _ _ => inr tt;
     release_raises := fun _ _ => None |}.

(** The bytes [0, 1, ..., n-1] (modulo 256). *)
Definition ramp (n : nat) : list byte :=
  map (fun k => default x00 (Byte.of_nat (k mod 256))) (seq 0 n).

(** A stream over [base] with the given buffers, otherwise as [__init__]
    leaves it without a configuration file (bucket creation off). *)
Definition over (base : s3FileObject.t) (buffers : list BytesIO.t) : t :=
  {| base := base; _uri := "http://store/bucket/data.nc"; _closed := false;
     _buffer := buffers; _credentials := ∅;
     _create_bucket := false; _max_parts := 8; _multipart_upload := true;
     _multipart_download := true;
     _connect_timeout := QArith_base.Qmake 30 1;
     _read_timeout := QArith_base.Qmake 30 1;
     _upload_id := None; _multipart_info := None |}.

(** A connected stream in read mode on the object of 100 bytes, at
    position [pos]. *)
Definition reader (pos : Z) : t := over (Scenario.stream "r" pos) [BytesIO.new].

(** A connected stream in the write mode [mode] with a part size of 8
    bytes, about to send its first part. *)
Definition writing (mode : string) : s3FileObject.t :=
  {| s3FileObject._server := "http://store"; s3FileObject._bucket := "bucket";
     s3FileObject._path := "data.nc"; s3FileObject._mode := mode;
     s3FileObject._seek_pos := 0; s3FileObject._part_size := 8;
     s3FileObject._conn_obj := s3FileObject.Conn "http://store";
     s3FileObject._current_part := Some 1 |}.

Definition writer (buffers : list BytesIO.t) : t := over (writing "w") buffers.

(** The same with multipart upload off. *)
Definition text_writer : t :=
  {| base := writing "w"; _uri := "http://store/bucket/data.nc";
     _closed := false; _buffer := [BytesIO.new]; _credentials := ∅;
     _create_bucket := false; _max_parts := 8; _multipart_upload := false;
     _multipart_download := true;
     _connect_timeout := QArith_base.Qmake 30 1;
     _read_timeout := QArith_base.Qmake 30 1;
     _upload_id := None; _multipart_info := None |}.

(** A connected stream in read mode whose path is a pattern. *)
Definition globbing : t :=
  over {| s3FileObject._server := "http://store";
          s3FileObject._bucket := "bucket";
          s3FileObject._path := "data?nc"; s3FileObject._mode := "r";
          s3FileObject._seek_pos := 0; s3FileObject._part_size := 52428800;
          s3FileObject._conn_obj := s3FileObject.Conn "http://store";
          s3FileObject._current_part := None |} [BytesIO.new].

(** The arguments of a stream in mode ['w'] that asks for no multipart
    upload, a part size of 0 and a read timeout of 5 seconds. *)
Definition plain_args : InitArgs :=
  {| arg_mode := "w"; arg_create_bucket := true; arg_part_size := Some 0;
     arg_max_parts := None; arg_multipart_upload := Some false;
     arg_multipart_download := None; arg_connect_timeout := None;
     arg_read_timeout := Some (QArith_base.Qmake 5 1) |}.

(** A buffer that [b] has been written to. *)
Definition filled (b : list byte) : BytesIO.t := BytesIO.write BytesIO.new b.

(** [MAXIMUM_PART_SIZE] assigned from outside. *)
Definition assigned (m : Z) : ClassAttrs := {| MAXIMUM_PART_SIZE := Some m |}.

(** The multipart upload of a buffer of ten bytes and one of three, in
    parts of at most four bytes. *)
Definition uploaded : (raised + unit) * state :=
  Eval vm_compute in
  _multipart_upload_from_buffer (assigned 4) (serving [])
    (writer [filled (ramp 10); filled (ramp 3)], []).

End StreamScenario.

(** ** Notions the properties of the byte stream are stated with *)

Module StreamStated.

Import s3FileObjectIO.

(** A buffer that has only been written to: its position is its end. *)
Definition written_out (buf : BytesIO.t) : Prop :=
  BytesIO.pos buf = length (BytesIO.data buf).

(** The parts a log of requests uploads: number and body of every
    [upload_part], in order. *)
Definition uploads (log : list call) : list (Z * list byte) :=
  omap (fun c => match c with
                 | UploadPart _ _ _ n body => Some (n, body)
                 | _ => None
                 end) log.

(** The requests that carry or commit data of the object. *)
Definition sends_data (c : call) : bool :=
  match c with
  | UploadPart _ _ _ _ _ | PutObject _ _ _
  | CompleteMultipartUpload _ _ _ _ => true
  | _ => false
  end.

(** The numbers [n, n+1, ..., n+k-1]. *)
Definition numbers (n : Z) (k : nat) : list Z :=
  map (fun j => n + Z.of_nat j) (seq 0 k).

End StreamStated.

(** ** Scenarios of the front end: plain objects, a registry, a remote
    store *)

Module DatasetScenario.

Import CFA.

(** A variable, a group and a dataset that are not aggregated, each
    with [long_name] in the netCDF file. *)
Definition plain_var : s3Variable.t :=
  {| s3Variable._cfa_var := None;
     s3Variable._cfa_dim := None;
     s3Variable._nc_var :=
       {| Nc.ncv_dtype := "f4"; Nc.ncv_dimensions := ["x"];
          Nc.ncv_attrs := {["long_name" := AttrStr "temperature"]};
          Nc.ncv_FillValue := None;
          Nc.ncv_data := Nd.full [4] 9969 |} |}.

Definition plain_group : s3Group.t :=
  {| s3Group._cfa_grp := None; s3Group._nc_grp := Nc.empty_group |}.

Definition plain_dataset : s3DatasetAttrs.t :=
  {| s3DatasetAttrs._cfa_dataset := None;
     s3DatasetAttrs._nc_dataset := Nc.empty_group |}.

(** A dict for [setncatts] with a private name in it. *)
Definition attdict : gmap string attr :=
  {["units" := AttrStr "degC"; "parent" := AttrStr "none"]}.

(** An object store on which every object can be opened, whose master
    starts with [header]. *)
Definition remote_backend (header : list byte) : s3Dataset.Backend :=
  {| s3Dataset.request_file := fun _ _ =>
       Ok {| s3Dataset.remote_system := true;
             s3Dataset.read_from := fun _ n => Ok (take (Z.to_nat n) header);
             s3Dataset.read := Ok header |};
     s3Dataset.nc_Dataset_raises := fun _ => None;
     s3Dataset.parser_is_file := fun _ => false;
     s3Dataset.parser_read := fun _ _ => Raise (CFAError "not a CFA file") |}.

(** The first bytes of a netCDF-4 file: the HDF5 signature. *)
Definition hdf5_header : list byte :=
  [x89; x48; x44; x46; x0d; x0a; x1a; x0a].

(** A CFA group that renames a dimension by its name. *)
Definition renaming : s3DatasetOps.CFARename :=
  {| s3DatasetOps.cfa_renameDimension := fun g oldname newname =>
       Ok {| grp_name := grp_name g;
             grp_name_is_literal := grp_name_is_literal g;
             grp_dimensions :=
               map (fun d => if String.eqb (dim_name d) oldname
                             then {| dim_name := newname; dim_len := dim_len d;
                                     dim_axis_type := dim_axis_type d;
                                     dim_type := dim_type d;
                                     dim_metadata := dim_metadata d |}
                             else d) (grp_dimensions g);
             grp_metadata := grp_metadata g |} |}.

(** The master of the boundary scenarios as an s3Dataset: the dimensions
    [x] and [y] with their dimension variables. *)
Definition dim_var (d : CFADimension) (name : string) : s3Variable.t :=
  {| s3Variable._cfa_var := None; s3Variable._cfa_dim := Some d;
     s3Variable._nc_var := Scenario.nc_dim_var name |}.

Definition master : s3DatasetOps.t :=
  {| s3DatasetOps.s3d := Scenario.s3d;
     s3DatasetOps._s3_variables :=
       {["x" := s3DatasetOps.Created (dim_var Scenario.dim_x "x");
         "y" := s3DatasetOps.Created (dim_var Scenario.dim_y "y")]};
     s3DatasetOps._s3_dimensions := {["x"; "y"]} |}.

(** The same master under a CFA version the code does not write. *)
Definition cfa_master_03 : CFADataset :=
  {| cfa_name := "master.nc"; cfa_format := "NETCDF4"; cfa_version := "0.3";
     cfa_groups := [Scenario.root]; cfa_metadata := ∅ |}.

(** The CFA variable the group makes of [t] over [x] and [y] in 2x2
    tiles. *)
Definition cv_t_new : CFAVariable :=
  {| var_name := "t"; var_type := "f4"; var_dims := ["x"; "y"];
     var_group := Some Scenario.root; var_shape := [4; 4];
     var_subarray_shape := [2; 2]; var_max_subarray_size := 0;
     var_base := "master"; var_metadata := ∅; var_written := [] |}.

Definition master_03 : s3DatasetOps.t :=
  s3DatasetOps.with_s3d master
    (s3DatasetOps.with_cfa_dataset Scenario.s3d cfa_master_03).

End DatasetScenario.

(* ===================================================================== *)
(** * Part III.  Properties                                               *)
(* ===================================================================== *)

(** ** Helper lemmas on strings and bytes *)

Lemma bytes_eqb_eq (a b : list byte) : bytes_eqb a b = true <-> a = b.
Proof.
  revert b; induction a as [|x a IH]; intros [|y b]; simpl; try easy.
  rewrite andb_true_iff, IH. split.
  - intros [Hxy ->]. f_equal. now apply Byte.byte_dec_bl.
  - intros [= -> ->]. split; [now apply Byte.byte_dec_lb | reflexivity].
Qed.

Lemma byte_to_N_inj (a b : byte) : Byte.to_N a = Byte.to_N b -> a = b.
Proof.
  intros H. assert (Some a = Some b) as [= ->]; [|reflexivity].
  rewrite <- (Byte.of_to_N a), <- (Byte.of_to_N b). now rewrite H.
Qed.

Lemma item_is_int (data : list byte) (i : nat) (lit : list byte) :
  (try! d := bytes_index data i in Ok (py_eq d (PyBytes lit))) =
  match data !! i with
  | Some _ => Ok false
  | None => Raise (IndexError "index out of range")
  end.
Proof. unfold bytes_index. now destruct (data !! i). Qed.

(** ** The magic-number classifier *)

Example classify_classic :
  Magic._interpret_netCDF_filetype [x43; x44; x46; x01; x00; x00]
  = Ok ("NETCDF3_CLASSIC", 1).
Proof. reflexivity. Qed.

Example classify_hdf5 :
  Magic._interpret_netCDF_filetype [x89; x48; x44; x46; x0d; x0a]
  = Ok ("NETCDF4", 5).
Proof. reflexivity. Qed.

(** Whatever the header, the classifier answers with one of four pairs or
    fails on a header too short to index; the 64-bit types and version 4
    are never among the answers. *)
Lemma classifier_range (data : list byte) :
  Magic._interpret_netCDF_filetype data = Ok ("NETCDF4", 5) \/
  Magic._interpret_netCDF_filetype data = Ok ("NETCDF3_CLASSIC", 1) \/
  Magic._interpret_netCDF_filetype data = Ok ("NOT_NETCDF", 1) \/
  Magic._interpret_netCDF_filetype data = Ok ("NOT_NETCDF", 0) \/
  Magic._interpret_netCDF_filetype data =
    Raise (IndexError "index out of range").
Proof.
  unfold Magic._interpret_netCDF_filetype.
  destruct (bytes_eqb (bytes_slice data 1 4) Magic.b_HDF); [now left|].
  unfold and_then. rewrite item_is_int.
  destruct (data !! 0%nat) as [b0|] eqn:E0; simpl; [|now repeat right].
  destruct (bytes_eqb (bytes_slice data 0 3) Magic.b_CDF); [|now do 3 right; left].
  unfold bytes_index. destruct (data !! 3%nat) as [b3|]; simpl; [|now repeat right].
  destruct (Z.of_N (Byte.to_N b3) =? 1); [now right; left | now do 2 right; left].
Qed.

(** C2 (as the code behaves): a header that begins with the classical
    magic [CDF\x01] is classified [NETCDF3_CLASSIC], but one that begins with
    [\x0e\x03\x13\x01], [CDF\x02] or [CDF\x05] is classified [NOT_NETCDF],
    whatever follows: the item [data[0]] is an [int] and never equals a
    [bytes] literal, and the [int] version never equals ['2'] or ['5']. *)
Theorem classifier_misses_hdf4_and_64bit (rest : list byte) :
  Magic._interpret_netCDF_filetype ([x43; x44; x46; x01] ++ rest)
    = Ok ("NETCDF3_CLASSIC", 1) /\
  Magic._interpret_netCDF_filetype ([x0e; x03; x13; x01] ++ rest)
    = Ok ("NOT_NETCDF", 0) /\
  Magic._interpret_netCDF_filetype ([x43; x44; x46; x02] ++ rest)
    = Ok ("NOT_NETCDF", 1) /\
  Magic._interpret_netCDF_filetype ([x43; x44; x46; x05] ++ rest)
    = Ok ("NOT_NETCDF", 1).
Proof. repeat split; reflexivity. Qed.

(** An unrecognised header of four bytes or more is [NOT_NETCDF]. *)
Lemma unrecognised_not_netcdf (data : list byte) :
  (4 <= length data)%nat ->
  Magic.recognised data = false ->
  exists version,
    Magic._interpret_netCDF_filetype data = Ok ("NOT_NETCDF", version).
Proof.
  intros Hlen Hrec.
  destruct data as [|b0 [|b1 [|b2 [|b3 rest]]]]; simpl in Hlen; try lia.
  unfold Magic.recognised in Hrec.
  repeat (apply orb_false_elim in Hrec as [Hrec ?]).
  unfold Magic.magic_hdf5 in Hrec.
  unfold Magic._interpret_netCDF_filetype. rewrite Hrec.
  unfold and_then. rewrite item_is_int. simpl.
  destruct (Byte.eqb b0 x43) eqn:E0; [|now exists 0].
  destruct (Byte.eqb b1 x44) eqn:E1; [|now exists 0].
  destruct (Byte.eqb b2 x46) eqn:E2; [|now exists 0].
  simpl.
  destruct (Z.of_N (Byte.to_N b3) =? 1) eqn:E3; [|now exists 1].
  apply Z.eqb_eq in E3.
  assert (b3 = x01) as -> by (apply byte_to_N_inj; cbn; lia).
  apply Byte.byte_dec_bl in E0, E1, E2. subst. discriminate.
Qed.

(** A header the specification does not recognise, whatever its length:
    the classifier raises [IndexError] on an empty header (at [data[0]])
    and on the header [CDF] with nothing behind it (at [data[3]]), and
    answers [NOT_NETCDF] on every other one. *)
Lemma unrecognised_classified (data : list byte) :
  Magic.recognised data = false ->
  if bytes_eqb data [] || bytes_eqb data Magic.b_CDF
  then Magic._interpret_netCDF_filetype data
       = Raise (IndexError "index out of range")
  else exists version,
         Magic._interpret_netCDF_filetype data = Ok ("NOT_NETCDF", version).
Proof.
  intros Hrec.
  destruct data as [|b0 [|b1 [|b2 [|b3 rest]]]].
  - reflexivity.
  - unfold Magic._interpret_netCDF_filetype, and_then. cbn.
    rewrite !andb_false_r. cbn. now exists 0.
  - unfold Magic._interpret_netCDF_filetype, and_then. cbn.
    rewrite !andb_false_r. cbn. now exists 0.
  - unfold Magic._interpret_netCDF_filetype, and_then. cbn.
    rewrite ?andb_false_r, ?andb_true_r. cbn.
    destruct (Byte.eqb b0 x43 && (Byte.eqb b1 x44 && Byte.eqb b2 x46));
      cbn; [reflexivity | now exists 0].
  - replace (bytes_eqb (b0 :: b1 :: b2 :: b3 :: rest) [] ||
             bytes_eqb (b0 :: b1 :: b2 :: b3 :: rest) Magic.b_CDF)
      with false by (cbn; now rewrite !andb_false_r).
    apply unrecognised_not_netcdf; [cbn; lia | exact Hrec].
Qed.

(** ** Opening a dataset *)

Section Open.

Context (B : s3Dataset.Backend).

Import s3Dataset.

(** The compatibility check rejects version 0.5 with [CFA3] and with
    [NETCDF3_CLASSIC] before anything else happens. *)
Lemma incompatible_rejected (a : OpenArgs) :
  arg_cfa_version a = "0.5" ->
  format a = "CFA3" \/ format a = "NETCDF3_CLASSIC" ->
  s3Dataset.open a =
    (Raise (APIException "CFA 0.5 is not compatible with NETCDF3 file formats."),
     []).
Proof.
  intros Hv Hf. unfold s3Dataset.open, __init__, incompatible.
  rewrite Hv. destruct Hf as [-> | ->]; reflexivity.
Qed.

(** A mode other than ['r'] and ['w'] that holds no ['b'] is refused once
    the file manager has handed the file over. *)
Lemma other_mode_rejected (a : OpenArgs) (fo : FileObject) :
  incompatible (arg_cfa_version a) (format a) = false ->
  contains_char "b" (mode a) = false ->
  mode a <> "r" -> mode a <> "w" ->
  request_file (filename a) (mode a +:+ "b") = Ok fo ->
  s3Dataset.open a =
    (Raise (APIException ("Mode " +:+ mode a +:+ " not supported.")),
     [EvFileManager; EvRequestFile (filename a) (mode a +:+ "b")]).
Proof.
  intros Hc Hb Hr Hw Hreq. unfold s3Dataset.open, __init__.
  rewrite Hc. unfold fh_mode_of. rewrite Hb. cbn.
  unfold mbind, emit, lift. cbn. rewrite Hreq.
  destruct (String.eqb_spec (mode a) "w"); [contradiction|].
  destruct (String.eqb_spec (mode a) "r"); [contradiction|].
  reflexivity.
Qed.

(** C9 (as the code behaves): a mode that holds a ['b'] (binary read
    ["rb"], binary append ["ab"]) is neither ['r'] nor ['w'], yet the
    open does not end in the [APIException] of the last branch: [fh_mode]
    is bound only when the mode holds no ['b'], so the call of the file
    manager raises [UnboundLocalError] first. *)
Theorem binary_mode_unbound_fh_mode (filename format : string) :
  s3Dataset.open (open_args filename "rb" format "0.4") =
    (Raise (UnboundLocalError "fh_mode"), [EvFileManager]) /\
  s3Dataset.open (open_args filename "ab" format "0.4") =
    (Raise (UnboundLocalError "fh_mode"), [EvFileManager]).
Proof. split; reflexivity. Qed.

(** The same for every mode with a ['b'] in it. *)
Lemma binary_modes_unbound (a : OpenArgs) :
  incompatible (arg_cfa_version a) (format a) = false ->
  contains_char "b" (mode a) = true ->
  s3Dataset.open a = (Raise (UnboundLocalError "fh_mode"), [EvFileManager]).
Proof.
  intros Hc Hb. unfold s3Dataset.open, __init__, fh_mode_of.
  now rewrite Hc, Hb.
Qed.

(** C6 (as the code behaves): a read-mode open whose arguments pass the
    compatibility check and whose file the file manager delivers, with a
    header that matches none of the recognised magic numbers, returns no
    dataset and constructs no netCDF dataset; it raises after reading
    the header.  What it raises is the [IOError] "File: ... is not a
    netCDF file" (the NotARecognizedFile of the specification) unless the
    master is empty or holds the three bytes [CDF] alone: the classifier
    indexes the header without looking at its length, and the open ends
    in its [IndexError]. *)
Theorem open_read_unrecognised_raises (a : OpenArgs) (fo : FileObject)
    (data : list byte) :
  mode a = "r" ->
  incompatible (arg_cfa_version a) (format a) = false ->
  request_file (filename a) "rb" = Ok fo ->
  read_from fo 0 6 = Ok data ->
  Magic.recognised data = false ->
  s3Dataset.open a =
    (Raise (if bytes_eqb data [] || bytes_eqb data Magic.b_CDF
            then IndexError "index out of range"
            else IOError ("File: " +:+ filename a +:+
                          " is not a netCDF file")),
     [EvFileManager; EvRequestFile (filename a) "rb"; EvReadFrom 0 6]).
Proof.
  intros Hm Hc Hreq Hread Hrec.
  pose proof (unrecognised_classified data Hrec) as Hcls.
  unfold s3Dataset.open, __init__. rewrite Hc, Hm. cbn.
  unfold mbind, emit, lift. cbn. change ("r" +:+ "b") with "rb".
  rewrite Hreq. cbn. rewrite Hread. cbn.
  destruct (bytes_eqb data [] || bytes_eqb data Magic.b_CDF).
  - rewrite Hcls. reflexivity.
  - destruct Hcls as [version ->]. reflexivity.
Qed.

End Open.

(** The header of the boundary scenario, ["PK\x03\x04hi"], an empty
    master and a master that is just ["CDF"]. *)
Lemma open_read_unrecognised_raises_witness :
  s3Dataset.open (B := Scenario.local_backend [x50; x4b; x03; x04; x68; x69])
    (s3Dataset.open_args "archive.zip" "r" "DEFAULT" "0.4") =
    (Raise (IOError "File: archive.zip is not a netCDF file"),
     [s3Dataset.EvFileManager; s3Dataset.EvRequestFile "archive.zip" "rb";
      s3Dataset.EvReadFrom 0 6]) /\
  s3Dataset.open (B := Scenario.local_backend [])
    (s3Dataset.open_args "empty.nc" "r" "DEFAULT" "0.4") =
    (Raise (IndexError "index out of range"),
     [s3Dataset.EvFileManager; s3Dataset.EvRequestFile "empty.nc" "rb";
      s3Dataset.EvReadFrom 0 6]) /\
  s3Dataset.open (B := Scenario.local_backend [x43; x44; x46])
    (s3Dataset.open_args "cut.nc" "r" "DEFAULT" "0.4") =
    (Raise (IndexError "index out of range"),
     [s3Dataset.EvFileManager; s3Dataset.EvRequestFile "cut.nc" "rb";
      s3Dataset.EvReadFrom 0 6]).
Proof.
  split; [|split].
  - exact (open_read_unrecognised_raises
             (Scenario.local_backend [x50; x4b; x03; x04; x68; x69])
             (s3Dataset.open_args "archive.zip" "r" "DEFAULT" "0.4")
             _ [x50; x4b; x03; x04; x68; x69]
             eq_refl eq_refl eq_refl eq_refl eq_refl).
  - exact (open_read_unrecognised_raises (Scenario.local_backend [])
             (s3Dataset.open_args "empty.nc" "r" "DEFAULT" "0.4")
             _ [] eq_refl eq_refl eq_refl eq_refl eq_refl).
  - exact (open_read_unrecognised_raises
             (Scenario.local_backend [x43; x44; x46])
             (s3Dataset.open_args "cut.nc" "r" "DEFAULT" "0.4")
             _ [x43; x44; x46] eq_refl eq_refl eq_refl eq_refl eq_refl).
Defined.

(** C3 (as the code behaves): with a 64-bit classical format
    ([NETCDF3_64BIT_OFFSET], [NETCDF3_64BIT_DATA]) the compatibility check
    does not fire for version 0.5: the open proceeds exactly as it does
    for version 0.4, whatever the backend and the mode, and on a local
    file system a write-mode open returns a dataset after the file manager
    and the netCDF dataset have been created. *)
Theorem version_05_accepted_with_64bit_formats :
  (forall (B : s3Dataset.Backend) (filename mode : string),
     s3Dataset.open (s3Dataset.open_args filename mode "NETCDF3_64BIT_OFFSET" "0.5")
     = s3Dataset.open (s3Dataset.open_args filename mode "NETCDF3_64BIT_OFFSET" "0.4")
     /\
     s3Dataset.open (s3Dataset.open_args filename mode "NETCDF3_64BIT_DATA" "0.5")
     = s3Dataset.open (s3Dataset.open_args filename mode "NETCDF3_64BIT_DATA" "0.4"))
  /\
  exists ds h,
    s3Dataset.open (B := Scenario.local_backend [])
      (s3Dataset.open_args "f.nc" "w" "NETCDF3_64BIT_OFFSET" "0.5")
    = (Ok ds, [s3Dataset.EvFileManager; s3Dataset.EvRequestFile "f.nc" "wb";
               s3Dataset.EvNcDataset h]) /\
    s3Dataset.nc_format h = "NETCDF3_64BIT_OFFSET" /\
    s3Dataset._cfa_dataset ds = None.
Proof.
  split.
  - intros B filename mode. split; reflexivity.
  - do 2 eexists. repeat split.
Qed.

(** ** Attributes *)

(** C7: on an aggregated variable (one with a CFA variable or a CFA
    dimension), group or dataset, [getncattr] returns the value of the
    in-memory metadata when the name is there; when it is not, the result
    is that of the backing netCDF object's [getncattr], value or error. *)
Theorem getncattr_overlay_then_backing_file
    (v : s3Variable.t) (g : s3Group.t) (d : s3DatasetAttrs.t)
    (vmd : gmap string CFA.attr) (cg : CFA.CFAGroup) (c : CFA.CFADataset)
    (attr_name : string) :
  s3Variable.metadata v = Some vmd ->
  s3Group._cfa_grp g = Some cg ->
  s3DatasetAttrs._cfa_dataset d = Some c ->
  (forall a, vmd !! attr_name = Some a ->
             s3Variable.getncattr v attr_name = Ok a) /\
  (vmd !! attr_name = None ->
     s3Variable.getncattr v attr_name =
     Nc.getncattr (Nc.ncv_attrs (s3Variable._nc_var v)) attr_name) /\
  (forall a, CFA.grp_metadata cg !! attr_name = Some a ->
             s3Group.getncattr g attr_name = Ok a) /\
  (CFA.grp_metadata cg !! attr_name = None ->
     s3Group.getncattr g attr_name =
     Nc.getncattr (Nc.ncg_attrs (s3Group._nc_grp g)) attr_name) /\
  (forall a, CFA.cfa_metadata c !! attr_name = Some a ->
             s3DatasetAttrs.getncattr d attr_name = Ok a) /\
  (CFA.cfa_metadata c !! attr_name = None ->
     s3DatasetAttrs.getncattr d attr_name =
     Nc.getncattr (Nc.ncg_attrs (s3DatasetAttrs._nc_dataset d)) attr_name).
Proof.
  intros Hv Hg Hd.
  unfold s3Variable.getncattr, s3Group.getncattr, s3DatasetAttrs.getncattr.
  rewrite Hg, Hd. unfold s3Variable.metadata in Hv.
  destruct (s3Variable._cfa_var v) as [cv|].
  - injection Hv as <-.
    repeat split; intros; repeat match goal with H : _ !! _ = _ |- _ => rewrite H end;
      reflexivity.
  - destruct (s3Variable._cfa_dim v) as [cd|]; [|discriminate].
    injection Hv as <-.
    repeat split; intros; repeat match goal with H : _ !! _ = _ |- _ => rewrite H end;
      reflexivity.
Qed.

(** C8 (as the code behaves): on a variable with an in-memory metadata
    map, [delncattr] of a name absent from the map raises and leaves the
    variable as it was, but what it raises is the [APIException]
    "Attribute ... not found in variable ..." only if [self.name] can be
    evaluated while the exception is built.  The variable has no
    attribute [name]: the lookup goes through [__getattr__], which hands
    a name of [netCDF4._private_atts] to the netCDF variable and looks
    any other name up in the metadata map; an exception of that lookup
    (the [KeyError] of the map, or what the netCDF variable raises) is
    what [delncattr] raises instead.  Of a name present, [delncattr]
    returns and the map has lost exactly that key. *)
Theorem delncattr_absent_or_present {P : Nc.Protocol}
    (v : s3Variable.t) (md : gmap string CFA.attr) (attr_name : string) :
  s3Variable.metadata v = Some md ->
  (md !! attr_name = None ->
     s3Variable.delncattr v attr_name =
       (Raise (match s3Variable.self_name v with
               | inl e => e
               | inr a =>
                   APIException ("Attribute " +:+ attr_name +:+
                                 " not found in variable " +:+
                                 Nc.format_value a)
               end), v) /\
     s3Variable.self_name v =
       (if str_in "name" Nc._private_atts
        then Nc.var___getattr__ (s3Variable._nc_var v) "name"
        else match md !! "name" with
             | Some a => Ok a
             | None => Raise (KeyError "name")
             end)) /\
  (is_Some (md !! attr_name) ->
     exists v' md',
       s3Variable.delncattr v attr_name = (Ok tt, v') /\
       s3Variable.metadata v' = Some md' /\
       md' = delete attr_name md /\
       md' !! attr_name = None /\
       (forall k, k <> attr_name -> md' !! k = md !! k) /\
       s3Variable._nc_var v' = s3Variable._nc_var v).
Proof.
  destruct v as [[cv|] [cd|] nv]; unfold s3Variable.metadata,
    s3Variable.delncattr, s3Variable.self_name, s3Variable.getattr_public,
    s3Variable.raise_not_found, s3Variable.dict_item; cbn;
    intros [= <-]; split.
  all: try (intros ->; split; reflexivity).
  all: intros [a ->]; do 2 eexists; repeat split;
    [apply lookup_delete_eq | intros k Hk; now apply lookup_delete_ne].
Qed.

Lemma getncattr_overlay_then_backing_file_witness :
  s3Variable.getncattr Scenario.attr_var "units" = Ok (CFA.AttrStr "K") /\
  s3Variable.getncattr Scenario.attr_var "long_name"
    = Ok (CFA.AttrStr "temperature") /\
  s3Group.getncattr Scenario.attr_group "missing"
    = Raise (AttributeError "NetCDF: Attribute not found: missing").
Proof.
  pose proof (getncattr_overlay_then_backing_file
                Scenario.attr_var Scenario.attr_group Scenario.attr_dataset
                _ _ _ "units" eq_refl eq_refl eq_refl) as (Hu & _).
  pose proof (getncattr_overlay_then_backing_file
                Scenario.attr_var Scenario.attr_group Scenario.attr_dataset
                _ _ _ "long_name" eq_refl eq_refl eq_refl) as (_ & Hl & _).
  pose proof (getncattr_overlay_then_backing_file
                Scenario.attr_var Scenario.attr_group Scenario.attr_dataset
                _ _ _ "missing" eq_refl eq_refl eq_refl) as (_ & _ & _ & Hm & _).
  split; [apply Hu; reflexivity | split; [rewrite Hl; reflexivity |]].
  rewrite Hm; reflexivity.
Defined.

(** With netCDF4 as released, on the variable [t] whose metadata hold
    [units] alone: deleting [history] raises [KeyError('name')]. *)
Lemma delncattr_absent_or_present_witness :
  s3Variable.delncattr (P := Scenario.released) Scenario.attr_var "history" =
    (Raise (KeyError "name"), Scenario.attr_var) /\
  exists v',
    s3Variable.delncattr (P := Scenario.released) Scenario.attr_var "units"
      = (Ok tt, v') /\
    s3Variable.metadata v' = Some ∅.
Proof.
  pose proof (delncattr_absent_or_present (P := Scenario.released)
                Scenario.attr_var _ "history" eq_refl) as (Habsent & _).
  pose proof (delncattr_absent_or_present (P := Scenario.released)
                Scenario.attr_var _ "units" eq_refl) as (_ & Hpresent).
  split.
  - destruct (Habsent ltac:(vm_compute; reflexivity)) as [Hrun Hname].
    rewrite Hrun, Hname. vm_compute. reflexivity.
  - assert (is_Some (CFA.var_metadata Scenario.cv_t !! "units")) as Hs
      by (eexists; reflexivity).
    destruct (Hpresent Hs) as (v' & md' & H1 & H2 & H3 & _).
    exists v'. split; [exact H1|]. rewrite H2, H3. reflexivity.
Defined.

(** ** The byte stream *)

(** C10: on a stream in read mode (no ['w'] in the mode) connected to an
    object of size [n], [seek] aims at [offset], at the current position
    plus [offset] or at [n - offset]; a target below 0 or at or beyond [n]
    (the end of the file included) raises an [IOException] and leaves the
    stream as it was; any other target becomes the position and is
    returned. *)
Theorem seek_read_mode (s3 : s3FileObject.S3) (f : s3FileObject.t)
    (c : string) (n offset whence : Z) :
  contains_char "w" (s3FileObject._mode f) = false ->
  s3FileObject._conn_obj f = s3FileObject.Conn c ->
  s3FileObject.head_object s3 (s3FileObject._bucket f) (s3FileObject._path f)
    = Some n ->
  whence = s3FileObject.SEEK_SET \/ whence = s3FileObject.SEEK_CUR \/
  whence = s3FileObject.SEEK_END ->
  (Stated.seek_target (s3FileObject._seek_pos f) n offset whence < 0 \/
   n <= Stated.seek_target (s3FileObject._seek_pos f) n offset whence ->
   s3FileObject.seek s3 f offset whence =
     (Raise (IOException
        ("Seek " +:+
         pretty (Stated.seek_target (s3FileObject._seek_pos f) n offset whence)
         +:+ " is outside file size bounds 0->" +:+ pretty n +:+
         " for file " +:+ s3FileObject._path f)), f)) /\
  (0 <= Stated.seek_target (s3FileObject._seek_pos f) n offset whence < n ->
   s3FileObject.seek s3 f offset whence =
     (Ok (Stated.seek_target (s3FileObject._seek_pos f) n offset whence),
      s3FileObject.with_seek_pos f
        (Stated.seek_target (s3FileObject._seek_pos f) n offset whence))).
Proof.
  intros Hmode Hconn Hhead Hwhence.
  assert (s3FileObject._mode f <> "w") as Hnw.
  { intros E. rewrite E in Hmode. discriminate. }
  unfold s3FileObject.seek, s3FileObject._getsize.
  destruct (String.eqb_spec (s3FileObject._mode f) "w"); [contradiction|].
  rewrite Hmode, Hconn, Hhead. cbv beta iota delta [Ok].
  set (target := Stated.seek_target _ _ _ _).
  assert ((if whence =? s3FileObject.SEEK_SET then offset
           else if whence =? s3FileObject.SEEK_CUR
                then s3FileObject._seek_pos f + offset
                else if whence =? s3FileObject.SEEK_END then n - offset
                     else s3FileObject._seek_pos f) = target) as ->.
  { subst target. unfold Stated.seek_target.
    destruct Hwhence as [-> | [-> | ->]]; reflexivity. }
  unfold s3FileObject.seek_error. split.
  - intros [Hlt | Hge].
    + destruct (Z.geb_spec target n); [reflexivity|].
      destruct (Z.ltb_spec target 0); [reflexivity | lia].
    + destruct (Z.geb_spec target n); [reflexivity | lia].
  - intros [H0 Hn].
    destruct (Z.geb_spec target n); [lia|].
    destruct (Z.ltb_spec target 0); [lia | reflexivity].
Qed.

Lemma seek_read_mode_witness :
  s3FileObject.seek Scenario.one_object (Scenario.stream "r" 10) 100
                    s3FileObject.SEEK_SET =
    (Raise (IOException
       "Seek 100 is outside file size bounds 0->100 for file data.nc"),
     Scenario.stream "r" 10) /\
  s3FileObject.seek Scenario.one_object (Scenario.stream "r" 10) 30
                    s3FileObject.SEEK_END =
    (Ok 70, Scenario.stream "r" 70).
Proof.
  split.
  - apply (seek_read_mode Scenario.one_object (Scenario.stream "r" 10)
             "http://store" 100 100 s3FileObject.SEEK_SET);
      try reflexivity; [now left | right; reflexivity].
  - apply (seek_read_mode Scenario.one_object (Scenario.stream "r" 10)
             "http://store" 100 30 s3FileObject.SEEK_END);
      try reflexivity; [now right; right | vm_compute; split; congruence].
Defined.

(** [connect] never returns on a mode with an ['a'] or a ['+']; once the
    connection and the object are there it raises the [APIException]. *)
Lemma connect_rejects_append (s3 : s3FileObject.S3) (f : s3FileObject.t) :
  contains_char "a" (s3FileObject._mode f) ||
  contains_char "+" (s3FileObject._mode f) = true ->
  is_ok (fst (s3FileObject.connect s3 f)) = false /\
  (forall c,
     s3FileObject.pool_get s3 (s3FileObject._server f) = Some c ->
     str_in (s3FileObject._path f)
            (s3FileObject.list_objects_v2 s3 (s3FileObject._bucket f)
                                          (s3FileObject._path f)) = true ->
     fst (s3FileObject.connect s3 f) =
     Raise (APIException ("Appending to files is not supported " +:+
                          s3FileObject._path f))).
Proof.
  intros Happ. unfold s3FileObject.connect. split.
  - destruct (s3FileObject.pool_get s3 _);
      [|destruct (s3FileObject.endpoint_up s3 _); [|reflexivity]];
      (match goal with |- context [if ?b then _ else _] => destruct b end;
       [reflexivity | rewrite Happ; reflexivity]).
  - intros c -> ->. rewrite !andb_false_r, Happ. reflexivity.
Qed.

(** ** Creating variables *)

Lemma createVariable_dimensions (L : Nd.Libraries) (g g' : Nc.NcGroup)
    (name datatype : string) (dims : list string) (fill : option Z)
    (nv : Nc.NcVariable) :
  s3Variable.nc_createVariable g name datatype dims fill = Ok (nv, g') ->
  Nc.ncv_dimensions nv = dims.
Proof.
  unfold s3Variable.nc_createVariable, Nc.createVariable.
  destruct (Nc.ncg_variables g !! name); [discriminate|].
  destruct (Nc.dim_sizes g dims); [discriminate|]. cbn.
  intros [= <- _]. reflexivity.
Qed.

(** C4 (amended): on an aggregated parent, a created variable is
    partitioned (it gets a CFA variable, which is what the slice methods
    dispatch on, and its netCDF twin in the master is a scalar) if and
    only if its name is not the name of a dimension of the parent's CFA
    group; [subarray_shape] and [max_subarray_size] play no part.  A
    variable named after a dimension gets the CFA dimension instead and is
    stored inline over that dimension. *)
Theorem partitioned_iff_not_dimension_variable
    (C : s3Variable.CFAOps) (L : Nd.Libraries) (parent : s3Variable.Parent)
    (cg : CFA.CFAGroup) (name datatype : string) (dims : list string)
    (fill : option Z) (subarray_shape : list Z) (max_subarray_size : Z)
    (v : s3Variable.t) (g : Nc.NcGroup) :
  s3Variable.parent_cfa_group parent = Some cg ->
  s3Variable.create parent name datatype (s3Variable.PyTuple dims) fill
                    subarray_shape max_subarray_size = Ok (v, g) ->
  s3Variable.is_partitioned v = negb (str_in name (CFA.getDimensions cg)) /\
  (s3Variable.is_partitioned v = true ->
     Nc.ncv_dimensions (s3Variable._nc_var v) = []) /\
  (s3Variable.is_partitioned v = false ->
     is_Some (s3Variable._cfa_dim v) /\
     Nc.ncv_dimensions (s3Variable._nc_var v) = [name]).
Proof.
  intros Hcg Hcreate. unfold s3Variable.create in Hcreate.
  assert (exists cfa_var cfa_dim nc_dims nc_parent s3d,
    s3Variable.create_cfa parent name datatype dims subarray_shape
                          max_subarray_size
      = Ok (cfa_var, cfa_dim, nc_dims, nc_parent, s3d) /\
    (if str_in name (CFA.getDimensions cg)
     then cfa_var = None /\ is_Some cfa_dim /\ nc_dims = [name]
     else is_Some cfa_var /\ nc_dims = [])) as Hcfa.
  { destruct (s3Variable.create_cfa parent name datatype dims subarray_shape
                max_subarray_size) as [e|[[[[cv cd] nd] np] sd]] eqn:E;
      [discriminate|].
    exists cv, cd, nd, np, sd. split; [reflexivity|].
    unfold s3Variable.create_cfa, s3Variable.parent_cfa_group in *.
    assert (forall np' s3d',
      (if str_in name (CFA.getDimensions cg)
       then try! d := CFA.getDimension cg name in
            Ok (None, Some (CFA.setType d datatype), [name], np', Some s3d')
       else try! cv0 := s3Variable.cfa_createVariable cg name datatype dims
                          subarray_shape max_subarray_size in
            Ok (Some cv0, None, [], np', Some s3d'))
      = Ok (cv, cd, nd, np, sd) ->
      if str_in name (CFA.getDimensions cg)
      then cv = None /\ is_Some cd /\ nd = [name]
      else is_Some cv /\ nd = []) as Hin.
    { intros np' s3d'. destruct (str_in name (CFA.getDimensions cg)).
      - destruct (CFA.getDimension cg name); [discriminate|].
        cbn. intros [= <- <- <- _ _]. repeat split. now eexists.
      - destruct (s3Variable.cfa_createVariable _ _ _ _ _ _); [discriminate|].
        cbn. intros [= <- _ <- _ _]. split; [now eexists | reflexivity]. }
    destruct parent as [[g0|] ncg sd0 | sd0 |]; try discriminate.
    - injection Hcg as ->. exact (Hin _ _ E).
    - destruct (s3Variable.d_cfa_dataset sd0) as [c|]; [|discriminate].
      destruct (CFA.getGroup c "root") as [|g0]; [discriminate|].
      injection Hcg as ->. exact (Hin _ _ E). }
  destruct Hcfa as (cv & cd & nd & np & sd & E & Hshape).
  rewrite E in Hcreate. cbn in Hcreate.
  match type of Hcreate with
  | bind ?m _ = _ => destruct m; [discriminate|]
  end.
  cbn in Hcreate.
  destruct (s3Variable.nc_createVariable np name datatype nd fill)
    as [|[nv np']] eqn:Enc; [discriminate|].
  apply createVariable_dimensions in Enc.
  cbn in Hcreate. injection Hcreate as <- _.
  unfold s3Variable.is_partitioned. cbn.
  destruct (str_in name (CFA.getDimensions cg)).
  - destruct Hshape as (-> & Hd & ->). cbn.
    split; [reflexivity|]. split; [discriminate|]. intros _. now split.
  - destruct Hshape as ([cv0 ->] & ->). cbn.
    split; [reflexivity|]. split; [intros _; exact Enc | discriminate].
Qed.

Lemma partitioned_iff_not_dimension_variable_witness :
  exists v g,
    Scenario.create_t Scenario.strict_libraries [2; 2] 0 = Ok (v, g) /\
    s3Variable.is_partitioned v = true /\
    Nc.ncv_dimensions (s3Variable._nc_var v) = [].
Proof.
  destruct (Scenario.create_t Scenario.strict_libraries [2; 2] 0)
    as [e|[v g]] eqn:E; [discriminate|].
  exists v, g. split; [reflexivity|].
  destruct (partitioned_iff_not_dimension_variable
              (Scenario.simple_cfa "master") Scenario.strict_libraries
              Scenario.parent Scenario.root "t" "f4" ["x"; "y"] (Some (-1))
              [2; 2] 0 v g eq_refl E) as (Hp & Hscalar & _).
  split; [exact Hp | exact (Hscalar Hp)].
Defined.

(** C4 as stated fails in both directions: a field variable created with
    neither [subarray_shape] nor [max_subarray_size] is partitioned all
    the same, and a dimension variable created with a [subarray_shape] is
    not. *)
Lemma tiling_arguments_do_not_classify :
  (Stated.tiling_requested [] 0 = false /\
   exists v g,
     Scenario.create_t Scenario.strict_libraries [] 0 = Ok (v, g) /\
     s3Variable.is_partitioned v = true) /\
  (Stated.tiling_requested [2] 0 = true /\
   exists v g,
     Scenario.create_x = Ok (v, g) /\
     s3Variable.is_partitioned v = false).
Proof.
  split; (split; [reflexivity|]).
  - destruct (Scenario.create_t Scenario.strict_libraries [] 0)
      as [e|[v g]] eqn:E; [discriminate|].
    exists v, g. split; [reflexivity|].
    vm_compute in E. injection E as <- _. reflexivity.
  - destruct Scenario.create_x as [e|[v g]] eqn:E; [discriminate|].
    exists v, g. split; [reflexivity|].
    vm_compute in E. injection E as <- _. reflexivity.
Qed.

(** ** The partition index *)

Section Index.

Import PartitionIndex.

Lemma ceil_shift (x k st : Z) :
  0 < st -> (x - k * st + st - 1) / st = (x + st - 1) / st - k.
Proof.
  intros H. replace (x - k * st + st - 1) with ((x + st - 1) + (- k) * st) by ring.
  rewrite Z.div_add by lia. lia.
Qed.

(** Where the target slice of a hit starts and stops, as rounded-up
    quotients of the distances from the start of the request. *)
Lemma axis_hit_target (n tile : Z) (s : Nd.slice) (k : Z) (h : AxisHit) :
  0 < Nd.step s ->
  axis_hit n tile s k = Some h ->
  Nd.start (tgt h) =
    (Z.max (Nd.start s) (k * tile) - Nd.start s + Nd.step s - 1) / Nd.step s /\
  Nd.stop (tgt h) =
    (Z.min (Nd.stop s) (Z.min ((k + 1) * tile) n) - Nd.start s + Nd.step s - 1)
    / Nd.step s.
Proof.
  intros Hst. unfold axis_hit.
  set (lo := Z.max _ _). set (hi := Z.min _ _).
  set (kfirst := (lo - Nd.start s + Nd.step s - 1) / Nd.step s).
  destruct (_ <? _); [|discriminate]. intros [= <-]. simpl.
  split; [reflexivity|].
  replace (hi - (Nd.start s + kfirst * Nd.step s) + Nd.step s - 1)
    with ((hi - Nd.start s) - kfirst * Nd.step s + Nd.step s - 1) by ring.
  rewrite ceil_shift by exact Hst. lia.
Qed.

(** A hit at an earlier tile is before a hit at a later tile. *)
Lemma axis_hit_order (n tile : Z) (s : Nd.slice) (k1 k2 : Z) (h1 h2 : AxisHit) :
  0 < tile -> 0 < Nd.step s -> k1 < k2 ->
  axis_hit n tile s k1 = Some h1 ->
  axis_hit n tile s k2 = Some h2 ->
  before h1 h2.
Proof.
  intros Ht Hst Hk H1 H2. unfold before.
  destruct (axis_hit_target _ _ _ _ _ Hst H1) as [_ ->].
  destruct (axis_hit_target _ _ _ _ _ Hst H2) as [-> _].
  apply Z.div_le_mono; [exact Hst|].
  assert ((k1 + 1) * tile <= k2 * tile)
    by (apply Z.mul_le_mono_nonneg_r; lia).
  lia.
Qed.

Lemma axis_hits_from_sorted (n tile : Z) (s : Nd.slice) (len j : nat) :
  0 < tile -> 0 < Nd.step s ->
  StronglySorted before
    (omap (fun k => axis_hit n tile s (Z.of_nat k)) (seq j len)).
Proof.
  intros Ht Hst. revert j. induction len as [|len IH]; intros j; simpl.
  - constructor.
  - destruct (axis_hit n tile s (Z.of_nat j)) as [h|] eqn:Eh; [|apply IH].
    constructor; [apply IH|].
    apply Forall_forall. intros h' Hin.
    apply list_elem_of_omap in Hin as (k' & Hk' & Eh').
    apply elem_of_seq in Hk'.
    apply (axis_hit_order n tile s (Z.of_nat j) (Z.of_nat k') h h' Ht Hst);
      [lia | exact Eh | exact Eh'].
Qed.


Lemma axes_hits_sorted (sh tile : list Z) (r : list Nd.slice) :
  Forall (fun t => 0 < t) tile ->
  Forall (fun s => 0 < Nd.step s) r ->
  Forall (StronglySorted before) (axes_hits sh tile r).
Proof.
  intros Ht. revert sh r. induction Ht as [|t tile Hpos Ht IH];
    intros [|n sh] [|s r] Hr; simpl; try constructor.
  - inversion Hr; subst. now apply axis_hits_from_sorted.
  - inversion Hr; subst. now apply IH.
Qed.

Lemma normalise_steps (n : Z) (e : pyslice) (s : Nd.slice) :
  normalise n e = Ok s -> 0 < Nd.step s.
Proof.
  unfold normalise. destruct (Z.leb_spec (default 1 (sl_step e)) 0);
    [discriminate|]. intros [= <-]. simpl. lia.
Qed.

Lemma normalise_all_steps (sh : list Z) (elem : list pyslice)
    (r : list Nd.slice) :
  normalise_all sh elem = Ok r -> Forall (fun s => 0 < Nd.step s) r.
Proof.
  revert elem r. induction sh as [|n sh IH]; intros [|e elem] r; simpl.
  - intros [= <-]. constructor.
  - discriminate.
  - destruct (normalise_all sh []) as [|r'] eqn:Er; [discriminate|]. simpl.
    intros [= <-]. constructor; [simpl; lia | eapply IH; eauto].
  - destruct (normalise n e) as [|s] eqn:Es; [discriminate|]. simpl.
    destruct (normalise_all sh elem) as [|r'] eqn:Er; [discriminate|]. simpl.
    intros [= <-]. constructor; [eapply normalise_steps; eauto | eapply IH; eauto].
Qed.

(** Separation of a region from a list of entries, entry by entry. *)
Lemma separated_from_forall (r : Nd.region) (es : list IndexEntry) :
  separated_from r es = true <->
  Forall (fun e => Nd.separated r (target e) = true) es.
Proof.
  induction es as [|e es IH]; simpl.
  - split; [constructor | reflexivity].
  - rewrite andb_true_iff, IH. split.
    + intros [H1 H2]. now constructor.
    + intros H. inversion H; subst. now split.
Qed.

Lemma targets_separated_app (l1 l2 : list IndexEntry) :
  targets_separated l1 = true ->
  targets_separated l2 = true ->
  Forall (fun e1 => separated_from (target e1) l2 = true) l1 ->
  targets_separated (l1 ++ l2) = true.
Proof.
  induction l1 as [|e l1 IH]; simpl; [easy|].
  rewrite !andb_true_iff. intros [He H1] H2 Hcross.
  inversion Hcross as [|? ? Hc Hcross']; subst. split; [|now apply IH].
  apply separated_from_forall. apply Forall_app. split.
  - now apply separated_from_forall.
  - now apply separated_from_forall.
Qed.

Variable cv : CFA.CFAVariable.

Lemma target_entry_of (hits : list AxisHit) :
  target (entry_of cv hits) = map tgt hits.
Proof. reflexivity. Qed.

(** Entries that share their first hit are separated when their tails are. *)
Lemma block_separated_from (h : AxisHit) (hits : list AxisHit)
    (P : list (list AxisHit)) :
  separated_from (target (entry_of cv hits)) (map (entry_of cv) P) = true ->
  separated_from (target (entry_of cv (h :: hits)))
                 (map (entry_of cv) (map (cons h) P)) = true.
Proof.
  induction P as [|p P IH]; simpl; [easy|].
  rewrite !andb_true_iff. intros [H1 H2]. split; [|now apply IH].
  rewrite H1. now rewrite !orb_true_r.
Qed.

Lemma block_separated (h : AxisHit) (P : list (list AxisHit)) :
  targets_separated (map (entry_of cv) P) = true ->
  targets_separated (map (entry_of cv) (map (cons h) P)) = true.
Proof.
  induction P as [|p P IH]; simpl; [easy|].
  rewrite !andb_true_iff. intros [H1 H2]. split; [|now apply IH].
  now apply block_separated_from.
Qed.

Lemma flat_separated (hits : list AxisHit) (P : list (list AxisHit)) :
  StronglySorted before hits ->
  targets_separated (map (entry_of cv) P) = true ->
  targets_separated
    (map (entry_of cv) (flat_map (fun h => map (cons h) P) hits)) = true.
Proof.
  intros Hsorted HP. induction Hsorted as [|h hs Hs IH Hbefore]; simpl; [easy|].
  rewrite map_app. apply targets_separated_app.
  - now apply block_separated.
  - exact IH.
  - apply Forall_forall. intros e1 He1.
    apply list_elem_of_In, in_map_iff in He1 as (p1 & <- & Hp1).
    apply in_map_iff in Hp1 as (q1 & <- & _).
    apply separated_from_forall, Forall_forall. intros e2 He2.
    apply list_elem_of_In, in_map_iff in He2 as (p2 & <- & Hp2).
    apply in_flat_map in Hp2 as (h' & Hh' & Hp2).
    apply in_map_iff in Hp2 as (q2 & <- & _).
    rewrite Forall_forall in Hbefore.
    specialize (Hbefore h' (proj2 (list_elem_of_In _ _) Hh')).
    simpl. unfold before in Hbefore.
    apply Z.leb_le in Hbefore. now rewrite Hbefore.
Qed.

Lemma product_separated (axes : list (list AxisHit)) :
  Forall (StronglySorted before) axes ->
  targets_separated (map (entry_of cv) (product axes)) = true.
Proof.
  induction 1 as [|hits axes Hs _ IH]; simpl; [reflexivity|].
  now apply flat_separated.
Qed.


Lemma product_length (axes : list (list AxisHit)) (hits : list AxisHit) :
  In hits (product axes) -> length hits = length axes.
Proof.
  revert hits. induction axes as [|a axes IH]; intros hits; simpl.
  - intros [<- | []]. reflexivity.
  - intros Hin. apply in_flat_map in Hin as (h & _ & Hin).
    apply in_map_iff in Hin as (p & <- & Hp). simpl. now rewrite (IH p Hp).
Qed.

Lemma bounding_box_length (rs : list Nd.region) (m : nat) :
  rs <> [] ->
  Forall (fun r => length r = m) rs ->
  length (FileManager.bounding_box rs) = m.
Proof.
  induction rs as [|r rs IH]; [easy|]. intros _ Hall.
  inversion Hall as [|? ? Hr Hrs]; subst.
  destruct rs as [|r' rs].
  - simpl. now rewrite length_map.
  - change (FileManager.bounding_box (r :: r' :: rs))
      with (zip_with Z.max (map Nd.stop r)
                     (FileManager.bounding_box (r' :: rs))).
    rewrite length_zip_with, length_map.
    rewrite IH by easy. lia.
Qed.

(** The entries of the partition index have pairwise separated targets,
    each with one slice per axis of their bounding box. *)
Lemma index_entries_separated (elem : list pyslice) (es : list IndexEntry) :
  Forall (fun t => 0 < t) (CFA.var_subarray_shape cv) ->
  PartitionIndex.__getitem__ cv elem = Ok es ->
  targets_separated es = true /\
  Forall (fun e => length (target e) =
                   length (FileManager.bounding_box (map target es))) es.
Proof.
  intros Htile. unfold PartitionIndex.__getitem__.
  destruct (normalise_all (CFA.var_shape cv) elem) as [|r] eqn:Er;
    [discriminate|]. simpl. intros [= <-].
  set (axes := axes_hits _ _ _). split.
  - apply product_separated, axes_hits_sorted; [exact Htile|].
    eapply normalise_all_steps; eauto.
  - assert (Forall (fun e => length (target e) = length axes)
                   (map (entry_of cv) (product axes))) as Hlen.
    { apply Forall_forall. intros e He.
      apply list_elem_of_In, in_map_iff in He as (p & <- & Hp).
      rewrite target_entry_of, length_map. now apply product_length. }
    destruct (product axes) as [|p ps] eqn:Ep; [constructor|].
    rewrite (bounding_box_length _ (length axes)).
    + exact Hlen.
    + discriminate.
    + apply Forall_forall. intros t Ht.
      apply list_elem_of_In, in_map_iff in Ht as (e & <- & He).
      rewrite Forall_forall in Hlen. apply Hlen. now apply list_elem_of_In.
Qed.

End Index.

(** [u[2:8, 2:8]] on the 10x10 variable in 3x3 tiles: nine partitions,
    the corner ones touched on one row and column only, and a 6x6 target. *)
Example index_of_inner_window :
  (try! es := PartitionIndex.__getitem__ Scenario.cv_u
                [PartitionIndex.range 2 8; PartitionIndex.range 2 8] in
   Ok (map Scenario.summary es,
       FileManager.bounding_box (map PartitionIndex.target es))) =
  Ok ([([0; 0], [(2, 3); (2, 3)], [(0, 1); (0, 1)]);
       ([0; 1], [(2, 3); (0, 3)], [(0, 1); (1, 4)]);
       ([0; 2], [(2, 3); (0, 2)], [(0, 1); (4, 6)]);
       ([1; 0], [(0, 3); (2, 3)], [(1, 4); (0, 1)]);
       ([1; 1], [(0, 3); (0, 3)], [(1, 4); (1, 4)]);
       ([1; 2], [(0, 3); (0, 2)], [(1, 4); (4, 6)]);
       ([2; 0], [(0, 2); (2, 3)], [(4, 6); (0, 1)]);
       ([2; 1], [(0, 2); (0, 3)], [(4, 6); (1, 4)]);
       ([2; 2], [(0, 2); (0, 2)], [(4, 6); (4, 6)])],
      [6; 6]).
Proof. vm_compute. reflexivity. Qed.

(** ** Reading slices *)

Lemma pad_same_length (sh : list Z) (r : Nd.region) :
  length r = length sh -> Nd.pad sh r = Ok r.
Proof.
  revert r; induction sh as [|n sh IH]; intros [|s r]; simpl; try easy.
  intros [= H]. now rewrite (IH r H).
Qed.

Lemma in_slice_bounds (n : Z) (s : Nd.slice) (i : Z) :
  Nd.in_slice n s i = true ->
  Z.min (Nd.start s) n <= i < Z.min (Nd.stop s) n.
Proof.
  unfold Nd.in_slice, Nd.lo, Nd.hi. rewrite !andb_true_iff. lia.
Qed.

Lemma separated_disjoint (sh : list Z) (r1 r2 : Nd.region) (i : list Z) :
  Nd.separated r1 r2 = true ->
  Nd.in_region sh r1 i = true -> Nd.in_region sh r2 i = false.
Proof.
  revert r1 r2 i; induction sh as [|n sh IH];
    intros [|s1 r1] [|s2 r2] [|x i]; simpl; try easy.
  rewrite !orb_true_iff, andb_true_iff. intros Hsep [Hx Hi].
  apply in_slice_bounds in Hx.
  destruct (Nd.in_slice n s2 x) eqn:E2; [|reflexivity]. simpl.
  apply in_slice_bounds in E2.
  destruct Hsep as [[Hs | Hs] | Hs]; [lia | lia | now apply IH with r1].
Qed.

Section ReadLoop.

Context (L : Nd.Libraries).

Import PartitionIndex.

(** A read request for a file that is neither open nor on the backing
    store reports [DOES_NOT_EXIST] and leaves the manager as it is. *)
Lemma request_absent (fm : FileManager.t) (uri : string) (sz : Z) :
  FileManager.consistent fm ->
  FileManager.resolve fm uri = None ->
  FileManager.request_file fm uri sz "r" =
    ({| FileManager.open_state := FileManager.DOES_NOT_EXIST;
        FileManager.size := 0; FileManager.data_object := None |}, fm).
Proof.
  intros Hc Hr. unfold FileManager.resolve in Hr.
  unfold FileManager.request_file, FileManager.on_store.
  destruct (FileManager.files fm !! uri) as [r|] eqn:E.
  - destruct (Hc uri r E) as [_ [ds Hds]]. congruence.
  - now rewrite Hr.
Qed.

Lemma lookup_opened (files : gmap string FileManager.OpenFileRecord)
    (uri u : string) (r : FileManager.OpenFileRecord) (ds : Nc.NcDataset) :
  alter (FileManager.with_data ds) uri (<[uri := r]> files) !! u =
  if decide (uri = u) then Some (FileManager.with_data ds r) else files !! u.
Proof.
  rewrite lookup_alter. case_decide as Hu.
  - now rewrite lookup_insert_eq.
  - now rewrite lookup_insert_ne.
Qed.

(** A read request for a file that is open or on the backing store ends
    with the dataset in hand; what every URI resolves to is unchanged. *)
Lemma request_present (fm : FileManager.t) (uri : string) (sz : Z)
    (ds : Nc.NcDataset) :
  FileManager.consistent fm ->
  FileManager.resolve fm uri = Some ds ->
  exists ro fm1 fm2,
    FileManager.request_file fm uri sz "r" = (ro, fm1) /\
    FileManager.open_state ro <> FileManager.DOES_NOT_EXIST /\
    s3Variable.open_for_read fm1 uri ro = Ok (ds, fm2) /\
    FileManager.consistent fm2 /\
    forall u, FileManager.resolve fm2 u = FileManager.resolve fm u.
Proof.
  intros Hc Hr. unfold FileManager.resolve in Hr.
  unfold FileManager.request_file, FileManager.on_store.
  destruct (FileManager.files fm !! uri) as [r|] eqn:E.
  - destruct (Hc uri r E) as [Hst _].
    do 3 eexists. split; [reflexivity|].
    assert (FileManager.open_state (FileManager.promote r)
              = FileManager.OPEN_EXISTS_IN_MEMORY \/
            FileManager.open_state (FileManager.promote r)
              = FileManager.OPEN_EXISTS_ON_DISK) as Hp.
    { unfold FileManager.promote; simpl.
      destruct Hst as [-> | [-> | [-> | ->]]]; auto. }
    split; [destruct Hp as [-> | ->]; discriminate|].
    split.
    { unfold s3Variable.open_for_read.
      destruct Hp as [-> | ->]; simpl; rewrite Hr; reflexivity. }
    split.
    + intros u r'. simpl. rewrite lookup_insert.
      case_decide as Hu.
      * intros [= <-]. split; [|simpl; rewrite Hr; now eexists].
        destruct Hp as [-> | ->]; auto.
      * apply Hc.
    + intros u. unfold FileManager.resolve. simpl. rewrite lookup_insert.
      case_decide as Hu; [subst u; now rewrite E | reflexivity].
  - rewrite Hr. simpl.
    set (st := if _ : bool then _ else _).
    assert (st = FileManager.OPEN_NEW_IN_MEMORY \/
            st = FileManager.OPEN_NEW_ON_DISK) as Hst
      by (subst st; destruct (_ && _); auto).
    clearbody st.
    destruct Hst as [-> | ->]; (do 3 eexists; split; [reflexivity|]);
      (split; [discriminate|]);
      (split; [unfold s3Variable.open_for_read; simpl; rewrite Hr;
               reflexivity|]);
      split.
    all: try (intros u r'; unfold FileManager.set_data_object; simpl;
              rewrite lookup_opened; case_decide as Hu;
              [intros [= <-]; split; [simpl; tauto | now eexists]
              | apply Hc]).
    all: intros u; unfold FileManager.resolve, FileManager.set_data_object;
      simpl; rewrite lookup_opened;
      case_decide as Hu; [subst u; simpl; now rewrite E | reflexivity].
Qed.

(** A turn of the loop for an entry whose file is absent: no error, the
    target region is filled with the fill value. *)
Lemma turn_absent (v : s3Variable.t) (cv : CFA.CFAVariable) (fv : Z)
    (fm : FileManager.t) (ta : Nd.ndarray) (e : IndexEntry) :
  Nc.ncv_FillValue (s3Variable._nc_var v) = Some fv ->
  FileManager.consistent fm ->
  FileManager.resolve fm (CFA.file (partition e)) = None ->
  length (target e) = length (Nd.shape ta) ->
  s3Variable.getitem_entry v cv (fm, ta) e
    = Ok (fm, Nd.fill ta (target e) fv).
Proof.
  intros Hfv Hc Hr Hlen. unfold s3Variable.getitem_entry.
  rewrite (request_absent _ _ _ Hc Hr). simpl.
  unfold Nc._FillValue. rewrite Hfv. simpl.
  unfold Nd.setitem_scalar. now rewrite (pad_same_length _ _ Hlen).
Qed.

(** A turn for an entry whose file is there: the slab is copied. *)
Lemma turn_present (v : s3Variable.t) (cv : CFA.CFAVariable)
    (fm : FileManager.t) (ta : Nd.ndarray) (e : IndexEntry)
    (ds : Nc.NcDataset) (slab : Nd.ndarray) :
  FileManager.consistent fm ->
  FileManager.resolve fm (CFA.file (partition e)) = Some ds ->
  s3Variable.subarray_slab cv ds e = Ok slab ->
  Nd.shape slab = Nd.region_shape (Nd.shape ta) (target e) ->
  length (target e) = length (Nd.shape ta) ->
  exists fm2,
    s3Variable.getitem_entry v cv (fm, ta) e
      = Ok (fm2, Nd.put ta (target e) slab) /\
    FileManager.consistent fm2 /\
    forall u, FileManager.resolve fm2 u = FileManager.resolve fm u.
Proof.
  intros Hc Hr Hslab Hshape Hlen.
  destruct (request_present fm (CFA.file (partition e))
              (s3Variable.prod (CFA.shape (partition e))) ds Hc Hr)
    as (ro & fm1 & fm2 & Hreq & Hst & Hopen & Hc2 & Hres).
  exists fm2. split; [|now split].
  unfold s3Variable.getitem_entry. rewrite Hreq.
  assert (forall (X : Type) (a b : X),
            match FileManager.open_state ro with
            | FileManager.DOES_NOT_EXIST => a
            | _ => b
            end = b) as Hmatch
    by (intros; destruct (FileManager.open_state ro); congruence).
  rewrite Hmatch, Hopen. simpl. rewrite Hslab. simpl.
  unfold Nd.setitem. rewrite (pad_same_length _ _ Hlen). simpl.
  unfold Nd.shape_eqb. rewrite Hshape.
  now rewrite bool_decide_eq_true_2.
Qed.

Lemma separated_from_disjoint (sh : list Z) (r : Nd.region)
    (es : list IndexEntry) (i : list Z) :
  separated_from r es = true ->
  Nd.in_region sh r i = true ->
  Forall (fun e => Nd.in_region sh (target e) i = false) es.
Proof.
  induction es as [|e es IH]; simpl; [constructor|].
  rewrite andb_true_iff. intros [Hsep Hrest] Hin. constructor.
  - now apply separated_disjoint with r.
  - now apply IH.
Qed.

Lemma servable_resolve (cv : CFA.CFAVariable) (sh : list Z)
    (fm fm2 : FileManager.t) (e : IndexEntry) :
  (forall u, FileManager.resolve fm2 u = FileManager.resolve fm u) ->
  Stated.servable cv sh fm e -> Stated.servable cv sh fm2 e.
Proof. unfold Stated.servable. intros ->. tauto. Qed.

Lemma owed_resolve (cv : CFA.CFAVariable) (fv : Z) (sh : list Z)
    (fm fm2 : FileManager.t) (e : IndexEntry) (i : list Z) (z : Z) :
  (forall u, FileManager.resolve fm2 u = FileManager.resolve fm u) ->
  Stated.owed_slab cv fv sh fm2 e i z -> Stated.owed_slab cv fv sh fm e i z.
Proof. unfold Stated.owed_slab. intros ->. tauto. Qed.

(** The loop of [__getitem__] over servable entries with separated
    targets: it ends without error, every entry's target region holds what
    the entry owes, and the rest of the target array is untouched. *)
Lemma read_loop (v : s3Variable.t) (cv : CFA.CFAVariable) (fv : Z)
    (es : list IndexEntry) :
  Nc.ncv_FillValue (s3Variable._nc_var v) = Some fv ->
  forall (fm : FileManager.t) (ta : Nd.ndarray),
  FileManager.consistent fm ->
  Forall (Stated.servable cv (Nd.shape ta) fm) es ->
  targets_separated es = true ->
  exists fm' ta',
    s3Variable.getitem_loop v cv es (fm, ta) = Ok (fm', ta') /\
    Nd.shape ta' = Nd.shape ta /\
    Forall (fun e => forall i,
              Nd.in_region (Nd.shape ta) (target e) i = true ->
              Stated.owed_slab cv fv (Nd.shape ta) fm e i (Nd.item ta' i)) es /\
    (forall i, Forall (fun e => Nd.in_region (Nd.shape ta) (target e) i = false) es ->
               Nd.item ta' i = Nd.item ta i).
Proof.
  intros Hfv. induction es as [|e es IH]; intros fm ta Hc Hserv Hsep.
  - exists fm, ta. split; [reflexivity|]. split; [reflexivity|].
    split; [constructor | reflexivity].
  - inversion Hserv as [|? ? He Hrest]; subst.
    simpl in Hsep. apply andb_true_iff in Hsep as [Hsep_e Hsep].
    destruct He as [Hlen Hfile].
    destruct (FileManager.resolve fm (CFA.file (partition e))) as [ds|] eqn:Hr.
    + destruct Hfile as (slab & Hslab & Hshape).
      destruct (turn_present v cv fm ta e ds slab Hc Hr Hslab Hshape Hlen)
        as (fm2 & Hturn & Hc2 & Hres).
      assert (Forall (Stated.servable cv (Nd.shape ta) fm2) es) as Hrest2.
      { eapply Forall_impl; [exact Hrest|].
        intros e' He'. now apply servable_resolve with fm. }
      destruct (IH fm2 (Nd.put ta (target e) slab) Hc2 Hrest2 Hsep) as
        (fm' & ta' & Hloop & Hsh & Howed & Hframe).
      exists fm', ta'. simpl in *. rewrite Hturn. simpl.
      split; [exact Hloop|]. split; [exact Hsh|]. split.
      * constructor.
        -- intros i Hi. unfold Stated.owed_slab. rewrite Hr.
           exists slab. split; [exact Hslab|].
           rewrite Hframe; [simpl; now rewrite Hi|].
           now apply separated_from_disjoint with (target e).
        -- eapply Forall_impl; [exact Howed|].
           intros e' He' i Hi. apply owed_resolve with fm2; auto.
      * intros i Hout. inversion Hout as [|? ? Hi Hout']; subst.
        rewrite (Hframe i Hout'). simpl. now rewrite Hi.
    + destruct (IH fm (Nd.fill ta (target e) fv) Hc Hrest Hsep) as
        (fm' & ta' & Hloop & Hsh & Howed & Hframe).
      pose proof (turn_absent v cv fv fm ta e Hfv Hc Hr Hlen) as Hturn.
      exists fm', ta'. simpl in *. rewrite Hturn. simpl.
      split; [exact Hloop|]. split; [exact Hsh|]. split.
      * constructor; [|exact Howed].
        intros i Hi. unfold Stated.owed_slab. rewrite Hr.
        rewrite Hframe; [simpl; now rewrite Hi|].
        now apply separated_from_disjoint with (target e).
      * intros i Hout. inversion Hout as [|? ? Hi Hout']; subst.
        rewrite (Hframe i Hout'). simpl. now rewrite Hi.
Qed.

(** The slab the code reads from a subarray file that stores the
    variable: the elements of the stored array at the positions the
    source selects. *)
Lemma slab_of_stored (cv : CFA.CFAVariable) (ds : Nc.NcDataset)
    (e : IndexEntry) (nv : Nc.NcVariable) :
  Stated.stored cv ds = Some nv ->
  length (source e) = length (Nd.shape (Nc.ncv_data nv)) ->
  s3Variable.subarray_slab cv ds e =
    Ok {| Nd.shape := Nd.region_shape (Nd.shape (Nc.ncv_data nv)) (source e);
          Nd.item := fun k =>
            Nd.item (Nc.ncv_data nv)
              (Nd.region_of_local (Nd.shape (Nc.ncv_data nv)) (source e) k) |}.
Proof.
  intros Hst Hlen.
  assert (forall g : Nc.NcGroup,
    Nc.ncg_variables g !! CFA.var_name cv = Some nv ->
    (try! nc_sa_fld_var := Nc.variable g (CFA.var_name cv) in
     Nc.var_get nc_sa_fld_var (source e)) =
    Ok {| Nd.shape := Nd.region_shape (Nd.shape (Nc.ncv_data nv)) (source e);
          Nd.item := fun k =>
            Nd.item (Nc.ncv_data nv)
              (Nd.region_of_local (Nd.shape (Nc.ncv_data nv)) (source e) k) |})
    as Hvar.
  { intros g Hg. unfold Nc.variable, Nc.var_get, Nd.getslab.
    rewrite Hg. simpl. now rewrite (pad_same_length _ _ Hlen). }
  unfold Stated.stored in Hst.
  unfold s3Variable.subarray_slab, s3Variable.sa_group,
    s3Variable.sa_group_name, s3Variable.is_not_root.
  destruct (CFA.var_group cv) as [g|]; [|simpl; now apply Hvar].
  destruct (CFA.grp_name_is_literal g && String.eqb (CFA.grp_name g) "root");
    simpl; [now apply Hvar|].
  unfold Nc.group.
  destruct (Nc.ncd_groups ds !! CFA.grp_name g) as [grp|]; [|discriminate].
  simpl. now apply Hvar.
Qed.

(** X28: a read slice on a partitioned variable that has a
    [_FillValue] (with positive tile lengths) returns an array and raises
    nothing, provided every subarray file that is there stores the
    variable and its source selects as many elements as the entry's
    target; the array has the shape of the bounding box of the targets,
    and for every index entry the part of the array under the entry's
    target holds the variable's [_FillValue] when the entry's subarray
    file is absent (neither open nor on the backing store), and the
    elements the file stores at the entry's source, position by
    position, when the file is there. *)
Theorem getitem_fills_absent_copies_present
    (p : s3Variable.Parent) (fm : FileManager.t) (v : s3Variable.t)
    (cv : CFA.CFAVariable) (elem : list pyslice) (es : list IndexEntry)
    (fv : Z) :
  s3Variable._cfa_var v = Some cv ->
  p <> s3Variable.Orphan ->
  Forall (fun t => 0 < t) (CFA.var_subarray_shape cv) ->
  PartitionIndex.__getitem__ cv elem = Ok es ->
  Nc.ncv_FillValue (s3Variable._nc_var v) = Some fv ->
  FileManager.consistent fm ->
  Forall (Stated.readable cv (FileManager.bounding_box (map target es)) fm) es ->
  exists a fm',
    s3Variable.__getitem__ p fm v elem = Ok (a, fm') /\
    Nd.shape a = FileManager.bounding_box (map target es) /\
    Forall (fun e => forall i,
              Nd.in_region (Nd.shape a) (target e) i = true ->
              Stated.owed cv fv (Nd.shape a) fm e i (Nd.item a i)) es.
Proof.
  intros Hcv Hp Htile Hidx Hfv Hc Hread.
  destruct (index_entries_separated cv elem es Htile Hidx) as [Hsep Hlen].
  assert (Forall (Stated.servable cv
                    (FileManager.bounding_box (map target es)) fm) es)
    as Hserv.
  { rewrite Forall_forall in Hread, Hlen. apply Forall_forall. intros e He.
    split; [now apply Hlen|].
    destruct (FileManager.resolve fm (CFA.file (partition e))) as [ds|] eqn:Hr;
      [|exact I].
    destruct (Hread e He ds Hr) as (nv & Hst & Hrank & Hshape).
    eexists. split; [exact (slab_of_stored cv ds e nv Hst Hrank)|].
    exact Hshape. }
  destruct (read_loop v cv fv es Hfv fm
              (FileManager.request_array (map target es)) Hc Hserv Hsep)
    as (fm' & ta' & Hloop & Hsh & Howed & _).
  exists ta', fm'. unfold s3Variable.__getitem__.
  rewrite Hcv, Hidx. simpl.
  assert (s3Variable.file_manager p fm = Ok fm) as ->
    by (destruct p; [reflexivity | reflexivity | contradiction]).
  simpl. rewrite Hloop. simpl. split; [reflexivity|].
  split; [exact Hsh|]. rewrite Hsh.
  rewrite Forall_forall in Hread, Howed. apply Forall_forall.
  intros e He i Hi. specialize (Howed e He i Hi).
  unfold Stated.owed_slab in Howed. unfold Stated.owed.
  destruct (FileManager.resolve fm (CFA.file (partition e))) as [ds|] eqn:Hr;
    [|exact Howed].
  destruct (Hread e He ds Hr) as (nv & Hst & Hrank & _).
  destruct Howed as (slab & Hslab & Hz).
  rewrite (slab_of_stored cv ds e nv Hst Hrank) in Hslab.
  injection Hslab as <-. exists nv. split; [exact Hst | exact Hz].
Qed.

(** C5 (as the code behaves): a read slice on a partitioned variable
    that has no [_FillValue] (one created with the default
    [fill_value=None]) raises as soon as the subarray file of its first
    index entry is absent: the turn asks the netCDF variable for
    [_FillValue], and the [AttributeError] of that lookup ends the
    read. *)
Theorem getitem_absent_without_fill_value_raises
    (p : s3Variable.Parent) (fm : FileManager.t) (v : s3Variable.t)
    (cv : CFA.CFAVariable) (elem : list pyslice) (e : IndexEntry)
    (es : list IndexEntry) :
  s3Variable._cfa_var v = Some cv ->
  p <> s3Variable.Orphan ->
  PartitionIndex.__getitem__ cv elem = Ok (e :: es) ->
  Nc.ncv_FillValue (s3Variable._nc_var v) = None ->
  FileManager.consistent fm ->
  FileManager.resolve fm (CFA.file (partition e)) = None ->
  s3Variable.__getitem__ p fm v elem =
    Raise (AttributeError "NetCDF: Attribute not found: _FillValue").
Proof.
  intros Hcv Hp Hidx Hfv Hc Hr.
  unfold s3Variable.__getitem__. rewrite Hcv, Hidx. simpl.
  assert (s3Variable.file_manager p fm = Ok fm) as ->
    by (destruct p; [reflexivity | reflexivity | contradiction]).
  simpl. unfold s3Variable.getitem_entry.
  rewrite (request_absent _ _ _ Hc Hr). simpl.
  unfold Nc._FillValue. rewrite Hfv. reflexivity.
Qed.

End ReadLoop.

Lemma consistent_over (st : gmap string Nc.NcDataset) (limit : Z) :
  FileManager.consistent (FileManager.over st limit).
Proof. intros uri r H. simpl in H. now rewrite lookup_empty in H. Qed.

(** Boundary scenario 2 after the reopen: one subarray file on the
    backing store, three absent. *)
Example sparse_read_back :
  (try! (a, _) := @s3Variable.__getitem__ Scenario.strict_libraries
                    Scenario.parent Scenario.reopened Scenario.attr_var
                    [PartitionIndex.all; PartitionIndex.all] in
   Ok (Nd.shape a, Nd.to_list a)) =
  Ok ([4; 4],
      [50; 51; -1; -1; 60; 61; -1; -1; -1; -1; -1; -1; -1; -1; -1; -1]).
Proof. vm_compute. reflexivity. Qed.

Lemma getitem_fills_absent_copies_present_witness :
  exists a fm',
    @s3Variable.__getitem__ Scenario.strict_libraries Scenario.parent
      Scenario.reopened Scenario.attr_var
      [PartitionIndex.all; PartitionIndex.all] = Ok (a, fm') /\
    Nd.shape a =
      FileManager.bounding_box (map PartitionIndex.target Scenario.entries_all) /\
    Forall (fun e => forall i,
              Nd.in_region (Nd.shape a) (PartitionIndex.target e) i = true ->
              Stated.owed Scenario.cv_t (-1) (Nd.shape a) Scenario.reopened
                          e i (Nd.item a i))
           Scenario.entries_all.
Proof.
  apply (getitem_fills_absent_copies_present Scenario.strict_libraries
           Scenario.parent Scenario.reopened Scenario.attr_var Scenario.cv_t
           [PartitionIndex.all; PartitionIndex.all] Scenario.entries_all (-1)).
  - reflexivity.
  - discriminate.
  - repeat constructor.
  - reflexivity.
  - reflexivity.
  - apply consistent_over.
  - repeat constructor; intros ds; vm_compute; intros [= <-];
      eexists; repeat split; reflexivity.
Defined.

(** The variable [t] created with the default [fill_value=None], read
    before anything is written to it. *)
Lemma getitem_absent_without_fill_value_raises_witness :
  exists v nc_parent,
    @s3Variable.create (Scenario.simple_cfa "master") Scenario.strict_libraries
      Scenario.parent "t" "f4" (s3Variable.PyTuple ["x"; "y"]) None [2; 2] 0
      = Ok (v, nc_parent) /\
    @s3Variable.__getitem__ Scenario.strict_libraries Scenario.parent
      Scenario.fm0 v [PartitionIndex.all; PartitionIndex.all] =
      Raise (AttributeError "NetCDF: Attribute not found: _FillValue").
Proof.
  eexists _, _. split; [vm_compute; reflexivity|].
  eapply (getitem_absent_without_fill_value_raises Scenario.strict_libraries
            Scenario.parent Scenario.fm0 _ _
            [PartitionIndex.all; PartitionIndex.all]).
  - reflexivity.
  - discriminate.
  - vm_compute. reflexivity.
  - reflexivity.
  - intros uri r H. vm_compute in H. discriminate.
  - vm_compute. reflexivity.
Defined.

(** ** Writing slices, then reading them back *)

(** Within one partition the round trip holds: [t[0:2, 0:2] = B] and then
    [t[0:2, 0:2]] gives [B] back. *)
Example roundtrip_one_partition :
  exists a,
    Scenario.write_then_read Scenario.strict_libraries
      [PartitionIndex.range 0 2; PartitionIndex.range 0 2] Scenario.B = Ok a /\
    Nd.array_eqb a Scenario.B = true.
Proof. eexists. split; vm_compute; reflexivity. Qed.

(** With the libraries as released, the assignment across partitions does
    not even return: every turn of the loop hands the whole of [data] to a
    2x2 slab. *)
Example write_across_partitions_raises :
  Scenario.write_then_read Scenario.strict_libraries
    [PartitionIndex.all; PartitionIndex.all] Scenario.A =
  Raise (IndexError "size of data array does not conform to slice").
Proof. vm_compute. reflexivity. Qed.

(** A scalar conforms to every slab: [t[:, :] = 7] reaches the four
    subarray files and reads back as sixteen sevens. *)
Example scalar_across_partitions :
  (try! a := Scenario.write_then_read Scenario.strict_libraries
               [PartitionIndex.all; PartitionIndex.all] (Nd.scalar 7) in
   Ok (Nd.shape a, Nd.to_list a)) =
  Ok ([4; 4], [7; 7; 7; 7; 7; 7; 7; 7; 7; 7; 7; 7; 7; 7; 7; 7]).
Proof. vm_compute. reflexivity. Qed.

(** With a library that stores the leading corner of an oversized array,
    every subarray receives the leading 2x2 corner of [A]. *)
Example lenient_across_partitions :
  (try! a := Scenario.write_then_read Scenario.lenient_libraries
               [PartitionIndex.all; PartitionIndex.all] Scenario.A in
   Ok (Nd.shape a, Nd.to_list a)) =
  Ok ([4; 4], [1; 2; 1; 2; 5; 6; 5; 6; 1; 2; 1; 2; 5; 6; 5; 6]).
Proof. vm_compute. reflexivity. Qed.

(** C1 (as the code behaves): on the fresh 4x4 variable [t] with 2x2
    tiles, [t[:, :] = A] followed by [t[:, :]] does not give [A] back,
    whatever the netCDF library answers to an assignment that does not
    conform to its slab (the four assignments of the run are the same
    call: a fresh 2x2 variable, the slab [0:2, 0:2], the whole of [A]).
    [__setitem__] stores the whole of [data] at [index.source] in every
    subarray file and never takes [data[index.target]], so either the
    assignment raises or the four subarrays end up with the same contents,
    while [A] differs from tile to tile. *)
Theorem roundtrip_across_partitions_fails (answer : res (list Z -> Z)) :
  ~ exists a,
      Scenario.write_then_read (Scenario.libraries_answering answer)
        [PartitionIndex.all; PartitionIndex.all] Scenario.A = Ok a /\
      Nd.array_eq a Scenario.A.
Proof.
  intros (a & Hrun & Hsh & Heq).
  assert (Stated.corners
            (Scenario.write_then_read (Scenario.libraries_answering answer)
               [PartitionIndex.all; PartitionIndex.all] Scenario.A)
          = Some (1, 11)) as Hobs.
  { rewrite Hrun. simpl.
    rewrite (Heq [0; 0]), (Heq [2; 2]) by (rewrite Hsh; reflexivity).
    reflexivity. }
  clear Hrun. destruct answer as [e|f]; vm_compute in Hobs.
  - discriminate.
  - congruence.
Qed.

(** ** The byte stream: addresses and construction *)

Lemma split_not_nil (sep : ascii) (s : string) : PyStr.split sep s <> [].
Proof.
  destruct s as [|c s]; simpl; [discriminate|].
  destruct (Ascii.eqb c sep); [discriminate|].
  destruct (PyStr.split sep s); discriminate.
Qed.

(** Joining the pieces of a split with the separator gives the string
    back. *)
Lemma join_split (sep : ascii) (s : string) :
  PyStr.join (String sep "") (PyStr.split sep s) = s.
Proof.
  induction s as [|c s IH]; simpl; [reflexivity|].
  destruct (Ascii.eqb_spec c sep) as [->|Hne].
  - destruct (PyStr.split sep s) as [|p ps] eqn:E.
    + now apply split_not_nil in E.
    + change (PyStr.join (String sep "") ("" :: p :: ps))
        with (String sep (PyStr.join (String sep "") (p :: ps))).
      now rewrite IH.
  - destruct (PyStr.split sep s) as [|p ps] eqn:E.
    + now apply split_not_nil in E.
    + rewrite <- IH. destruct ps; reflexivity.
Qed.

Lemma split_pieces_free (sep : ascii) (s : string) :
  Forall (fun p => contains_char sep p = false) (PyStr.split sep s).
Proof.
  induction s as [|c s IH]; simpl; [repeat constructor|].
  destruct (Ascii.eqb_spec c sep) as [->|Hne].
  - constructor; [reflexivity | exact IH].
  - destruct (PyStr.split sep s) as [|p ps]; simpl.
    + repeat constructor. simpl.
      destruct (Ascii.eqb_spec sep c); [congruence | reflexivity].
    + inversion IH; subst. constructor; [|assumption]. simpl.
      destruct (Ascii.eqb_spec sep c); [congruence | assumption].
Qed.

Lemma split_second (sep : ascii) (s : string) :
  is_Some (PyStr.split sep s !! 1%nat) <-> contains_char sep s = true.
Proof.
  induction s as [|c s IH]; simpl.
  - split; [intros [? [=]] | discriminate].
  - destruct (Ascii.eqb_spec c sep) as [->|Hne].
    + rewrite Ascii.eqb_refl. simpl. split; [reflexivity | intros _].
      destruct (PyStr.split sep s) eqn:E; [now apply split_not_nil in E|].
      now eexists.
    + destruct (Ascii.eqb_spec sep c); [congruence|]. simpl.
      rewrite <- IH.
      destruct (PyStr.split sep s) as [|p ps]; simpl; [|reflexivity].
      split; intros [? [=]].
Qed.

Section Address.

Context (P : s3FileObjectIO.PyLib).

Import s3FileObjectIO.

(** X1: [_get_server_bucket_object] returns exactly for the URIs that
    [urlparse] takes apart into a scheme, a network location and a path
    with a slash in it.  What [urlparse] raises passes through; a parse
    without scheme or without network location is the [APIException]
    "URI supplied to s3FileObject is not well-formed", one whose path has
    no slash the [APIException] "URI supplied has no bucket contained
    within it"; the third [APIException] of the source is never raised.
    A bucket that is there but empty ([http://host/]) does not count as
    missing. *)
Theorem server_bucket_object_returns_iff (uri : string) :
  (is_ok (_get_server_bucket_object uri) = true <->
   exists p, urlparse uri = Ok p /\ scheme p <> "" /\ netloc p <> "" /\
             contains_char "/" (path p) = true) /\
  (forall e, urlparse uri = Raise e ->
     _get_server_bucket_object uri = Raise e) /\
  (forall p, urlparse uri = Ok p ->
     (scheme p = "" \/ netloc p = "" ->
      _get_server_bucket_object uri =
        Raise (APIException
                 ("URI supplied to s3FileObject is not well-formed: " +:+
                  uri))) /\
     (scheme p <> "" -> netloc p <> "" ->
      contains_char "/" (path p) = false ->
      _get_server_bucket_object uri =
        Raise (APIException
                 ("URI supplied has no bucket contained within it: " +:+
                  uri)))).
Proof.
  unfold _get_server_bucket_object.
  destruct (urlparse uri) as [e|p]; simpl.
  { split; [|split].
    - split; [discriminate | intros (p & [=] & _)].
    - now intros e' [= ->].
    - intros p [=]. }
  split; [|split; [intros e [=]|]].
  - destruct (String.eqb_spec (scheme p) "") as [Hs|Hs]; simpl.
    { split; [discriminate | intros (p' & [= <-] & ? & _); contradiction]. }
    destruct (String.eqb_spec (netloc p) "") as [Hn|Hn]; simpl.
    { split; [discriminate | intros (p' & [= <-] & _ & ? & _); contradiction]. }
    pose proof (split_second "/" (path p)) as Hsplit.
    destruct (PyStr.split "/" (path p) !! 1%nat); simpl.
    + split; [intros _; exists p; repeat split; auto; apply Hsplit; now eexists
             | reflexivity].
    + split; [discriminate | intros (p' & [= <-] & _ & _ & Hc)].
      apply Hsplit in Hc as [? [=]].
  - intros p' [= <-]. split.
    + intros [-> | ->]; simpl; [reflexivity|].
      now rewrite orb_true_r.
    + intros Hs Hn Hc.
      destruct (String.eqb_spec (scheme p) ""); [contradiction|].
      destruct (String.eqb_spec (netloc p) ""); [contradiction|]. simpl.
      pose proof (split_second "/" (path p)) as Hsplit.
      destruct (PyStr.split "/" (path p) !! 1%nat) as [b|]; [|reflexivity].
      assert (contains_char "/" (path p) = true) as Hc'
        by (apply Hsplit; now eexists).
      congruence.
Qed.

(** X2: what [_get_server_bucket_object] returns takes the parsed URI apart
    without loss: the server is scheme and network location, the bucket
    holds no slash, and the path of the URI is what precedes its first
    slash, the bucket and the object path, joined by slashes (the last
    slash is missing when the URI ends with the bucket). *)
Theorem server_bucket_object_rebuilds_path (uri server bucket object : string) :
  _get_server_bucket_object uri = Ok (server, bucket, object) ->
  exists p,
    urlparse uri = Ok p /\
    server = scheme p +:+ "://" +:+ netloc p /\
    contains_char "/" bucket = false /\
    exists first,
      contains_char "/" first = false /\
      (path p = first +:+ "/" +:+ bucket +:+ "/" +:+ object \/
       object = "" /\ path p = first +:+ "/" +:+ bucket).
Proof.
  unfold _get_server_bucket_object.
  destruct (urlparse uri) as [e|p]; simpl; [discriminate|].
  destruct (_ || _); [discriminate|].
  pose proof (join_split "/" (path p)) as Hjoin.
  pose proof (split_pieces_free "/" (path p)) as Hfree.
  destruct (PyStr.split "/" (path p)) as [|first [|b rest]];
    simpl; try discriminate.
  intros [= <- <- <-]. exists p. split; [reflexivity|].
  split; [reflexivity|].
  inversion Hfree as [|? ? Hf1 Hfree']; subst.
  inversion Hfree' as [|? ? Hf2 _]; subst.
  split; [exact Hf2|]. exists first. split; [exact Hf1|].
  destruct rest as [|r rest].
  - right. split; [reflexivity|]. now rewrite <- Hjoin.
  - left. rewrite <- Hjoin. reflexivity.
Qed.

(** X3: a keyword argument of [__init__] that is false ([0], [False]) counts
    as not given.  So multipart transfers are switched off by the
    configuration file only: the stream has them off exactly when the
    argument is not [True] and the configuration says [False].  A new
    stream is at position 0, open, unconnected, with one empty buffer. *)
Theorem init_false_argument_is_no_argument
    (config : option BackendConfig) (uri : string)
    (credentials : gmap string string) (a : InitArgs) (s : t) :
  __init__ config uri credentials a = Ok s ->
  (_multipart_upload s = false <->
     arg_multipart_upload a <> Some true /\
     exists c, config = Some c /\ cfg_multipart_upload c = Some false) /\
  (_multipart_download s = false <->
     arg_multipart_download a <> Some true /\
     exists c, config = Some c /\ cfg_multipart_download c = Some false) /\
  (arg_part_size a = Some 0 \/ arg_part_size a = None ->
     s3FileObject._part_size (base s) =
     default 52428800 (config ≫= maximum_part_size)) /\
  (arg_max_parts a = Some 0 \/ arg_max_parts a = None ->
     _max_parts s = default 8 (config ≫= maximum_parts)) /\
  s3FileObject._seek_pos (base s) = 0 /\ _closed s = false /\
  _buffer s = [BytesIO.new] /\
  s3FileObject._conn_obj (base s) = s3FileObject.Unset /\
  s3FileObject._current_part (base s) = None.
Proof.
  unfold __init__.
  destruct (_get_server_bucket_object uri) as [|[[server bucket] object]];
    [discriminate|].
  simpl. intros [= <-]. simpl.
  assert (forall (arg cfg : option bool),
    choose truthy_bool arg cfg true = false <->
    arg <> Some true /\ cfg = Some false) as Hbool.
  { intros [[]|] [[]|]; simpl; split; try discriminate; try tauto;
      try (intros []; congruence); try (split; congruence). }
  split; [|split].
  1, 2: rewrite Hbool; destruct config as [c|]; simpl; split.
  1, 5: intros [H1 H2]; split; [exact H1 | now exists c].
  1, 4: intros [H1 (c' & [= <-] & H2)]; split; [exact H1 | exact H2].
  1, 3: intros [_ [=]].
  1, 2: intros [_ (c' & [=] & _)].
  split; [intros [-> | ->]; destruct config as [c|]; reflexivity|].
  split; [intros [-> | ->]; destruct config as [c|]; reflexivity|].
  repeat split.
Qed.


End Address.

Lemma server_bucket_object_rebuilds_path_witness :
  exists p,
    StreamScenario.simple_urlparse "http://store/bucket/data/a.nc" = Ok p /\
    "http://store" = s3FileObjectIO.scheme p +:+ "://" +:+
                     s3FileObjectIO.netloc p /\
    contains_char "/" "bucket" = false /\
    exists first,
      contains_char "/" first = false /\
      (s3FileObjectIO.path p =
         first +:+ "/" +:+ "bucket" +:+ "/" +:+ "data/a.nc" \/
       "data/a.nc" = "" /\
       s3FileObjectIO.path p = first +:+ "/" +:+ "bucket").
Proof.
  exact (server_bucket_object_rebuilds_path StreamScenario.pylib
           "http://store/bucket/data/a.nc" "http://store" "bucket"
           "data/a.nc" eq_refl).
Defined.

(** ** The byte stream: reading and seeking *)

Lemma handle_conn_obj :
  s3FileObjectIO._handle_connection_exception
    (s3FileObjectIO.no_attribute "_conn_obj") = s3FileObject.not_connected.
Proof. reflexivity. Qed.

Lemma handle_current_part :
  s3FileObjectIO._handle_connection_exception
    (s3FileObjectIO.no_attribute "_current_part") = s3FileObject.not_connected.
Proof. reflexivity. Qed.

Lemma handle_class_attribute :
  s3FileObjectIO._handle_connection_exception
    (s3FileObjectIO.no_class_attribute "MAXIMUM_PART_SIZE") =
  AttributeError (s3FileObjectIO.no_class_attribute "MAXIMUM_PART_SIZE").
Proof. reflexivity. Qed.

(** Unfolding the monad of the stream. *)
Ltac run_stream :=
  unfold s3FileObjectIO.first_buffer, s3FileObjectIO.current_part,
    s3FileObjectIO.upload_id, s3FileObjectIO.multipart_info,
    s3FileObjectIO.conn, s3FileObjectIO.conn_obj_attr,
    s3FileObjectIO.bucket_key, s3FileObjectIO.set_seek_pos,
    s3FileObjectIO.set_current_part, s3FileObjectIO.write_last,
    s3FileObjectIO.maximum_part_size_attr;
  unfold s3FileObjectIO.translate, s3FileObjectIO.mbind, s3FileObjectIO.get,
    s3FileObjectIO.modify, s3FileObjectIO.lift, s3FileObjectIO.request,
    s3FileObjectIO.raise, s3FileObjectIO.throw, s3FileObjectIO.ret;
  cbn [fst snd]; simpl.

Section Transfers.

Context (P : s3FileObjectIO.PyLib) (s3 : s3FileObject.S3)
        (ca : s3FileObjectIO.ClassAttrs) (cl : s3FileObjectIO.Client).

Import s3FileObjectIO.

Lemma init_fresh (config : option BackendConfig) (uri : string)
    (credentials : gmap string string) (a : InitArgs) (s : t) :
  __init__ config uri credentials a = Ok s ->
  s3FileObject._mode (base s) = arg_mode a /\
  s3FileObject._seek_pos (base s) = 0 /\
  s3FileObject._conn_obj (base s) = s3FileObject.Unset /\
  s3FileObject._current_part (base s) = None /\
  _closed s = false /\ _buffer s = [BytesIO.new].
Proof.
  unfold __init__.
  destruct (_get_server_bucket_object uri) as [|[[server bucket] object]];
    [discriminate|].
  simpl. intros [= <-]. repeat split.
Qed.

Lemma flush_unconnected (f : t) (log : list call) :
  s3FileObject._current_part (base f) = None ->
  _buffer f <> [] ->
  flush ca cl (f, log) =
    (if contains_char "w" (s3FileObject._mode (base f))
     then inl (Py s3FileObject.not_connected) else inr true, (f, log)).
Proof.
  intros Hpart Hbuf.
  unfold flush. run_stream.
  destruct (contains_char "w" _); [|reflexivity]. simpl.
  destruct (_buffer f); [contradiction|]. simpl. rewrite Hpart. reflexivity.
Qed.

(** X5: on a stream that was constructed but never connected, [read],
    [flush] in a write mode and [close] raise the [APIException]
    "Connection to S3 server is not established", [glob] lets the bare
    [AttributeError] through, and none of them sends a request; [write]
    in a write mode needs no connection and buffers the bytes. *)
Theorem unconnected_stream_errors
    (config : option BackendConfig) (uri : string)
    (credentials : gmap string string) (a : InitArgs) (s : t)
    (log : list call) (size : Z) (b : list byte) :
  __init__ config uri credentials a = Ok s ->
  read s3 cl size (s, log) = (inl (Py s3FileObject.not_connected), (s, log)) /\
  close ca cl (s, log) = (inl (Py s3FileObject.not_connected), (s, log)) /\
  (contains_char "w" (arg_mode a) = true ->
     flush ca cl (s, log) = (inl (Py s3FileObject.not_connected), (s, log))) /\
  glob s3 (s, log) =
    (inl (Py (AttributeError (no_attribute "_conn_obj"))), (s, log)) /\
  (contains_char "w" (arg_mode a) = true ->
   Z.of_nat (length b) <= s3FileObject._part_size (base s) ->
   exists s',
     write ca cl b (s, log) = (inr (Z.of_nat (length b)), (s', log)) /\
     _buffer s' = [BytesIO.write BytesIO.new b] /\
     tell s' = Z.of_nat (length b)).
Proof.
  intros Hinit.
  destruct (init_fresh _ _ _ _ _ Hinit)
    as (Hmode & Hpos & Hconn & Hpart & Hclosed & Hbuf).
  assert (_buffer s <> []) as Hne by (rewrite Hbuf; discriminate).
  pose proof (flush_unconnected s log Hpart Hne) as Hflush.
  rewrite Hmode in Hflush.
  split; [|split; [|split; [|split]]].
  - clear Hflush. unfold read, fetch. run_stream.
    unfold s3FileObject._getsize.
    destruct (size =? -1); simpl; rewrite ?Hconn; [reflexivity|].
    destruct (contains_char "w" _); simpl; [|reflexivity].
    destruct (negb _); simpl; rewrite Hconn; reflexivity.
  - unfold close. run_stream. rewrite Hclosed. simpl. rewrite Hflush.
    destruct (contains_char "w" (arg_mode a)); [reflexivity|].
    simpl. rewrite Hconn. reflexivity.
  - intros Hw. rewrite Hflush, Hw. reflexivity.
  - unfold glob. run_stream.
    destruct (glob_split (s3FileObject._path (base s))). simpl.
    rewrite Hconn. reflexivity.
  - intros Hw Hlen.
    exists (with_base (with_buffer s [BytesIO.write BytesIO.new b])
              (s3FileObject.with_seek_pos (base s) (Z.of_nat (length b)))).
    split; [|split; reflexivity].
    unfold write. run_stream.
    repeat (progress (rewrite ?Hmode, ?Hw, ?Hbuf, ?Hpos; simpl)).
    rewrite !Z.add_0_l.
    destruct (Z.gtb_spec (Z.of_nat (length b))
                (s3FileObject._part_size (base s))); [lia|].
    rewrite andb_false_r. reflexivity.
Qed.

(** X6: a sized [read] with multipart download on asks for the bytes from the
    position up to [size] bytes on, cut off at the end of the object, and
    then moves the position on by [size], however many bytes came back;
    a [ClientError] becomes an [IOException] and leaves the position. *)
Theorem read_range_and_position (f : t) (log : list call) (c : string)
    (n size : Z) :
  s3FileObject._conn_obj (base f) = s3FileObject.Conn c ->
  s3FileObject._getsize s3 (base f) = Ok n ->
  size <> -1 ->
  _multipart_download f = true ->
  let bucket := s3FileObject._bucket (base f) in
  let key := s3FileObject._path (base f) in
  let p := s3FileObject._seek_pos (base f) in
  let range := Some (p, Z.min (p + size - 1) (n - 1)) in
  read s3 cl size (f, log) =
    match get_object cl log bucket key range with
    | inr data =>
        (inr data,
         (with_base f (s3FileObject.with_seek_pos (base f) (p + size)),
          (log ++ [GetObject bucket key range])%list))
    | inl msg =>
        (inl (Py (IOException ("Could not read from object " +:+ key +:+ " "
                               +:+ msg))),
         (f, (log ++ [GetObject bucket key range])%list))
    end.
Proof.
  intros Hconn Hsize Hne Hmd. simpl.
  unfold read, fetch. run_stream.
  destruct (Z.eqb_spec size (-1)); [contradiction|].
  repeat (progress (rewrite ?Hsize, ?Hmd, ?Hconn; simpl)).
  assert ((if s3FileObject._seek_pos (base f) + size - 1 >=? n then n - 1
           else s3FileObject._seek_pos (base f) + size - 1) =
          Z.min (s3FileObject._seek_pos (base f) + size - 1) (n - 1)) as ->.
  { destruct (Z.geb_spec (s3FileObject._seek_pos (base f) + size - 1) n); lia. }
  destruct (get_object cl log _ _ _); simpl; rewrite ?Hconn; reflexivity.
Qed.

(** X7: without a size, or with multipart download off, [read] asks for the
    whole object and leaves the position where it was. *)
Theorem read_whole_object_keeps_position (f : t) (log : list call)
    (c : string) (n size : Z) :
  s3FileObject._conn_obj (base f) = s3FileObject.Conn c ->
  s3FileObject._getsize s3 (base f) = Ok n ->
  size = -1 \/ _multipart_download f = false ->
  let bucket := s3FileObject._bucket (base f) in
  let key := s3FileObject._path (base f) in
  read s3 cl size (f, log) =
    (match get_object cl log bucket key None with
     | inr data => inr data
     | inl msg =>
         inl (Py (IOException ("Could not read from object " +:+ key +:+ " "
                               +:+ msg)))
     end,
     (f, (log ++ [GetObject bucket key None])%list)).
Proof.
  intros Hconn Hsize Hwhole. simpl.
  unfold read, fetch. run_stream.
  destruct (Z.eqb_spec size (-1)) as [->|Hne].
  - repeat (progress (rewrite ?Hconn; simpl)).
    destruct (get_object cl log _ _ _); reflexivity.
  - destruct Hwhole as [?| Hmd]; [contradiction|].
    repeat (progress (rewrite ?Hsize, ?Hmd, ?Hconn; simpl)).
    destruct (get_object cl log _ _ _); reflexivity.
Qed.

(** X8: a sized read that reaches the end of the object leaves the position
    at or beyond the size: [tell()] says so, and the relative seek by 0
    that follows is refused. *)
Theorem read_to_end_blocks_relative_seek (f : t) (log : list call)
    (c : string) (n size : Z) (data : list byte) (st' : state) :
  contains_char "w" (s3FileObject._mode (base f)) = false ->
  s3FileObject._conn_obj (base f) = s3FileObject.Conn c ->
  s3FileObject.head_object s3 (s3FileObject._bucket (base f))
    (s3FileObject._path (base f)) = Some n ->
  size <> -1 ->
  _multipart_download f = true ->
  n <= s3FileObject._seek_pos (base f) + size ->
  read s3 cl size (f, log) = (inr data, st') ->
  tell (fst st') = s3FileObject._seek_pos (base f) + size /\
  seek s3 0 s3FileObject.SEEK_CUR st' =
    (inl (Py (s3FileObject.seek_error
                (s3FileObject._seek_pos (base f) + size) n
                (s3FileObject._path (base f)))), st').
Proof.
  intros Hmode Hconn Hhead Hne Hmd Hend Hread.
  assert (s3FileObject._getsize s3 (base f) = Ok n) as Hsize.
  { unfold s3FileObject._getsize. now rewrite Hmode, Hconn, Hhead. }
  pose proof (read_range_and_position f log c n size Hconn Hsize Hne Hmd)
    as Hr. simpl in Hr. rewrite Hr in Hread.
  destruct (get_object cl log _ _ _) as [msg|d]; [discriminate|].
  injection Hread as <- <-. split; [reflexivity|].
  assert (s3FileObject._mode (base f) <> "w") as Hnw.
  { intros E. rewrite E in Hmode. discriminate. }
  unfold seek, s3FileObject.seek, s3FileObject._getsize. simpl.
  destruct (String.eqb_spec (s3FileObject._mode (base f)) "w");
    [contradiction|].
  rewrite Hmode, Hconn, Hhead. simpl.
  rewrite Z.add_0_r.
  destruct (Z.geb_spec (s3FileObject._seek_pos (base f) + size) n); [|lia].
  destruct f as [[] ]; reflexivity.
Qed.

End Transfers.

(** X9: the refusal to seek in a file that is being written applies to the
    mode ['w'] alone.  In any other mode with a ['w'] in it (['wb'], the
    mode the front end opens its files in) [seek] measures the offset
    against the part size, connected or not: below it the position
    moves, at or beyond it the seek is out of bounds. *)
Theorem seek_in_binary_write_mode (s3 : s3FileObject.S3) (f : s3FileObject.t)
    (offset : Z) :
  contains_char "w" (s3FileObject._mode f) = true ->
  s3FileObject._mode f <> "w" ->
  (0 <= offset < s3FileObject._part_size f ->
   s3FileObject.seek s3 f offset s3FileObject.SEEK_SET =
     (Ok offset, s3FileObject.with_seek_pos f offset)) /\
  (s3FileObject._part_size f <= offset ->
   s3FileObject.seek s3 f offset s3FileObject.SEEK_SET =
     (Raise (s3FileObject.seek_error offset (s3FileObject._part_size f)
               (s3FileObject._path f)), f)).
Proof.
  intros Hw Hnw. unfold s3FileObject.seek, s3FileObject._getsize.
  destruct (String.eqb_spec (s3FileObject._mode f) "w"); [contradiction|].
  rewrite Hw. simpl. split; intros Hoff.
  - destruct (Z.geb_spec offset (s3FileObject._part_size f)); [lia|].
    destruct (Z.ltb_spec offset 0); [lia | reflexivity].
  - destruct (Z.geb_spec offset (s3FileObject._part_size f)); [reflexivity|lia].
Qed.

(** ** The byte stream: writing *)

Lemma bytesio_write_at_end (buf : BytesIO.t) (b : list byte) :
  BytesIO.pos buf = length (BytesIO.data buf) ->
  BytesIO.write buf b =
    {| BytesIO.data := (BytesIO.data buf ++ b)%list;
       BytesIO.pos := length (BytesIO.data buf ++ b)%list |}.
Proof.
  intros Hpos. unfold BytesIO.write. rewrite Hpos.
  rewrite firstn_all, Nat.sub_diag, length_app. simpl.
  rewrite drop_ge by lia. now rewrite app_nil_r.
Qed.

Section Writing.

Context (ca : s3FileObjectIO.ClassAttrs) (cl : s3FileObjectIO.Client).

Import s3FileObjectIO.

(** One [write] that triggers no upload: the bytes go to the last buffer,
    the position moves on, and a fresh buffer is opened when multipart
    upload is on and the position has passed the part size. *)
Lemma write_step (f : t) (log : list call) (bufs : list BytesIO.t)
    (buf : BytesIO.t) (b : list byte) :
  contains_char "w" (s3FileObject._mode (base f)) = true ->
  _buffer f = (bufs ++ [buf])%list ->
  let p := s3FileObject._seek_pos (base f) + Z.of_nat (length b) in
  let over := _multipart_upload f && (p >? s3FileObject._part_size (base f)) in
  (over = true -> Z.of_nat (length bufs + 1) <> _max_parts f) ->
  write ca cl b (f, log) =
    (inr (Z.of_nat (length b)),
     (with_base
        (with_buffer f
           (bufs ++ BytesIO.write buf b ::
                    (if over then [BytesIO.new] else []))%list)
        (s3FileObject.with_seek_pos (base f) p), log)).
Proof.
  intros Hw Hbuf p over Hparts. unfold write. run_stream.
  repeat (progress (rewrite ?Hw, ?Hbuf, ?last_snoc, ?length_app; simpl)).
  replace (length bufs + 1 - 1)%nat with (length bufs) by lia.
  rewrite take_app_length.
  fold p. fold over. destruct over eqn:Hover; simpl.
  - destruct (Z.eqb_spec (Z.of_nat (length bufs + 1)) (_max_parts f));
      [now apply Hparts in e|].
    simpl. now rewrite <- app_assoc.
  - reflexivity.
Qed.

(** X10: [writelines] in a text write mode with multipart upload off: every
    line, the last one too, is written with a line break after it; the
    bytes are appended to the one buffer in the order of the lines, the
    position moves on by their number, and nothing is sent. *)
Theorem writelines_appends_every_line (lines : list string) (f : t)
    (log : list call) (buf : BytesIO.t) :
  contains_char "w" (s3FileObject._mode (base f)) = true ->
  contains_char "b" (s3FileObject._mode (base f)) = false ->
  _multipart_upload f = false ->
  _buffer f = [buf] ->
  BytesIO.pos buf = length (BytesIO.data buf) ->
  let written :=
    concat (map (fun l => PyStr.encode (l +:+ String "010" "")) lines) in
  exists f',
    writelines ca cl lines (f, log) = (inr true, (f', log)) /\
    map BytesIO.data (_buffer f') = [(BytesIO.data buf ++ written)%list] /\
    tell f' = tell f + Z.of_nat (length written).
Proof.
  intros Hw Hb Hmu Hbuf Hpos written.
  assert (forall lines f buf,
    contains_char "w" (s3FileObject._mode (base f)) = true ->
    _multipart_upload f = false ->
    _buffer f = [buf] ->
    BytesIO.pos buf = length (BytesIO.data buf) ->
    exists f',
      write_each ca cl lines (f, log) = (inr tt, (f', log)) /\
      map BytesIO.data (_buffer f') =
        [(BytesIO.data buf ++
          concat (map (fun l => PyStr.encode (l +:+ String "010" "")) lines))%list]
      /\
      tell f' = tell f + Z.of_nat (length
        (concat (map (fun l => PyStr.encode (l +:+ String "010" "")) lines))))
    as Heach.
  { clear. induction lines as [|l lines IH]; intros f buf Hw Hmu Hbuf Hpos.
    - exists f. simpl. rewrite Hbuf, app_nil_r. unfold tell.
      repeat split. simpl. lia.
    - simpl. unfold mbind at 1.
      rewrite (write_step f log [] buf _ Hw Hbuf)
        by (rewrite Hmu; discriminate).
      rewrite Hmu. simpl.
      rewrite (bytesio_write_at_end _ _ Hpos).
      match goal with
      | |- context [write_each ca cl lines (?f1, log)] =>
          destruct (IH f1 _ Hw Hmu eq_refl eq_refl)
            as (f' & Hrun & Hdata & Htell)
      end.
      exists f'. split; [exact Hrun|]. simpl in Hdata, Htell.
      split.
      + rewrite Hdata, <- app_assoc. reflexivity.
      + rewrite Htell. unfold tell. simpl. rewrite length_app. lia. }
  destruct (Heach lines f buf Hw Hmu Hbuf Hpos) as (f' & Hrun & Hdata & Htell).
  exists f'. split; [|split; assumption].
  unfold writelines. run_stream. rewrite Hb. simpl. rewrite Hrun. reflexivity.
Qed.

Lemma two_writes (f : t) (log : list call) (bufs : list BytesIO.t)
    (buf : BytesIO.t) (b1 b2 : list byte) :
  contains_char "w" (s3FileObject._mode (base f)) = true ->
  _multipart_upload f = true ->
  _buffer f = (bufs ++ [buf])%list ->
  s3FileObject._part_size (base f) <
    s3FileObject._seek_pos (base f) + Z.of_nat (length b1) ->
  Z.of_nat (length bufs + 1) <> _max_parts f ->
  Z.of_nat (length bufs + 2) <> _max_parts f ->
  (run! _ := write ca cl b1 in write ca cl b2) (f, log) =
    (inr (Z.of_nat (length b2)),
     (with_base
        (with_buffer f
           (bufs ++ [BytesIO.write buf b1; BytesIO.write BytesIO.new b2;
                     BytesIO.new])%list)
        (s3FileObject.with_seek_pos (base f)
           (s3FileObject._seek_pos (base f) + Z.of_nat (length b1) +
            Z.of_nat (length b2))), log)).
Proof.
  intros Hw Hmu Hbuf Hover Hp1 Hp2. unfold mbind.
  rewrite (write_step f log bufs buf b1 Hw Hbuf)
    by (intros _; exact Hp1).
  rewrite Hmu. simpl.
  destruct (Z.gtb_spec (s3FileObject._seek_pos (base f) + Z.of_nat (length b1))
              (s3FileObject._part_size (base f))); [|lia].
  erewrite (write_step _ log (bufs ++ [BytesIO.write buf b1]) BytesIO.new b2).
  - simpl. rewrite Hmu. simpl.
    destruct (Z.gtb_spec
                (s3FileObject._seek_pos (base f) + Z.of_nat (length b1) +
                 Z.of_nat (length b2))
                (s3FileObject._part_size (base f))); [|lia].
    simpl. now rewrite <- app_assoc.
  - exact Hw.
  - simpl. now rewrite <- app_assoc.
  - simpl. intros _. rewrite length_app. simpl.
    replace (length bufs + 1 + 1)%nat with (length bufs + 2)%nat by lia.
    exact Hp2.
Qed.

(** X11: with multipart upload on, the position is not set back when a fresh
    buffer is opened.  So once a write has carried it past the part size,
    the next write, however small, fills a buffer of its own and opens
    yet another one (as long as the number of buffers differs from
    [_max_parts]); nothing is sent meanwhile. *)
Theorem write_past_part_size_opens_buffer_per_write (f : t)
    (log : list call) (bufs : list BytesIO.t) (buf : BytesIO.t)
    (b1 b2 : list byte) :
  contains_char "w" (s3FileObject._mode (base f)) = true ->
  _multipart_upload f = true ->
  _buffer f = (bufs ++ [buf])%list ->
  s3FileObject._part_size (base f) <
    s3FileObject._seek_pos (base f) + Z.of_nat (length b1) ->
  Z.of_nat (length bufs + 1) <> _max_parts f ->
  Z.of_nat (length bufs + 2) <> _max_parts f ->
  exists f',
    (run! _ := write ca cl b1 in write ca cl b2) (f, log) =
      (inr (Z.of_nat (length b2)), (f', log)) /\
    _buffer f' =
      (bufs ++ [BytesIO.write buf b1; BytesIO.write BytesIO.new b2;
                BytesIO.new])%list /\
    tell f' = tell f + Z.of_nat (length b1) + Z.of_nat (length b2).
Proof.
  intros Hw Hmu Hbuf Hover Hp1 Hp2. eexists. split.
  - exact (two_writes f log bufs buf b1 b2 Hw Hmu Hbuf Hover Hp1 Hp2).
  - split; reflexivity.
Qed.

End Writing.

(** ** The byte stream: the multipart upload *)

Lemma part_of_piece (piece : list byte) :
  BytesIO.write BytesIO.new piece =
    {| BytesIO.data := piece; BytesIO.pos := length piece |}.
Proof.
  rewrite bytesio_write_at_end by reflexivity. reflexivity.
Qed.

(** The [while] loop cuts the rest of a buffer into pieces of [m] bytes
    and a last, shorter one. *)
Lemma split_loop_pieces (m : Z) (d : list byte) :
  0 < m ->
  forall (fuel k : nat) (acc : list BytesIO.t),
    (k <= length d)%nat -> (length d - k < fuel)%nat ->
    exists pieces,
      s3FileObjectIO.split_loop fuel m
        {| BytesIO.data := d; BytesIO.pos := k |}
        (Z.of_nat (length d)) (Z.of_nat k) acc =
        Some (acc ++ map (BytesIO.write BytesIO.new) pieces)%list /\
      concat pieces = drop k d /\
      Forall (fun p => Z.of_nat (length p) <= m) pieces.
Proof.
  intros Hm. induction fuel as [|fuel IH]; intros k acc Hk Hfuel; [lia|].
  simpl.
  destruct (Z.ltb_spec (Z.of_nat k) (Z.of_nat (length d))) as [Hlt|Hge].
  2: { exists []. simpl. rewrite app_nil_r, drop_ge by lia. repeat split.
       constructor. }
  unfold BytesIO.read. simpl.
  destruct (Z.geb_spec (Z.of_nat k + m) (Z.of_nat (length d))) as [Hlast|Hmore].
  - destruct (Z.ltb_spec (Z.of_nat (length d) - Z.of_nat k) 0); [lia|].
    rewrite take_ge by (rewrite length_drop; lia).
    exists [drop k d]. simpl. rewrite app_nil_r.
    split; [|split; [reflexivity|]].
    + destruct fuel; simpl;
        destruct (Z.ltb_spec (Z.of_nat k + m) (Z.of_nat (length d)));
        try lia; reflexivity.
    + repeat constructor. rewrite length_drop. lia.
  - destruct (Z.ltb_spec m 0); [lia|].
    assert (length (take (Z.to_nat m) (drop k d)) = Z.to_nat m) as Hgot.
    { rewrite length_take, length_drop. lia. }
    rewrite Hgot.
    replace (Z.of_nat k + m) with (Z.of_nat (k + Z.to_nat m)) by lia.
    destruct (IH (k + Z.to_nat m)%nat
                (acc ++ [BytesIO.write BytesIO.new
                           (take (Z.to_nat m) (drop k d))])%list)
      as (pieces & Hrun & Hcat & Hlen); [lia | lia |].
    exists (take (Z.to_nat m) (drop k d) :: pieces).
    split; [|split].
    + rewrite Hrun. simpl. now rewrite <- app_assoc.
    + simpl. rewrite Hcat, <- drop_drop. apply take_drop.
    + constructor; [rewrite Hgot; lia | exact Hlen].
Qed.

Section Upload.

Context (ca : s3FileObjectIO.ClassAttrs) (cl : s3FileObjectIO.Client).

Import s3FileObjectIO StreamStated.

Lemma split_buffers_parts (m : Z) :
  MAXIMUM_PART_SIZE ca = Some m -> 0 < m ->
  forall (buffers acc : list BytesIO.t) (st : state),
    Forall written_out buffers ->
    exists parts,
      split_buffers ca buffers acc st = (inr (acc ++ parts)%list, st) /\
      concat (map BytesIO.data parts) = concat (map BytesIO.data buffers) /\
      Forall (fun p => written_out p /\
                       Z.of_nat (length (BytesIO.data p)) <= m) parts /\
      (Forall (fun b => Z.of_nat (length (BytesIO.data b)) < m) buffers ->
       parts = buffers).
Proof.
  intros Hmax Hm. induction buffers as [|buf rest IH]; intros acc st Hall.
  - exists []. simpl. rewrite app_nil_r. repeat split. constructor.
  - inversion Hall as [|? ? Hbuf Hrest]; subst. cbn [split_buffers].
    unfold mbind, maximum_part_size_attr. rewrite Hmax. unfold ret.
    unfold BytesIO.tell. rewrite Hbuf.
    destruct (Z.geb_spec (Z.of_nat (length (BytesIO.data buf))) m) as [Hbig|Hsmall].
    + destruct (split_loop_pieces m (BytesIO.data buf) Hm
                  (S (Z.to_nat (Z.of_nat (length (BytesIO.data buf))))) 0 acc)
        as (pieces & Hrun & Hcat & Hlen); [lia | lia |].
      unfold BytesIO.rewind. change (Z.of_nat 0) with 0 in Hrun.
      rewrite Hrun.
      destruct (IH (acc ++ map (BytesIO.write BytesIO.new) pieces)%list st Hrest)
        as (parts & Hsplit & Hdata & Hparts & _).
      exists (map (BytesIO.write BytesIO.new) pieces ++ parts)%list.
      rewrite Hsplit, app_assoc. split; [reflexivity|].
      split; [|split].
      * rewrite map_app, concat_app, Hdata. simpl. f_equal.
        change (concat pieces = BytesIO.data buf) in Hcat.
        rewrite <- Hcat. f_equal. rewrite map_map.
        erewrite map_ext; [apply map_id|].
        intros p. now rewrite part_of_piece.
      * apply Forall_app. split; [|exact Hparts].
        apply Forall_map. eapply Forall_impl; [exact Hlen|].
        intros p Hp. rewrite part_of_piece. split; [reflexivity | exact Hp].
      * intros Hshort. inversion Hshort; subst. lia.
    + destruct (IH (acc ++ [buf])%list st Hrest)
        as (parts & Hsplit & Hdata & Hparts & Hsame).
      exists (buf :: parts). rewrite Hsplit, <- app_assoc.
      split; [reflexivity|]. split; [|split].
      * simpl. now rewrite Hdata.
      * constructor; [split; [exact Hbuf | lia] | exact Hparts].
      * intros Hshort. inversion Hshort; subst. f_equal. now apply Hsame.
Qed.

(** X12: the first loop of the multipart upload, for a positive
    [MAXIMUM_PART_SIZE]: it returns, no part is longer than
    [MAXIMUM_PART_SIZE], and the parts in their order carry the bytes of
    the buffers, none lost or repeated; buffers shorter than
    [MAXIMUM_PART_SIZE] stay as they are. *)
Theorem multipart_split_preserves_bytes (m : Z) (buffers : list BytesIO.t)
    (st : state) :
  MAXIMUM_PART_SIZE ca = Some m -> 0 < m ->
  Forall written_out buffers ->
  exists parts,
    split_buffers ca buffers [] st = (inr parts, st) /\
    concat (map BytesIO.data parts) = concat (map BytesIO.data buffers) /\
    Forall (fun p => Z.of_nat (length (BytesIO.data p)) <= m) parts /\
    (Forall (fun b => Z.of_nat (length (BytesIO.data b)) < m) buffers ->
     parts = buffers).
Proof.
  intros Hmax Hm Hall.
  destruct (split_buffers_parts m Hmax Hm buffers [] st Hall)
    as (parts & Hrun & Hdata & Hparts & Hsame).
  exists parts. repeat split; try assumption.
  eapply Forall_impl; [exact Hparts|]. now intros p [_ Hp].
Qed.

End Upload.

Lemma numbers_S (n : Z) (k : nat) :
  StreamStated.numbers n (S k) = n :: StreamStated.numbers (n + 1) k.
Proof.
  unfold StreamStated.numbers. simpl. rewrite Z.add_0_r. f_equal.
  rewrite <- seq_shift, map_map. apply map_ext. intros j. lia.
Qed.

Lemma uploads_app (l1 l2 : list s3FileObjectIO.call) :
  StreamStated.uploads (l1 ++ l2) =
  (StreamStated.uploads l1 ++ StreamStated.uploads l2)%list.
Proof. unfold StreamStated.uploads. apply omap_app. Qed.

Lemma data_insert_rewind (bufs : list BytesIO.t) (i : nat) (buf : BytesIO.t) :
  bufs !! i = Some buf ->
  map BytesIO.data (<[i := BytesIO.rewind buf]> bufs) = map BytesIO.data bufs.
Proof.
  revert i. induction bufs as [|b bufs IH]; intros [|i]; simpl; try easy.
  - now intros [= ->].
  - intros H. f_equal. now apply IH.
Qed.

Section UploadParts.

Context (ca : s3FileObjectIO.ClassAttrs) (cl : s3FileObjectIO.Client).

Import s3FileObjectIO StreamStated.

(** The requests [ensure_bucket] sends concern buckets only, and it
    leaves the stream as it was. *)
Lemma ensure_bucket_quiet (f : t) (log : list call) (r : raised + unit)
    (st' : state) :
  ensure_bucket cl (f, log) = (r, st') ->
  fst st' = f /\
  exists extra,
    snd st' = (log ++ extra)%list /\
    Forall (fun c => sends_data c = false /\ uploads [c] = []) extra.
Proof.
  unfold ensure_bucket, _get_bucket_list. run_stream.
  destruct (_create_bucket f); simpl.
  2: { intros [= <- <-]. split; [reflexivity|]. exists [].
       now rewrite app_nil_r. }
  destruct (s3FileObject._conn_obj (base f)) eqn:Hc; simpl.
  1, 2: intros [= <- <-]; split; [reflexivity|]; exists [];
    now rewrite app_nil_r.
  destruct (list_buckets cl log) as [msg|bl]; simpl.
  { intros [= <- <-]. split; [reflexivity|]. exists [ListBuckets].
    repeat constructor. }
  destruct (negb (str_in (s3FileObject._bucket (base f)) bl)); simpl.
  2: { intros [= <- <-]. split; [reflexivity|]. exists [ListBuckets].
       repeat constructor. }
  rewrite Hc. simpl.
  destruct (create_bucket cl _ _); intros [= <- <-]; (split; [reflexivity|]);
    exists [ListBuckets; CreateBucket (s3FileObject._bucket (base f))];
    rewrite <- app_assoc; repeat constructor.
Qed.

Lemma quiet_uploads (extra log : list call) :
  Forall (fun c => sends_data c = false /\ uploads [c] = []) extra ->
  uploads (log ++ extra) = uploads log /\
  List.filter sends_data (log ++ extra) = List.filter sends_data log.
Proof.
  revert log. induction extra as [|c extra IH]; intros log Hall.
  - now rewrite app_nil_r.
  - inversion Hall as [|? ? [Hs Hu] Hrest]; subst.
    rewrite (cons_middle c log extra), app_assoc.
    destruct (IH (log ++ [c])%list Hrest) as [-> ->].
    rewrite uploads_app, Hu, app_nil_r, List.filter_app. simpl. rewrite Hs.
    now rewrite app_nil_r.
Qed.

(** One turn of the upload loop that is followed by a normal end. *)
Lemma upload_parts_cons_inv (i : nat) (rest : list nat) (f : t)
    (log : list call) (st' : state) :
  upload_parts cl (i :: rest) (f, log) = (inr tt, st') ->
  exists buf c id n inf etag,
    _buffer f !! i = Some buf /\
    s3FileObject._conn_obj (base f) = s3FileObject.Conn c /\
    _upload_id f = Some id /\
    s3FileObject._current_part (base f) = Some n /\
    _multipart_info f = Some inf /\
    upload_parts cl rest
      (with_base
         (with_info (with_buffer f (<[i := BytesIO.rewind buf]> (_buffer f)))
                    (inf ++ [(n, etag)])%list)
         (s3FileObject.with_current_part (base f) (n + 1)),
       (log ++ [UploadPart (s3FileObject._bucket (base f))
                  (s3FileObject._path (base f)) id n (BytesIO.data buf)])%list)
    = (inr tt, st').
Proof.
  cbn [upload_parts]. unfold buffer_at. run_stream.
  destruct (_buffer f !! i) as [buf|] eqn:Hbuf; simpl; [|discriminate].
  destruct (s3FileObject._conn_obj (base f)) as [| |c] eqn:Hc; simpl;
    try discriminate.
  destruct (_upload_id f) as [id|] eqn:Hid; simpl; [|discriminate].
  destruct (s3FileObject._current_part (base f)) as [n|] eqn:Hn; simpl;
    [|discriminate].
  destruct (upload_part cl log _ _ id n _) as [msg|etag] eqn:Hup; simpl;
    [discriminate|].
  destruct (_multipart_info f) as [inf|] eqn:Hinf; simpl; [|discriminate].
  repeat (progress (rewrite ?Hn; simpl)). intros Hrest.
  exists buf, c, id, n, inf, etag. repeat split; auto.
Qed.

Lemma upload_parts_numbers (k : nat) :
  forall (i : nat) (f : t) (log : list call) (n : Z) (st' : state),
    (i + k <= length (_buffer f))%nat ->
    s3FileObject._current_part (base f) = Some n ->
    upload_parts cl (seq i k) (f, log) = (inr tt, st') ->
    uploads (snd st') =
      (uploads log ++
       zip (numbers n k) (take k (drop i (map BytesIO.data (_buffer f)))))%list
    /\
    s3FileObject._current_part (base (fst st')) = Some (n + Z.of_nat k) /\
    s3FileObject._conn_obj (base (fst st')) = s3FileObject._conn_obj (base f) /\
    s3FileObject._mode (base (fst st')) = s3FileObject._mode (base f) /\
    _closed (fst st') = _closed f /\
    (forall inf, _multipart_info f = Some inf ->
       exists inf', _multipart_info (fst st') = Some inf' /\
                    map fst inf' = (map fst inf ++ numbers n k)%list).
Proof.
  induction k as [|k IH]; intros i f log n st' Hlen Hn Hrun.
  - simpl in Hrun. injection Hrun as <-. simpl.
    rewrite app_nil_r, Z.add_0_r. repeat split; auto.
    intros inf Hinf. exists inf. now rewrite app_nil_r.
  - cbn [seq] in Hrun.
    apply upload_parts_cons_inv in Hrun
      as (buf & c & id & n0 & inf & etag & Hbuf & Hc & Hid & Hn0 & Hinf & Hrest).
    rewrite Hn in Hn0. injection Hn0 as <-.
    apply IH with (n := n + 1) in Hrest;
      [| simpl; rewrite length_insert; lia | reflexivity].
    destruct Hrest as (Hup & Hpart & Hconn & Hmode & Hclosed & Hinfo).
    simpl in Hup, Hconn, Hmode, Hclosed.
    rewrite (data_insert_rewind _ _ _ Hbuf) in Hup.
    split; [|split; [|split; [|split; [|split]]]]; auto.
    + assert (map BytesIO.data (_buffer f) !! i = Some (BytesIO.data buf))
        as Hdata by (rewrite list_lookup_fmap, Hbuf; reflexivity).
      rewrite Hup, uploads_app, <- app_assoc. f_equal.
      rewrite numbers_S, (drop_S _ _ _ Hdata). reflexivity.
    + rewrite Hpart. f_equal. lia.
    + intros inf0 Hinf0. rewrite Hinf in Hinf0. injection Hinf0 as <-.
      destruct (Hinfo _ eq_refl) as (inf' & Hinf' & Hnums).
      exists inf'. split; [exact Hinf'|].
      rewrite Hnums, map_app, numbers_S, <- app_assoc. reflexivity.
Qed.

End UploadParts.

Section UploadWhole.

Context (ca : s3FileObjectIO.ClassAttrs) (cl : s3FileObjectIO.Client).

Import s3FileObjectIO StreamStated.

(** What [start_upload] leaves when it returns: the stream as it was,
    but for the upload it may have created. *)
Lemma start_upload_inv (f : t) (log : list call) (n : Z) (st' : state) :
  s3FileObject._current_part (base f) = Some n ->
  start_upload cl (f, log) = (inr tt, st') ->
  uploads (snd st') = uploads log /\
  List.filter sends_data (snd st') = List.filter sends_data log /\
  (fst st' = f \/ exists id, fst st' = with_upload f id []) /\
  (if n =? 1 then _multipart_info (fst st') = Some []
   else fst st' = f).
Proof.
  intros Hn. unfold start_upload. unfold mbind at 1.
  destruct (ensure_bucket cl (f, log)) as [[r|[]] [f1 log1]] eqn:Hens;
    [discriminate|].
  apply ensure_bucket_quiet in Hens as [Hf1 (extra & Hlog1 & Hq)].
  simpl in Hf1, Hlog1. subst f1 log1.
  destruct (quiet_uploads extra log Hq) as [Hu Hs].
  run_stream. rewrite Hn. simpl.
  destruct (n =? 1); simpl.
  - destruct (s3FileObject._conn_obj (base f)); simpl; try discriminate.
    destruct (create_multipart_upload cl _ _ _) as [msg|id]; simpl;
      [discriminate|].
    intros [= <-]. simpl.
    rewrite uploads_app, List.filter_app, Hu, Hs. simpl.
    rewrite !app_nil_r. repeat split; eauto.
  - intros [= <-]. simpl. repeat split; auto.
Qed.

(** X13: the multipart upload, when it returns (for a positive
    [MAXIMUM_PART_SIZE] and buffers that have only been written to):
    the parts it has sent carry the bytes of the buffers in their order,
    none longer than [MAXIMUM_PART_SIZE]; they are numbered upwards from
    [_current_part] without a gap; afterwards [_current_part] is two
    beyond the last number used, there is one empty buffer and the
    position is 0.  For the first upload the part list kept for the
    completion names exactly the numbers sent. *)
Theorem multipart_upload_numbers_parts (m n : Z) (f f' : t)
    (log log' : list call) :
  MAXIMUM_PART_SIZE ca = Some m -> 0 < m ->
  Forall written_out (_buffer f) ->
  s3FileObject._current_part (base f) = Some n ->
  _multipart_upload_from_buffer ca cl (f, log) = (inr tt, (f', log')) ->
  exists pieces : list (list byte),
    concat pieces = concat (map BytesIO.data (_buffer f)) /\
    Forall (fun p => Z.of_nat (length p) <= m) pieces /\
    uploads log' =
      (uploads log ++ zip (numbers n (length pieces)) pieces)%list /\
    s3FileObject._current_part (base f') =
      Some (n + Z.of_nat (length pieces) + 1) /\
    _buffer f' = [BytesIO.new] /\ tell f' = 0 /\
    (n = 1 ->
     exists inf, _multipart_info f' = Some inf /\
                 map fst inf = numbers 1 (length pieces)).
Proof.
  intros Hmax Hm Hall Hn Hrun.
  unfold _multipart_upload_from_buffer in Hrun. unfold mbind at 1 in Hrun.
  destruct (start_upload cl (f, log)) as [[r|[]] [f1 log1]] eqn:Hstart;
    [discriminate|].
  apply (start_upload_inv f log n _ Hn) in Hstart
    as (Hu1 & _ & Hf1 & Hinfo1). simpl in Hu1, Hf1, Hinfo1.
  assert (_buffer f1 = _buffer f /\
          s3FileObject._current_part (base f1) = Some n) as [Hb1 Hn1].
  { destruct Hf1 as [-> | [id ->]]; split; auto. }
  unfold send_buffers in Hrun. unfold mbind at 1, get at 1 in Hrun.
  cbn [fst] in Hrun. unfold mbind at 1 in Hrun.
  destruct (split_buffers_parts ca m Hmax Hm (_buffer f1) [] (f1, log1))
    as (parts & Hsplit & Hdata & Hparts & _);
    [rewrite Hb1; exact Hall|].
  rewrite Hsplit in Hrun. simpl in Hsplit. cbn [app] in Hrun.
  unfold mbind at 1, modify at 1 in Hrun. cbn [fst snd] in Hrun.
  unfold mbind at 1 in Hrun.
  destruct (upload_parts cl (seq 0 (length parts))
              (with_buffer f1 parts, log1)) as [[r|[]] [f2 log2]] eqn:Hup;
    [discriminate|].
  apply (upload_parts_numbers cl (length parts) 0 _ _ n) in Hup;
    [| simpl; lia | exact Hn1].
  destruct Hup as (Hu2 & Hn2 & _ & _ & _ & Hinfo2).
  simpl in Hu2, Hn2, Hinfo2.
  rewrite drop_0, firstn_all2 in Hu2 by (rewrite length_map; lia).
  revert Hrun. run_stream. rewrite Hn2. simpl. intros [= <- <-].
  exists (map BytesIO.data parts). rewrite length_map.
  split; [rewrite Hdata, Hb1; reflexivity|].
  split; [apply Forall_map; eapply Forall_impl; [exact Hparts|];
          now intros p [_ Hp]|].
  split; [rewrite Hu2, Hu1; reflexivity|].
  split; [reflexivity|]. split; [reflexivity|]. split; [reflexivity|].
  intros ->. simpl in Hinfo1.
  destruct (Hinfo2 [] Hinfo1) as (inf' & Hinf' & Hnums).
  exists inf'. split; [exact Hinf' | exact Hnums].
Qed.

End UploadWhole.

(** ** The byte stream: flushing and closing *)

Section Flushing.

Context (cl : s3FileObjectIO.Client).

Import s3FileObjectIO StreamStated.

Lemma flush_as_written (f : t) (log : list call) :
  contains_char "w" (s3FileObject._mode (base f)) = true ->
  exists r log',
    flush as_written cl (f, log) = (inl r, (f, log')) /\
    List.filter sends_data log' = List.filter sends_data log.
Proof.
  intros Hw. unfold flush. run_stream. rewrite Hw. simpl.
  destruct (_buffer f) as [|buf rest] eqn:Hbuf; simpl; [eauto|].
  destruct (s3FileObject._current_part (base f)) as [n|] eqn:Hn; simpl;
    [|eauto].
  destruct (Z.eqb_spec n 1) as [->|Hne]; simpl; [eauto|].
  unfold _multipart_upload_from_buffer, mbind at 1, start_upload, mbind at 1.
  destruct (ensure_bucket cl (f, log)) as [[r|[]] [f1 log1]] eqn:Hens;
    apply ensure_bucket_quiet in Hens as [Hf1 (extra & Hlog1 & Hq)];
    simpl in Hf1, Hlog1; subst f1 log1;
    destruct (quiet_uploads extra log Hq) as [_ Hs].
  - simpl. eauto.
  - run_stream. rewrite Hn. simpl.
    destruct (Z.eqb_spec n 1); [contradiction|]. simpl.
    unfold send_buffers. run_stream. rewrite Hbuf. simpl. eauto.
Qed.

(** X14: the class body binds no [MAXIMUM_PART_SIZE], which [flush] and the
    multipart upload read.  With the class as it is written, [flush] of a
    stream in a write mode never returns: it raises, leaves the stream as
    it was and sends no request that carries data; and so [close] raises
    too and leaves the stream open. *)
Theorem as_written_write_mode_never_flushes (f : t) (log : list call) :
  contains_char "w" (s3FileObject._mode (base f)) = true ->
  (exists r log',
     flush as_written cl (f, log) = (inl r, (f, log')) /\
     List.filter sends_data log' = List.filter sends_data log) /\
  (_closed f = false ->
   exists r log',
     close as_written cl (f, log) = (inl r, (f, log')) /\
     List.filter sends_data log' = List.filter sends_data log).
Proof.
  intros Hw. split; [now apply flush_as_written|].
  intros Hclosed.
  destruct (flush_as_written f log Hw) as (r & log' & Hflush & Hs).
  unfold close. run_stream. rewrite Hclosed. simpl. rewrite Hflush.
  simpl. eauto.
Qed.

End Flushing.

Section Closing.

Context (ca : s3FileObjectIO.ClassAttrs) (cl : s3FileObjectIO.Client).

Import s3FileObjectIO StreamStated.

(** X15: a [close] that returns leaves the stream closed, and a second
    [close] then returns at once: it changes nothing and sends
    nothing. *)
Theorem close_twice_is_close_once (f : t) (log : list call) (st' : state) :
  close ca cl (f, log) = (inr true, st') ->
  _closed (fst st') = true /\ close ca cl st' = (inr true, st').
Proof.
  unfold close at 1. run_stream.
  destruct (_closed f) eqn:Hclosed; simpl.
  - intros [= <-]. split; [exact Hclosed|].
    unfold close. run_stream. rewrite Hclosed. reflexivity.
  - destruct (flush ca cl (f, log)) as [[r|b] [f1 log1]]; simpl;
      [discriminate|].
    destruct (s3FileObject._conn_obj (base f1)); simpl; try discriminate.
    all: unfold release; simpl;
      destruct (release_raises cl log1 _); simpl; [discriminate|];
      intros [= <-]; split; [reflexivity|];
      unfold close; run_stream; reflexivity.
Qed.



End Closing.

(** ** The byte stream: glob *)

Lemma substring_all (s : string) : substring 0 (String.length s) s = s.
Proof. induction s as [|c s IH]; simpl; [reflexivity | now rewrite IH]. Qed.

Lemma upto_from (i : nat) (s : string) : PyStr.upto i s +:+ PyStr.from i s = s.
Proof.
  unfold PyStr.upto, PyStr.from. revert i.
  induction s as [|c s IH]; intros [|i]; simpl; try reflexivity.
  - now rewrite substring_all.
  - change (String c (substring 0 i s +:+
                      substring i (String.length s - i) s) = String c s).
    now rewrite IH.
Qed.

Lemma upto_free (c : ascii) (s : string) (i : nat) :
  (forall j, PyStr.index c s = Some j -> (i <= j)%nat) ->
  contains_char c (PyStr.upto i s) = false.
Proof.
  unfold PyStr.upto. revert i.
  induction s as [|d s IH]; intros [|i] Hi; simpl; try reflexivity.
  simpl in Hi. destruct (Ascii.eqb c d).
  - specialize (Hi 0%nat eq_refl). lia.
  - simpl. apply IH. intros j Hj. specialize (Hi (S j)).
    rewrite Hj in Hi. specialize (Hi eq_refl). lia.
Qed.

Lemma from_index (c : ascii) (s : string) (i : nat) :
  PyStr.index c s = Some i -> exists rest, PyStr.from i s = String c rest.
Proof.
  unfold PyStr.from. revert i.
  induction s as [|d s IH]; intros i; simpl; [discriminate|].
  destruct (Ascii.eqb_spec c d) as [->|Hne].
  - intros [= <-]. simpl. rewrite substring_all. now eexists.
  - destruct (PyStr.index c s) as [j|]; [|discriminate].
    intros [= <-]. simpl. now apply IH.
Qed.

Lemma index_length (c : ascii) (s : string) (i : nat) :
  PyStr.index c s = Some i -> (i < String.length s)%nat.
Proof.
  revert i. induction s as [|d s IH]; intros i; simpl; [discriminate|].
  destruct (Ascii.eqb c d); [intros [= <-]; lia|].
  destruct (PyStr.index c s) as [j|]; [|discriminate].
  intros [= <-]. specialize (IH j eq_refl). lia.
Qed.

Lemma from_length (s : string) : PyStr.from (String.length s) s = "".
Proof.
  unfold PyStr.from. rewrite Nat.sub_diag.
  induction s as [|c s IH]; simpl; [reflexivity | exact IH].
Qed.

Lemma string_app_length (a b : string) :
  String.length (a +:+ b) = (String.length a + String.length b)%nat.
Proof.
  induction a as [|c a IH]; [reflexivity|].
  change (S (String.length (a +:+ b)) =
          S (String.length a + String.length b)). now rewrite IH.
Qed.

Section Glob.

Context (P : s3FileObjectIO.PyLib) (s3 : s3FileObject.S3).

Import s3FileObjectIO.

(** The cut [glob] makes in the path of the stream. *)
Lemma glob_split_spec (path : string) :
  fst (glob_split path) +:+ snd (glob_split path) = path /\
  contains_char "*" (fst (glob_split path)) = false /\
  contains_char "?" (fst (glob_split path)) = false /\
  (snd (glob_split path) = "" \/
   exists rest, snd (glob_split path) = String "*" rest \/
                snd (glob_split path) = String "?" rest).
Proof.
  unfold glob_split. simpl.
  set (pi1 := default (String.length path) (PyStr.index "*" path)).
  set (pi2 := default (String.length path) (PyStr.index "?" path)).
  split; [apply upto_from|]. split; [|split].
  - apply upto_free. intros j Hj. subst pi1. rewrite Hj. simpl. lia.
  - apply upto_free. intros j Hj. subst pi2. rewrite Hj. simpl. lia.
  - subst pi1 pi2.
    destruct (PyStr.index "*" path) as [i1|] eqn:E1;
      destruct (PyStr.index "?" path) as [i2|] eqn:E2; simpl.
    + right. destruct (Nat.min_dec i1 i2) as [-> | ->].
      * destruct (from_index _ _ _ E1) as [rest ->]. eauto.
      * destruct (from_index _ _ _ E2) as [rest ->]. eauto.
    + right. apply index_length in E1 as Hlt.
      rewrite Nat.min_l by lia.
      destruct (from_index _ _ _ E1) as [rest ->]. eauto.
    + right. apply index_length in E2 as Hlt.
      rewrite Nat.min_r by lia.
      destruct (from_index _ _ _ E2) as [rest ->]. eauto.
    + left. rewrite Nat.min_id. apply from_length.
Qed.

(** X17: [glob] cuts the path at its first [*] or [?], lists the names under
    the part before the cut, and keeps those that match the part from
    the cut on: the part before the cut takes no part in the match.  It
    sends nothing but the listing and leaves the stream as it is. *)
Theorem glob_matches_against_wildcard_part (f : t) (log : list call)
    (c : string) :
  s3FileObject._conn_obj (base f) = s3FileObject.Conn c ->
  exists prefix wildcard,
    prefix +:+ wildcard = s3FileObject._path (base f) /\
    contains_char "*" prefix = false /\ contains_char "?" prefix = false /\
    (wildcard = "" \/
     exists rest, wildcard = String "*" rest \/ wildcard = String "?" rest) /\
    glob s3 (f, log) =
      (inr (List.filter (fun name => fnmatch name wildcard)
              (s3FileObject.list_objects_v2 s3 (s3FileObject._bucket (base f))
                 prefix)),
       (f, log)).
Proof.
  intros Hc.
  destruct (glob_split_spec (s3FileObject._path (base f)))
    as (Hcut & Hstar & Hq & Hw).
  exists (fst (glob_split (s3FileObject._path (base f)))),
         (snd (glob_split (s3FileObject._path (base f)))).
  repeat (split; [assumption|]).
  unfold glob. run_stream.
  destruct (glob_split (s3FileObject._path (base f))). simpl.
  rewrite Hc. reflexivity.
Qed.

(** X18: a pattern without [*] and [[] matches names of its own length only
    (every other character of a pattern stands for one character of the
    name).  So for a path without [*] and [[] that does not begin with
    [?], every name [glob] returns is shorter than the path: none of the
    objects the path would match as a pattern, the object named by a
    path without wildcards among them, is returned. *)
Theorem glob_misses_names_of_path_length (f : t) (log : list call)
    (c : string) (names : list string) :
  (forall name pat,
     contains_char "*" pat = false -> contains_char "[" pat = false ->
     fnmatch name pat = true -> String.length name = String.length pat) ->
  s3FileObject._conn_obj (base f) = s3FileObject.Conn c ->
  contains_char "*" (s3FileObject._path (base f)) = false ->
  contains_char "[" (s3FileObject._path (base f)) = false ->
  (forall rest, s3FileObject._path (base f) <> String "?" rest) ->
  s3FileObject._path (base f) <> "" ->
  glob s3 (f, log) = (inr names, (f, log)) ->
  Forall (fun name =>
            (String.length name < String.length (s3FileObject._path (base f)))%nat)
         names.
Proof.
  intros Hlaw Hc Hstar Hbr Hq Hne Hrun.
  destruct (glob_split_spec (s3FileObject._path (base f)))
    as (Hcut & _ & _ & Hw).
  destruct (glob_split (s3FileObject._path (base f)))
    as [prefix wildcard] eqn:Hsplit.
  revert Hrun. unfold glob, mbind, get. cbn [fst snd]. rewrite Hsplit.
  unfold conn, mbind, get, ret. cbn [fst snd]. rewrite Hc.
  intros [= <-]. cbn [fst snd] in *.
  assert (forall ch, contains_char ch (prefix +:+ wildcard) = false ->
                     contains_char ch wildcard = false) as Hsub.
  { intros ch. clear. induction prefix as [|d p IH]; simpl; [auto|].
    intros H. apply orb_false_elim in H as [_ H]. auto. }
  assert (prefix <> "") as Hpre.
  { intros ->. change (wildcard = s3FileObject._path (base f)) in Hcut.
    rewrite <- Hcut in Hne, Hstar, Hq.
    destruct Hw as [Hw | [rest [Hw | Hw]]]; rewrite Hw in *.
    - now apply Hne.
    - simpl in Hstar. discriminate.
    - now apply (Hq rest). }
  apply Forall_forall. intros name Hin.
  apply list_elem_of_In, filter_In in Hin as [_ Hmatch].
  rewrite <- Hcut in Hstar, Hbr.
  rewrite (Hlaw name wildcard (Hsub _ Hstar) (Hsub _ Hbr) Hmatch).
  rewrite <- Hcut, string_app_length.
  destruct prefix; [contradiction | simpl; lia].
Qed.

End Glob.

(** ** The byte stream on concrete streams *)

Lemma simple_fnmatch_length (pat name : string) :
  contains_char "*" pat = false ->
  StreamScenario.simple_fnmatch_pat pat name = true ->
  String.length name = String.length pat.
Proof.
  revert name. induction pat as [|c pat IH]; intros name Hstar; simpl.
  - destruct name; [reflexivity | discriminate].
  - cbn [contains_char] in Hstar.
    apply orb_false_elim in Hstar as [Hc Hstar].
    rewrite Ascii.eqb_sym in Hc. rewrite Hc.
    destruct name as [|d name]; [discriminate|].
    intros H. apply andb_true_iff in H as [_ H]. simpl. f_equal.
    now apply IH.
Qed.

Lemma init_false_argument_is_no_argument_witness :
  exists s,
    s3FileObjectIO.__init__ (P := StreamScenario.pylib) None
      "http://store/bucket/data.nc" StreamScenario.credentials
      StreamScenario.plain_args = Ok s /\
    s3FileObjectIO._multipart_upload s <> false /\
    s3FileObject._part_size (s3FileObjectIO.base s) = 52428800.
Proof.
  eexists. split; [reflexivity|].
  pose proof (init_false_argument_is_no_argument StreamScenario.pylib None
                "http://store/bucket/data.nc" StreamScenario.credentials
                StreamScenario.plain_args _ eq_refl) as (Hup & _ & Hsize & _).
  split.
  - intros Hoff. apply Hup in Hoff as [_ (c & Hc & _)]. discriminate.
  - apply Hsize. now left.
Defined.


Lemma unconnected_stream_errors_witness :
  exists s,
    s3FileObjectIO.__init__ (P := StreamScenario.pylib) None
      "http://store/bucket/data.nc" StreamScenario.credentials
      (s3FileObjectIO.init_args "w") = Ok s /\
    s3FileObjectIO.read Scenario.one_object (StreamScenario.serving []) 10
      (s, []) = (inl (s3FileObjectIO.Py s3FileObject.not_connected), (s, [])) /\
    s3FileObjectIO.close s3FileObjectIO.as_written (StreamScenario.serving [])
      (s, []) = (inl (s3FileObjectIO.Py s3FileObject.not_connected), (s, [])).
Proof.
  eexists. split; [reflexivity|].
  pose proof (unconnected_stream_errors StreamScenario.pylib
                Scenario.one_object s3FileObjectIO.as_written
                (StreamScenario.serving []) None
                "http://store/bucket/data.nc" StreamScenario.credentials
                (s3FileObjectIO.init_args "w") _ [] 10 [] eq_refl)
    as (Hread & Hclose & _).
  split; [exact Hread | exact Hclose].
Defined.

Lemma read_range_and_position_witness :
  s3FileObjectIO.read Scenario.one_object
    (StreamScenario.serving (StreamScenario.ramp 100)) 20
    (StreamScenario.reader 90, []) =
  (inr (drop 90 (StreamScenario.ramp 100)),
   (StreamScenario.reader 110,
    [s3FileObjectIO.GetObject "bucket" "data.nc" (Some (90, 99))])).
Proof.
  rewrite (read_range_and_position Scenario.one_object
             (StreamScenario.serving (StreamScenario.ramp 100))
             (StreamScenario.reader 90) [] "http://store" 100 20);
    [reflexivity | reflexivity | reflexivity | lia | reflexivity].
Defined.

Lemma read_whole_object_keeps_position_witness :
  s3FileObjectIO.read Scenario.one_object
    (StreamScenario.serving (StreamScenario.ramp 100)) (-1)
    (StreamScenario.reader 90, []) =
  (inr (StreamScenario.ramp 100),
   (StreamScenario.reader 90,
    [s3FileObjectIO.GetObject "bucket" "data.nc" None])).
Proof.
  rewrite (read_whole_object_keeps_position Scenario.one_object
             (StreamScenario.serving (StreamScenario.ramp 100))
             (StreamScenario.reader 90) [] "http://store" 100 (-1));
    [reflexivity | reflexivity | reflexivity | now left].
Defined.

Lemma read_to_end_blocks_relative_seek_witness :
  exists data st',
    s3FileObjectIO.read Scenario.one_object
      (StreamScenario.serving (StreamScenario.ramp 100)) 20
      (StreamScenario.reader 90, []) = (inr data, st') /\
    s3FileObjectIO.tell (fst st') = 110 /\
    s3FileObjectIO.seek Scenario.one_object 0 s3FileObject.SEEK_CUR st' =
      (inl (s3FileObjectIO.Py
              (IOException
                 "Seek 110 is outside file size bounds 0->100 for file data.nc")),
       st').
Proof.
  eexists _, _. split; [vm_compute; reflexivity|].
  apply (read_to_end_blocks_relative_seek Scenario.one_object
           (StreamScenario.serving (StreamScenario.ramp 100))
           (StreamScenario.reader 90) [] "http://store" 100 20
           (drop 90 (StreamScenario.ramp 100)));
    try reflexivity; try lia.
  vm_compute. congruence.
Defined.

Lemma seek_in_binary_write_mode_witness :
  s3FileObject.seek Scenario.one_object (StreamScenario.writing "wb") 3
    s3FileObject.SEEK_SET =
  (Ok 3, s3FileObject.with_seek_pos (StreamScenario.writing "wb") 3).
Proof.
  apply (seek_in_binary_write_mode Scenario.one_object
           (StreamScenario.writing "wb") 3);
    [reflexivity | discriminate | vm_compute; split; congruence].
Defined.

Lemma writelines_appends_every_line_witness :
  exists f',
    s3FileObjectIO.writelines s3FileObjectIO.as_written
      (StreamScenario.serving []) ["ab"; "c"] (StreamScenario.text_writer, []) =
      (inr true, (f', [])) /\
    map BytesIO.data (s3FileObjectIO._buffer f') =
      [[x61; x62; x0a; x63; x0a]] /\
    s3FileObjectIO.tell f' = 5.
Proof.
  exact (writelines_appends_every_line s3FileObjectIO.as_written
           (StreamScenario.serving []) ["ab"; "c"] StreamScenario.text_writer
           [] BytesIO.new eq_refl eq_refl eq_refl eq_refl eq_refl).
Defined.

Lemma write_past_part_size_opens_buffer_per_write_witness :
  exists f',
    s3FileObjectIO.mbind
      (s3FileObjectIO.write s3FileObjectIO.as_written
         (StreamScenario.serving []) (StreamScenario.ramp 10))
      (fun _ => s3FileObjectIO.write s3FileObjectIO.as_written
                  (StreamScenario.serving []) (StreamScenario.ramp 1))
      (StreamScenario.writer [BytesIO.new], []) = (inr 1, (f', [])) /\
    s3FileObjectIO._buffer f' =
      [StreamScenario.filled (StreamScenario.ramp 10);
       StreamScenario.filled (StreamScenario.ramp 1); BytesIO.new] /\
    s3FileObjectIO.tell f' = 11.
Proof.
  apply (write_past_part_size_opens_buffer_per_write s3FileObjectIO.as_written
           (StreamScenario.serving []) (StreamScenario.writer [BytesIO.new])
           [] [] BytesIO.new (StreamScenario.ramp 10) (StreamScenario.ramp 1));
    try reflexivity; vm_compute; congruence.
Defined.

Lemma multipart_split_preserves_bytes_witness :
  exists parts,
    s3FileObjectIO.split_buffers (StreamScenario.assigned 4)
      [StreamScenario.filled (StreamScenario.ramp 10);
       StreamScenario.filled (StreamScenario.ramp 3)] []
      (StreamScenario.writer [], []) =
      (inr parts, (StreamScenario.writer [], [])) /\
    concat (map BytesIO.data parts) =
      (StreamScenario.ramp 10 ++ StreamScenario.ramp 3)%list /\
    Forall (fun p => Z.of_nat (length (BytesIO.data p)) <= 4) parts.
Proof.
  destruct (multipart_split_preserves_bytes (StreamScenario.assigned 4) 4
              [StreamScenario.filled (StreamScenario.ramp 10);
               StreamScenario.filled (StreamScenario.ramp 3)]
              (StreamScenario.writer [], []) eq_refl ltac:(lia))
    as (parts & Hrun & Hdata & Hlen & _).
  - repeat constructor.
  - exists parts. split; [exact Hrun|]. split; [exact Hdata | exact Hlen].
Defined.

Lemma multipart_upload_numbers_parts_witness :
  exists pieces : list (list byte),
    concat pieces = (StreamScenario.ramp 10 ++ StreamScenario.ramp 3)%list /\
    Forall (fun p => Z.of_nat (length p) <= 4) pieces /\
    StreamStated.uploads (snd (snd StreamScenario.uploaded)) =
      zip (StreamStated.numbers 1 (length pieces)) pieces /\
    s3FileObject._current_part
      (s3FileObjectIO.base (fst (snd StreamScenario.uploaded))) =
      Some (1 + Z.of_nat (length pieces) + 1).
Proof.
  destruct (multipart_upload_numbers_parts (StreamScenario.assigned 4)
              (StreamScenario.serving []) 4 1
              (StreamScenario.writer [StreamScenario.filled (StreamScenario.ramp 10);
                                      StreamScenario.filled (StreamScenario.ramp 3)])
              (fst (snd StreamScenario.uploaded)) []
              (snd (snd StreamScenario.uploaded)) eq_refl ltac:(lia))
    as (pieces & Hcat & Hlen & Hup & Hpart & _).
  - repeat constructor.
  - reflexivity.
  - vm_compute. reflexivity.
  - exists pieces. repeat split; assumption.
Defined.

Lemma as_written_write_mode_never_flushes_witness :
  exists r log',
    s3FileObjectIO.flush s3FileObjectIO.as_written (StreamScenario.serving [])
      (StreamScenario.writer [StreamScenario.filled (StreamScenario.ramp 3)], [])
    = (inl r,
       (StreamScenario.writer [StreamScenario.filled (StreamScenario.ramp 3)],
        log')) /\
    List.filter StreamStated.sends_data log' = [].
Proof.
  exact (proj1 (as_written_write_mode_never_flushes (StreamScenario.serving [])
                  (StreamScenario.writer
                     [StreamScenario.filled (StreamScenario.ramp 3)]) []
                  eq_refl)).
Defined.

Lemma close_twice_is_close_once_witness :
  exists st',
    s3FileObjectIO.close s3FileObjectIO.as_written (StreamScenario.serving [])
      (StreamScenario.reader 0, []) = (inr true, st') /\
    s3FileObjectIO._closed (fst st') = true /\
    s3FileObjectIO.close s3FileObjectIO.as_written (StreamScenario.serving [])
      st' = (inr true, st').
Proof.
  eexists. split; [vm_compute; reflexivity|].
  apply (close_twice_is_close_once s3FileObjectIO.as_written
           (StreamScenario.serving []) (StreamScenario.reader 0) []).
  vm_compute. reflexivity.
Defined.


Lemma glob_matches_against_wildcard_part_witness :
  exists prefix wildcard,
    prefix +:+ wildcard = "data?nc" /\
    contains_char "*" prefix = false /\ contains_char "?" prefix = false /\
    (wildcard = "" \/
     exists rest, wildcard = String "*" rest \/ wildcard = String "?" rest) /\
    s3FileObjectIO.glob (P := StreamScenario.pylib) Scenario.one_object
      (StreamScenario.globbing, []) =
      (inr (List.filter
              (fun name => s3FileObjectIO.fnmatch (PyLib := StreamScenario.pylib)
                             name wildcard)
              (s3FileObject.list_objects_v2 Scenario.one_object "bucket" prefix)),
       (StreamScenario.globbing, [])).
Proof.
  exact (glob_matches_against_wildcard_part StreamScenario.pylib
           Scenario.one_object StreamScenario.globbing [] "http://store"
           eq_refl).
Defined.

(** The object [data.nc] is there and the pattern [data?nc] matches its
    name, yet [glob] returns nothing. *)
Lemma glob_misses_names_of_path_length_witness :
  s3FileObject.list_objects_v2 Scenario.one_object "bucket" "data" = ["data.nc"]
  /\
  s3FileObjectIO.glob (P := StreamScenario.pylib) Scenario.one_object
    (StreamScenario.globbing, []) = (inr [], (StreamScenario.globbing, [])) /\
  Forall (fun name => (String.length name < 7)%nat) (@nil string).
Proof.
  split; [reflexivity|]. split; [vm_compute; reflexivity|].
  apply (glob_misses_names_of_path_length StreamScenario.pylib
           Scenario.one_object StreamScenario.globbing [] "http://store" []).
  - intros name pat Hstar _ Hmatch.
    now apply simple_fnmatch_length.
  - reflexivity.
  - reflexivity.
  - reflexivity.
  - intros rest. discriminate.
  - discriminate.
  - vm_compute. reflexivity.
Defined.

(** ** Attributes: setting, listing, deleting *)



(** X20: [setncatts] of an aggregated variable holds back the names in
    [netCDF4._private_atts] and in [s3Variable._private_atts]: of the
    dict it is given, only the other names reach the metadata.
    [setncattr] on the same variable holds nothing back, and neither
    does [setncatts] of a group. *)
Theorem setncatts_holds_private_names_back (nc_private : list string)
    (v : s3Variable.t) (md : gmap string CFA.attr) (g : s3Group.t)
    (cg : CFA.CFAGroup) (attdict : gmap string CFA.attr) (k : string)
    (a : CFA.attr) :
  s3Variable.metadata v = Some md ->
  s3Group._cfa_grp g = Some cg ->
  attdict !! k = Some a ->
  (exists md',
     s3Variable.metadata (Attributes.var_setncatts nc_private v attdict)
       = Some md' /\
     md' !! k = if Attributes.public nc_private k then Some a else md !! k) /\
  (exists md',
     s3Variable.metadata (Attributes.var_setncattr v k a) = Some md' /\
     md' !! k = Some a) /\
  (exists cg',
     s3Group._cfa_grp (Attributes.grp_setncatts g attdict) = Some cg' /\
     CFA.grp_metadata cg' !! k = Some a).
Proof.
  intros Hmd Hg Hk.
  assert (forall md0 : gmap string CFA.attr,
    (filter (fun kv => Attributes.public nc_private (fst kv) = true) attdict
       ∪ md0) !! k =
    if Attributes.public nc_private k then Some a else md0 !! k) as Hfilter.
  { intros md0. rewrite lookup_union, map_lookup_filter, Hk. simpl.
    destruct (Attributes.public nc_private k) eqn:Hp.
    - rewrite option_guard_True by reflexivity. simpl.
      now destruct (md0 !! k).
    - rewrite option_guard_False by discriminate. simpl.
      now destruct (md0 !! k). }
  destruct v as [[cv|] [cd|] nv], g as [[cg0|] ng];
    try discriminate; cbn in Hmd; injection Hmd as <-;
    (split; [eexists; split; [reflexivity | apply Hfilter]|]);
    (split; [eexists; split; [reflexivity | apply lookup_insert_eq]|]);
    eexists; (split; [reflexivity|]); cbn; rewrite lookup_union, Hk;
    now destruct (CFA.grp_metadata cg0 !! k).
Qed.

(** X21: setting an attribute that was not there and deleting it again
    leaves an aggregated variable as it was. *)
Theorem setncattr_then_delncattr_restores {P : Nc.Protocol}
    (v : s3Variable.t) (md : gmap string CFA.attr) (name : string)
    (value : CFA.attr) :
  s3Variable.metadata v = Some md ->
  md !! name = None ->
  s3Variable.delncattr (Attributes.var_setncattr v name value) name
    = (Ok tt, v).
Proof.
  destruct v as [[cv|] [cd|] nv]; cbn; try discriminate;
    intros [= <-] Hnone;
    unfold s3Variable.delncattr, Attributes.var_setncattr,
      Attributes.var_update; cbn;
    rewrite lookup_insert_eq, delete_insert_id by exact Hnone;
    [destruct cv | destruct cv | destruct cd]; reflexivity.
Qed.

(** X22: on a variable, group or dataset that is not aggregated, [delncattr]
    deletes nothing: the call it hands on names [value], which is bound
    nowhere, so it raises [NameError] whatever the attribute, also one
    that [getncattr] finds. *)
Theorem delncattr_of_plain_object_raises_NameError {P : Nc.Protocol}
    (v : s3Variable.t) (g : s3Group.t) (d : s3DatasetAttrs.t) (name : string)
    (a : CFA.attr) :
  s3Variable.metadata v = None ->
  s3Group._cfa_grp g = None ->
  s3DatasetAttrs._cfa_dataset d = None ->
  Nc.ncv_attrs (s3Variable._nc_var v) !! name = Some a ->
  s3Variable.getncattr v name = Ok a /\
  s3Variable.delncattr v name = (Raise (NameError "value"), v) /\
  Attributes.grp_delncattr g name = (Raise (NameError "value"), g) /\
  Attributes.ds_delncattr d name = (Raise (NameError "value"), d).
Proof.
  destruct v as [[cv|] [cd|] nv], g as [[cg|] ng], d as [[c|] nd];
    cbn; try discriminate.
  intros _ _ _ Ha.
  unfold s3Variable.getncattr, s3Variable.delncattr, Nc.getncattr. cbn.
  rewrite Ha. repeat split.
Qed.

(** ** Opening a dataset: what the netCDF library is handed *)

Section OpenFormats.

Context (B : s3Dataset.Backend).

Import s3Dataset.

(** X23: a write-mode open that returns.  The netCDF library is never handed
    the name of an aggregation format: [CFA4] and [DEFAULT] become
    [NETCDF4], [CFA3] becomes [NETCDF3_CLASSIC], and exactly for these
    three the dataset gets a CFA dataset (of that netCDF format, of the
    version asked for, with the root group alone).  On a remote file
    system the netCDF dataset is the in-memory file, diskless and not
    persistent whatever the arguments say; on a local one it is the file
    named, with the arguments as given. *)
Theorem open_write_formats (a : OpenArgs) (ds : t) (tr : list event) :
  mode a = "w" ->
  s3Dataset.open a = (Ok ds, tr) ->
  let h := _nc_dataset ds in
  (format a = "CFA4" \/ format a = "DEFAULT" -> nc_format h = "NETCDF4") /\
  (format a = "CFA3" -> nc_format h = "NETCDF3_CLASSIC") /\
  (format a <> "CFA4" -> format a <> "DEFAULT" -> format a <> "CFA3" ->
   nc_format h = format a) /\
  nc_format h <> "CFA4" /\ nc_format h <> "CFA3" /\ nc_format h <> "DEFAULT" /\
  _creation_format ds = nc_format h /\
  (is_Some (_cfa_dataset ds) <->
   format a = "CFA4" \/ format a = "DEFAULT" \/ format a = "CFA3") /\
  (forall c, _cfa_dataset ds = Some c ->
     CFA.cfa_format c = nc_format h /\
     CFA.cfa_version c = arg_cfa_version a /\
     CFA.cfa_name c = filename a /\ CFA.cfa_groups c = [CFA.root_group]) /\
  (if remote_system (_managed_object ds)
   then nc_filename h = "inmemory.nc" /\ nc_diskless h = true /\
        nc_persist h = false
   else nc_filename h = filename a /\ nc_diskless h = diskless a /\
        nc_persist h = persist a) /\
  last tr = Some (EvNcDataset h).
Proof.
  intros Hm. unfold s3Dataset.open, __init__.
  destruct (incompatible _ _); [discriminate|].
  rewrite Hm. cbn. unfold mbind, emit, lift, raise, ret. cbn.
  change ("w" +:+ "b") with "wb".
  destruct (request_file (filename a) "wb") as [e|mo]; cbn; [discriminate|].
  unfold init_write, new_cfa_dataset, new_nc_dataset, mbind, emit, ret, raise.
  destruct (String.eqb_spec (format a) "CFA4") as [H4|H4]; cbn.
  2: destruct (String.eqb_spec (format a) "DEFAULT") as [HD|HD]; cbn.
  3: destruct (String.eqb_spec (format a) "CFA3") as [H3|H3]; cbn.
  all: destruct (remote_system mo) eqn:Hremote; cbn;
    match goal with
    | |- context [nc_Dataset_raises ?h] =>
        destruct (nc_Dataset_raises h); cbn; [discriminate|]
    end;
    intros [= <- <-]; cbn; rewrite Hremote;
    (split; [try reflexivity; intros [?|?]; congruence|]);
    (split; [try reflexivity; congruence|]);
    (split; [try reflexivity; intros; congruence|]);
    (split; [congruence|]); (split; [congruence|]); (split; [congruence|]);
    (split; [reflexivity|]);
    (split; [split; [intros [c Hc]; try discriminate; tauto
                    | intros Hf; try (now eexists);
                      destruct Hf as [?|[?|?]]; contradiction]|]);
    (split; [intros c Hc; try discriminate; injection Hc as <-;
             repeat split|]);
    (split; [repeat split|]); reflexivity.
Qed.

(** X24: a read-mode open that returns.  The file type handed to the netCDF
    library is the one the classifier finds on the six bytes read from
    the head of the file, [NETCDF4] or [NETCDF3_CLASSIC], the only types
    it can tell; the format kept for the subarray files is the argument
    as it was given, not the type found.  A remote file is read
    whole into memory first and opened from those bytes; a local one is
    opened by its name. *)
Theorem open_read_formats (a : OpenArgs) (ds : t) (tr : list event) :
  mode a = "r" ->
  s3Dataset.open a = (Ok ds, tr) ->
  let h := _nc_dataset ds in
  (exists data version,
     read_from (_managed_object ds) 0 6 = Ok data /\
     Magic._interpret_netCDF_filetype data = Ok (nc_format h, version)) /\
  (nc_format h = "NETCDF4" \/ nc_format h = "NETCDF3_CLASSIC") /\
  _creation_format ds = format a /\
  (if remote_system (_managed_object ds)
   then nc_filename h = "inmemory.nc" /\ In EvRead tr /\
        exists nc_bytes, read (_managed_object ds) = Ok nc_bytes /\
                         nc_memory h = Some nc_bytes
   else nc_filename h = filename a /\ ~ In EvRead tr /\ nc_memory h = None).
Proof.
  intros Hm. unfold s3Dataset.open, __init__.
  destruct (incompatible _ _); [discriminate|].
  rewrite Hm. cbn. unfold mbind, emit, lift, raise, ret. cbn.
  change ("r" +:+ "b") with "rb".
  destruct (request_file (filename a) "rb") as [e|mo]; cbn; [discriminate|].
  unfold init_read, new_nc_dataset, mbind, emit, lift, ret, raise. cbn.
  destruct (read_from mo 0 6) as [e|data] eqn:Hhead; cbn; [discriminate|].
  pose proof (classifier_range data) as Hrange.
  destruct (Magic._interpret_netCDF_filetype data) as [e|[file_type version]]
    eqn:Hcls; cbn; [discriminate|].
  assert (file_type = "NETCDF4" \/ file_type = "NETCDF3_CLASSIC" \/
          file_type = "NOT_NETCDF") as Htype.
  { destruct Hrange as [H|[H|[H|[H|H]]]]; try discriminate H;
      injection H as <- _; auto. }
  destruct (String.eqb_spec file_type "NOT_NETCDF") as [->|Hnot]; cbn;
    [discriminate|].
  assert (file_type = "NETCDF4" \/ file_type = "NETCDF3_CLASSIC") as Hok
    by (destruct Htype as [?|[?|?]]; auto; contradiction).
  destruct (remote_system mo) eqn:Hremote; cbn.
  - destruct (read mo) as [e|nc_bytes] eqn:Hread; cbn; [discriminate|].
    match goal with
    | |- context [nc_Dataset_raises ?h] =>
        destruct (nc_Dataset_raises h); cbn; [discriminate|]
    end.
    match goal with
    | |- context [parser_is_file ?h] => destruct (parser_is_file h); cbn
    end.
    + match goal with
      | |- context [parser_read ?h ?f] => destruct (parser_read h f); cbn
      end; [discriminate|].
      intros [= <- <-]. cbn. rewrite Hremote.
      split; [now exists data, version|].
      repeat split; auto; try (cbn; tauto). now exists nc_bytes.
    + intros [= <- <-]. cbn. rewrite Hremote.
      split; [now exists data, version|].
      repeat split; auto; try (cbn; tauto). now exists nc_bytes.
  - match goal with
    | |- context [nc_Dataset_raises ?h] =>
        destruct (nc_Dataset_raises h); cbn; [discriminate|]
    end.
    match goal with
    | |- context [parser_is_file ?h] => destruct (parser_is_file h); cbn
    end.
    + match goal with
      | |- context [parser_read ?h ?f] => destruct (parser_read h f); cbn
      end; [discriminate|].
      intros [= <- <-]. cbn. rewrite Hremote.
      split; [now exists data, version|]. repeat split; auto.
      cbn. intros H. repeat (destruct H as [H|H]; [discriminate H|]). exact H.
    + intros [= <- <-]. cbn. rewrite Hremote.
      split; [now exists data, version|]. repeat split; auto.
      cbn. intros H. repeat (destruct H as [H|H]; [discriminate H|]). exact H.
Qed.

End OpenFormats.

(** ** The registries of an s3Dataset *)

Lemma create_cfa_of_dataset (C : s3Variable.CFAOps) (d : s3Variable.S3d)
    (name datatype : string) (dims : list string) (subarray_shape : list Z)
    (max_subarray_size : Z) cfa_var cfa_dim nc_dimensions nc_parent s3_dataset :
  s3Variable.create_cfa (s3Variable.InDataset d) name datatype dims
    subarray_shape max_subarray_size
    = Ok (cfa_var, cfa_dim, nc_dimensions, nc_parent, s3_dataset) ->
  nc_parent = s3Variable.d_nc_dataset d.
Proof.
  unfold s3Variable.create_cfa.
  destruct (s3Variable.d_cfa_dataset d) as [c|]; [|now intros [= <- <- <- <- <-]].
  destruct (CFA.getGroup c "root") as [e|g]; cbn; [discriminate|].
  destruct (str_in name (CFA.getDimensions g)).
  - destruct (CFA.getDimension g name); cbn; [discriminate|].
    now intros [= <- <- <- <- <-].
  - destruct (s3Variable.cfa_createVariable _ _ _ _ _ _); cbn; [discriminate|].
    now intros [= <- <- <- <- <-].
Qed.

Lemma create_of_existing_name (C : s3Variable.CFAOps) (L : Nd.Libraries)
    (d : s3Variable.S3d) (name datatype : string)
    (dimensions : s3Variable.pyseq) (fill_value : option Z)
    (subarray_shape : list Z) (max_subarray_size : Z) (nv : Nc.NcVariable) :
  Nc.ncg_variables (s3Variable.d_nc_dataset d) !! name = Some nv ->
  exists e,
    s3Variable.create (s3Variable.InDataset d) name datatype dimensions
      fill_value subarray_shape max_subarray_size = Raise e.
Proof.
  intros Hin. unfold s3Variable.create.
  destruct dimensions as [dims|dims]; [|now eexists].
  destruct (s3Variable.create_cfa _ _ _ _ _ _)
    as [e|[[[[cfa_var cfa_dim] nc_dimensions] nc_parent] s3_dataset]] eqn:Hcfa;
    cbn; [now eexists|].
  apply create_cfa_of_dataset in Hcfa. subst nc_parent.
  match goal with
  | |- context [bind ?m _] => destruct m as [e|[]]; cbn; [now eexists|]
  end.
  unfold s3Variable.nc_createVariable, Nc.createVariable.
  rewrite Hin. cbn. now eexists.
Qed.

Section Registry.

Context (C : s3Variable.CFAOps) (L : Nd.Libraries)
        (R : s3DatasetOps.CFARename).

Import s3DatasetOps.

(** X25: [createVariable] puts a fresh, unfinished [s3Variable] under the
    name before anything is checked.  Under a name the netCDF dataset
    already holds the call raises, and the registry is left with the
    unfinished object in the place of the variable created earlier; the
    other entries of the registry are as before. *)
Theorem createVariable_of_existing_name_unregisters (ds : t)
    (varname datatype : string) (dimensions : s3Variable.pyseq)
    (fill_value : option Z) (subarray_shape : list Z) (max_subarray_size : Z)
    (nv : Nc.NcVariable) :
  Nc.ncg_variables (s3Variable.d_nc_dataset (s3d ds)) !! varname = Some nv ->
  exists e ds',
    createVariable ds varname datatype dimensions fill_value subarray_shape
      max_subarray_size = (Raise e, ds') /\
    _s3_variables ds' !! varname = Some Unfinished /\
    (forall other, other <> varname ->
       _s3_variables ds' !! other = _s3_variables ds !! other).
Proof.
  intros Hin.
  destruct (create_of_existing_name C L (s3d ds) varname datatype dimensions
              fill_value subarray_shape max_subarray_size nv Hin) as [e He].
  exists e. eexists. unfold createVariable. rewrite He.
  split; [reflexivity|]. cbn.
  split; [apply lookup_insert_eq|].
  intros other Hne. apply lookup_insert_ne. congruence.
Qed.

(** X26: in a dataset whose CFA version is neither 0.4 nor 0.5, creating a
    variable over one dimension or more raises [CFAError]: after the CFA
    group has created the CFA variable, before the netCDF variable is
    created (the netCDF dataset is as it was), and with the unfinished
    object left in the registry. *)
Theorem createVariable_refuses_other_cfa_versions (ds : t) (c : CFA.CFADataset)
    (g : CFA.CFAGroup) (cv : CFA.CFAVariable) (varname datatype : string)
    (dims : list string) (fill_value : option Z) (subarray_shape : list Z)
    (max_subarray_size : Z) :
  s3Variable.d_cfa_dataset (s3d ds) = Some c ->
  CFA.getGroup c "root" = Ok g ->
  str_in varname (CFA.getDimensions g) = false ->
  s3Variable.cfa_createVariable g varname datatype dims subarray_shape
    max_subarray_size = Ok cv ->
  CFA.var_dims cv <> [] ->
  CFA.cfa_version c <> "0.4" ->
  CFA.cfa_version c <> "0.5" ->
  exists ds',
    createVariable ds varname datatype (s3Variable.PyTuple dims) fill_value
      subarray_shape max_subarray_size =
    (Raise (CFAError ("Unsupported CFA version " +:+ CFA.cfa_version c
                      +:+ ".")), ds') /\
    _s3_variables ds' !! varname = Some Unfinished /\
    s3Variable.d_nc_dataset (s3d ds') = s3Variable.d_nc_dataset (s3d ds).
Proof.
  intros Hc Hg Hdim Hcv Hdims H4 H5.
  exists (with_variables ds (<[varname := Unfinished]> (_s3_variables ds))).
  split; [|split; [apply lookup_insert_eq | reflexivity]].
  unfold createVariable, s3Variable.create, s3Variable.create_cfa.
  rewrite Hc, Hg. cbn. rewrite Hdim, Hcv. cbn.
  destruct (CFA.var_dims cv) as [|d0 rest] eqn:Hvd; [contradiction|]. cbn.
  destruct (s3d ds) as [dc dn df dd] eqn:Hs3d. cbn in Hc. subst dc.
  destruct (String.eqb_spec (CFA.cfa_version c) "0.5"); [contradiction|].
  destruct (String.eqb_spec (CFA.cfa_version c) "0.4"); [contradiction|].
  reflexivity.
Qed.

(** X27: [renameDimension] renames in the CFA group and in the netCDF
    dataset, and leaves [_s3_dimensions], which [dimensions] answers
    from, as it was.  After a rename to a name not yet registered, an
    aggregated dataset therefore still lists the old name and not the
    new one, and a rename of the new name is refused: the dimension is
    said not to exist, although the netCDF dataset holds it. *)
Theorem renameDimension_leaves_registry_stale (ds ds' : t) (c : CFA.CFADataset)
    (oldname newname other : string) :
  s3Variable.d_cfa_dataset (s3d ds) = Some c ->
  newname ∉ _s3_dimensions ds ->
  renameDimension ds oldname newname = (Ok tt, ds') ->
  has_dimension ds' oldname = true /\
  has_dimension ds' newname = false /\
  str_in newname (map fst (Nc.ncg_dimensions
                             (s3Variable.d_nc_dataset (s3d ds')))) = true /\
  renameDimension ds' newname other =
    (Raise (APIException ("Dimension name: " +:+ newname +:+
                          " does not exist.")), ds').
Proof.
  intros Hc Hnew. unfold renameDimension.
  destruct (has_dimension ds oldname) eqn:Hold; cbn; [|discriminate].
  rewrite Hc.
  destruct (CFA.getGroup c "root") as [e|g]; cbn; [discriminate|].
  destruct (cfa_renameDimension g oldname newname) as [e|g']; cbn;
    [discriminate|].
  unfold nc_renameDimension.
  destruct (str_in oldname _) eqn:Hnc_old; cbn; [|discriminate].
  destruct (str_in newname _) eqn:Hnc_new; cbn; [discriminate|].
  intros [= <-].
  unfold has_dimension in *. cbn. rewrite Hc in Hold.
  rewrite Hold, bool_decide_eq_false_2 by exact Hnew. cbn.
  repeat split.
  unfold str_in in *. apply existsb_exists in Hnc_old as [x [Hx Hxe]].
  apply existsb_exists. apply in_map_iff in Hx as [[n z] [<- Hin]].
  cbn in Hxe. apply String.eqb_eq in Hxe. subst n.
  exists newname. split; [|apply String.eqb_refl].
  apply in_map_iff. exists (newname, z). split; [reflexivity|].
  apply in_map_iff. exists (oldname, z). cbn. rewrite String.eqb_refl.
  split; [reflexivity | exact Hin].
Qed.

End Registry.

(** ** The front end on concrete objects *)

Lemma setncatts_holds_private_names_back_witness :
  (exists md',
     s3Variable.metadata
       (Attributes.var_setncatts ["name"] Scenario.attr_var
          DatasetScenario.attdict) = Some md' /\
     md' !! "parent" = None) /\
  (exists cg',
     s3Group._cfa_grp
       (Attributes.grp_setncatts Scenario.attr_group DatasetScenario.attdict)
       = Some cg' /\
     CFA.grp_metadata cg' !! "parent" = Some (CFA.AttrStr "none")).
Proof.
  destruct (setncatts_holds_private_names_back ["name"] Scenario.attr_var
              {["units" := CFA.AttrStr "K"]} Scenario.attr_group
              Scenario.attr_cfa_group DatasetScenario.attdict "parent"
              (CFA.AttrStr "none") eq_refl eq_refl
              ltac:(vm_compute; reflexivity))
    as ((md' & Hmd & Hk) & _ & Hgrp).
  split; [|exact Hgrp].
  exists md'. split; [exact Hmd|]. rewrite Hk. vm_compute. reflexivity.
Defined.

Lemma setncattr_then_delncattr_restores_witness :
  s3Variable.delncattr (P := Scenario.released)
    (Attributes.var_setncattr Scenario.attr_var "history" (CFA.AttrStr "made"))
    "history" = (Ok tt, Scenario.attr_var).
Proof.
  apply (setncattr_then_delncattr_restores (P := Scenario.released)
           Scenario.attr_var
           {["units" := CFA.AttrStr "K"]}); [reflexivity|].
  vm_compute. reflexivity.
Defined.

Lemma delncattr_of_plain_object_raises_NameError_witness :
  s3Variable.getncattr DatasetScenario.plain_var "long_name"
    = Ok (CFA.AttrStr "temperature") /\
  s3Variable.delncattr (P := Scenario.released) DatasetScenario.plain_var
    "long_name"
    = (Raise (NameError "value"), DatasetScenario.plain_var) /\
  Attributes.grp_delncattr (P := Scenario.released)
    DatasetScenario.plain_group "long_name"
    = (Raise (NameError "value"), DatasetScenario.plain_group) /\
  Attributes.ds_delncattr DatasetScenario.plain_dataset "long_name"
    = (Raise (NameError "value"), DatasetScenario.plain_dataset).
Proof.
  apply (delncattr_of_plain_object_raises_NameError (P := Scenario.released)
           DatasetScenario.plain_var DatasetScenario.plain_group
           DatasetScenario.plain_dataset "long_name"
           (CFA.AttrStr "temperature"));
    reflexivity.
Defined.

Lemma open_write_formats_witness :
  exists ds tr,
    s3Dataset.open (B := DatasetScenario.remote_backend [])
      (s3Dataset.open_args "s3://store/bucket/master.nc" "w" "CFA4" "0.4")
      = (Ok ds, tr) /\
    s3Dataset.nc_format (s3Dataset._nc_dataset ds) = "NETCDF4" /\
    s3Dataset._creation_format ds = s3Dataset.nc_format (s3Dataset._nc_dataset ds) /\
    is_Some (s3Dataset._cfa_dataset ds).
Proof.
  eexists _, _. split; [reflexivity|].
  pose proof (open_write_formats (DatasetScenario.remote_backend [])
                (s3Dataset.open_args "s3://store/bucket/master.nc" "w" "CFA4"
                   "0.4") _ _ eq_refl eq_refl) as H.
  cbv zeta in H. destruct H as (H4 & _ & _ & _ & _ & _ & Hfmt & Hcfa & _).
  split; [apply H4; now left|]. split; [exact Hfmt|]. apply Hcfa. now left.
Defined.

Lemma open_read_formats_witness :
  exists ds tr,
    s3Dataset.open (B := DatasetScenario.remote_backend
                           DatasetScenario.hdf5_header)
      (s3Dataset.open_args "s3://store/bucket/master.nc" "r" "CFA4" "0.4")
      = (Ok ds, tr) /\
    (exists data version,
       s3Dataset.read_from (s3Dataset._managed_object ds) 0 6 = Ok data /\
       Magic._interpret_netCDF_filetype data =
         Ok (s3Dataset.nc_format (s3Dataset._nc_dataset ds), version)) /\
    s3Dataset.nc_format (s3Dataset._nc_dataset ds) = "NETCDF4" /\
    s3Dataset._creation_format ds = "CFA4".
Proof.
  eexists _, _. split; [vm_compute; reflexivity|].
  pose proof (open_read_formats (DatasetScenario.remote_backend
                                   DatasetScenario.hdf5_header)
                (s3Dataset.open_args "s3://store/bucket/master.nc" "r" "CFA4"
                   "0.4") _ _ eq_refl ltac:(vm_compute; reflexivity)) as H.
  cbv zeta in H. destruct H as (Hcls & _ & Hcreation & _).
  split; [exact Hcls|]. split; [reflexivity | exact Hcreation].
Defined.

Lemma createVariable_of_existing_name_unregisters_witness :
  exists e ds',
    s3DatasetOps.createVariable (C := Scenario.simple_cfa "master")
      (L := Scenario.strict_libraries) DatasetScenario.master "x" "i4"
      (s3Variable.PyTuple ["x"]) None [] 0 = (Raise e, ds') /\
    s3DatasetOps._s3_variables ds' !! "x" = Some s3DatasetOps.Unfinished.
Proof.
  destruct (createVariable_of_existing_name_unregisters
              (Scenario.simple_cfa "master") Scenario.strict_libraries
              DatasetScenario.master "x" "i4" (s3Variable.PyTuple ["x"])
              None [] 0 (Scenario.nc_dim_var "x")
              ltac:(vm_compute; reflexivity))
    as (e & ds' & Hrun & Hx & _).
  exists e, ds'. split; [exact Hrun | exact Hx].
Defined.

Lemma createVariable_refuses_other_cfa_versions_witness :
  fst (s3DatasetOps.createVariable (C := Scenario.simple_cfa "master")
         (L := Scenario.strict_libraries) DatasetScenario.master_03 "t" "f4"
         (s3Variable.PyTuple ["x"; "y"]) (Some (-1)) [2; 2] 0)
  = Raise (CFAError "Unsupported CFA version 0.3.").
Proof.
  destruct (createVariable_refuses_other_cfa_versions
              (Scenario.simple_cfa "master") Scenario.strict_libraries
              DatasetScenario.master_03 DatasetScenario.cfa_master_03
              Scenario.root DatasetScenario.cv_t_new "t" "f4" ["x"; "y"]
              (Some (-1)) [2; 2] 0 eq_refl eq_refl eq_refl
              ltac:(vm_compute; reflexivity) ltac:(discriminate)
              ltac:(discriminate) ltac:(discriminate))
    as (ds' & Hrun & _).
  rewrite Hrun. reflexivity.
Defined.

Lemma renameDimension_leaves_registry_stale_witness :
  exists ds',
    s3DatasetOps.renameDimension (R := DatasetScenario.renaming)
      DatasetScenario.master "x" "lon" = (Ok tt, ds') /\
    s3DatasetOps.has_dimension ds' "x" = true /\
    s3DatasetOps.has_dimension ds' "lon" = false /\
    s3DatasetOps.renameDimension (R := DatasetScenario.renaming) ds'
      "lon" "longitude" =
      (Raise (APIException ("Dimension name: " +:+ "lon" +:+
                            " does not exist.")), ds').
Proof.
  eexists. split; [vm_compute; reflexivity|].
  pose proof (renameDimension_leaves_registry_stale DatasetScenario.renaming
                DatasetScenario.master _ Scenario.cfa_master "x" "lon"
                "longitude" eq_refl
                ltac:(refine (bool_decide_unpack _ _); vm_compute; exact I)
                ltac:(vm_compute; reflexivity))
    as (Hold & Hnew & _ & Hagain).
  split; [exact Hold|]. split; [exact Hnew | exact Hagain].
Defined.
